(** * Traction tenant onboarding flow: a model of [scripts/test-tenant-flow.py]

    The script drives six HTTP steps against a Traction tenant proxy and
    reports pass/fail.  The model below follows the Python text function by
    function.

    - Values decoded from JSON (and the [Optional] fields of the tester) are
      [pyval]s; JSON numbers are taken to be integers.
    - The remote service is an oracle [server]: it answers the whole history
      of requests sent on the session, either with a response or by making
      the [requests] call raise.
    - Methods run in a state-and-exception monad [M]: the state is the
      tester object together with what it printed ([stdout]) and what it
      sent ([wire]); a raised exception keeps the state reached so far, as
      in Python.
    - A Python [str] is held as the string of its UTF-8 bytes (the markers
      of the log lines are the bytes of the file); a lone surrogate, which
      JSON text can carry and UTF-8 cannot, is held in its three-byte form.
    - [str()], [json.dumps(..., indent=2)], [s.upper()] on text that is not
      plain ASCII, and the encoder of [sys.stdout] are Python's: they are
      parameters of the model ([builtins]).  The timestamp that [log] prints
      in front of every line is left out.
    - [print] raises [UnicodeEncodeError] when stdout cannot encode the
      line.  Of the texts the script prints, only a string decoded from a
      JSON body can be such: the literals and the numbers are plain,
      [json.dumps] escapes what is not ASCII, [response.text] and
      [response.reason] are decoded with replacement.  The model lets the
      print fail where a line shows a value taken from the body of the
      answer at hand ([log_data]); the steps that store such a value print
      it first, so the later lines that show a field of the tester again
      (the URL in debug mode, [created_did] in step 5 and at the end of the
      run) are printed with [log] as lines that stdout accepts. *)

From Stdlib Require Import String Ascii ZArith List Bool Lia RelationClasses Sorted.
Import ListNotations.

Local Open Scope string_scope.
Local Open Scope list_scope.

Notation "a +++ b" := (String.append a b) (at level 60, right associativity).

(** ** Python values *)

#[local] Set Warnings "-register-all".

Inductive pyval : Type :=
| PNone
| PBool (b : bool)
| PInt (z : Z)
| PStr (s : string)
| PList (l : list pyval)
| PDict (d : list (string * pyval)).

Definition dict := list (string * pyval).

(** [bool(v)] *)
Definition truthy (v : pyval) : bool :=
  match v with
  | PNone => false
  | PBool b => b
  | PInt z => negb (Z.eqb z 0)
  | PStr s => negb (String.eqb s "")
  | PList l => match l with [] => false | _ => true end
  | PDict d => match d with [] => false | _ => true end
  end.

Fixpoint lookup {A : Type} (k : string) (d : list (string * A)) : option A :=
  match d with
  | [] => None
  | (k', v) :: d' => if String.eqb k k' then Some v else lookup k d'
  end.

(** [d[k] = v] *)
Fixpoint dict_set {A : Type} (d : list (string * A)) (k : string) (v : A)
  : list (string * A) :=
  match d with
  | [] => [(k, v)]
  | (k', v') :: d' =>
      if String.eqb k k' then (k', v) :: d' else (k', v') :: dict_set d' k v
  end.

(** [a == b] on decoded JSON ([True == 1] as in Python). *)
Fixpoint py_eq (a b : pyval) {struct a} : bool :=
  match a, b with
  | PNone, PNone => true
  | PBool x, PBool y => Bool.eqb x y
  | PBool x, PInt z => Z.eqb z (Z.b2z x)
  | PInt z, PBool x => Z.eqb z (Z.b2z x)
  | PInt x, PInt y => Z.eqb x y
  | PStr s, PStr t => String.eqb s t
  | PList xs, PList ys =>
      (fix all2 (xs ys : list pyval) {struct xs} : bool :=
         match xs, ys with
         | [], [] => true
         | x :: xs', y :: ys' => py_eq x y && all2 xs' ys'
         | _, _ => false
         end) xs ys
  | PDict xs, PDict ys =>
      Nat.eqb (length xs) (length ys) &&
      (fix sub (xs : list (string * pyval)) {struct xs} : bool :=
         match xs with
         | [] => true
         | (k, v) :: xs' =>
             match lookup k ys with
             | Some w => py_eq v w
             | None => false
             end && sub xs'
         end) xs
  | _, _ => false
  end.

Definition type_name (v : pyval) : string :=
  match v with
  | PNone => "NoneType"
  | PBool _ => "bool"
  | PInt _ => "int"
  | PStr _ => "str"
  | PList _ => "list"
  | PDict _ => "dict"
  end.

(** ** Exceptions, requests and responses *)

(** An exception object: its class and [str(e)].  Every exception of the
    model is a subclass of [Exception]. *)
Record exn : Type := Exn { exn_class : string; exn_str : string }.

Inductive res (A : Type) : Type :=
| Ok (a : A)
| Raise (e : exn).
Arguments Ok {A} a.
Arguments Raise {A} e.

Record response : Type := mkResponse {
  status_code : Z;
  reason : string;
  resp_headers : list (string * string);
  text : string;
  json_ : res pyval           (* what [response.json()] does *)
}.

Record request : Type := mkRequest {
  req_method : string;        (* which [session] method was called *)
  req_url : string;
  req_json : pyval;           (* the [json=] argument, [PNone] when absent *)
  req_headers : list (string * string)
}.

Inductive outcome : Type :=
| Fails (e : exn)             (* the [session] call raises *)
| Responds (r : response).

(** The service, as a function of every request sent so far, the current
    one last. *)
Definition server := list request -> outcome.

Record builtins : Type := mkBuiltins {
  str : pyval -> string;          (* [str(v)], also inside f-strings *)
  json_dumps : pyval -> string;   (* [json.dumps(v, indent=2)] *)
  str_upper : string -> string;   (* [s.upper()] for [s] not plain ASCII *)
  encodes : string -> bool;       (* stdout can encode the line *)
  encode_error : string -> string
    (* [str(e)] of the [UnicodeEncodeError] that [print] raises otherwise *)
}.

(** ** The tester object and its world *)

Record tester : Type := mkTester {
  base_url : string;
  debug : bool;
  tenant_token : pyval;
  reservation_id : pyval;
  reservation_pwd : pyval;
  created_did : pyval;
  stdout : list (string * string);   (* printed lines: level, message *)
  wire : list request                (* requests sent on [self.session] *)
}.

Definition set_tenant_token (v : pyval) (t : tester) : tester :=
  mkTester (base_url t) (debug t) v (reservation_id t) (reservation_pwd t)
           (created_did t) (stdout t) (wire t).
Definition set_reservation_id (v : pyval) (t : tester) : tester :=
  mkTester (base_url t) (debug t) (tenant_token t) v (reservation_pwd t)
           (created_did t) (stdout t) (wire t).
Definition set_reservation_pwd (v : pyval) (t : tester) : tester :=
  mkTester (base_url t) (debug t) (tenant_token t) (reservation_id t) v
           (created_did t) (stdout t) (wire t).
Definition set_created_did (v : pyval) (t : tester) : tester :=
  mkTester (base_url t) (debug t) (tenant_token t) (reservation_id t)
           (reservation_pwd t) v (stdout t) (wire t).
Definition set_stdout (l : list (string * string)) (t : tester) : tester :=
  mkTester (base_url t) (debug t) (tenant_token t) (reservation_id t)
           (reservation_pwd t) (created_did t) l (wire t).
Definition set_wire (w : list request) (t : tester) : tester :=
  mkTester (base_url t) (debug t) (tenant_token t) (reservation_id t)
           (reservation_pwd t) (created_did t) (stdout t) w.

(** ** The monad of methods *)

Definition M (A : Type) : Type := tester -> res A * tester.

Definition ret {A : Type} (a : A) : M A := fun t => (Ok a, t).

Definition bind {A B : Type} (m : M A) (f : A -> M B) : M B :=
  fun t =>
    match m t with
    | (Ok a, t') => f a t'
    | (Raise e, t') => (Raise e, t')
    end.

Definition raise {A : Type} (e : exn) : M A := fun t => (Raise e, t).

(** [try: m  except Exception as e: h e] *)
Definition try_except {A : Type} (m : M A) (h : exn -> M A) : M A :=
  fun t =>
    match m t with
    | (Ok a, t') => (Ok a, t')
    | (Raise e, t') => h e t'
    end.

Definition self : M tester := fun t => (Ok t, t).

Definition assign (upd : tester -> tester) : M unit :=
  fun t => (Ok tt, upd t).

Definition lift {A : Type} (r : res A) : M A := fun t => (r, t).

Declare Scope py_scope.
Delimit Scope py_scope with py.
Notation "x <- m ;; k" := (bind m (fun x => k))
  (at level 100, m at next level, right associativity) : py_scope.
Notation "m ;; k" := (bind m (fun _ => k))
  (at level 100, right associativity) : py_scope.
Local Open Scope py_scope.

Definition when (b : bool) (m : M unit) : M unit :=
  if b then m else ret tt.

(** ** String helpers *)

(** [s.rstrip('/')] *)
Fixpoint rstrip_slash (s : string) : string :=
  match s with
  | EmptyString => EmptyString
  | String c r =>
      match rstrip_slash r with
      | EmptyString =>
          if Ascii.eqb c "/" then EmptyString else String c EmptyString
      | r' => String c r'
      end
  end.

Definition upper_ascii (c : ascii) : ascii :=
  let n := nat_of_ascii c in
  if (Nat.leb 97 n && Nat.leb n 122)%bool then ascii_of_nat (n - 32) else c.

Fixpoint upper_letters (s : string) : string :=
  match s with
  | EmptyString => EmptyString
  | String c r => String (upper_ascii c) (upper_letters r)
  end.

Fixpoint is_ascii (s : string) : bool :=
  match s with
  | EmptyString => true
  | String c r => (Nat.ltb (nat_of_ascii c) 128 && is_ascii r)%bool
  end.

(** [s.upper()]: on plain ASCII only the letters a-z change; other text is
    mapped by Unicode's tables, which the model leaves to Python. *)
Definition upper (py : builtins) (s : string) : string :=
  if is_ascii s then upper_letters s else str_upper py s.

(** The number of characters of a [str] held as UTF-8: the bytes that do
    not continue a character. *)
Fixpoint str_len (s : string) : nat :=
  match s with
  | EmptyString => 0
  | String c r =>
      (if (Nat.leb 128 (nat_of_ascii c) && Nat.ltb (nat_of_ascii c) 192)%bool
       then 0 else 1) + str_len r
  end.

(** The markers that start many log lines, byte for byte as in the file. *)
Definition MARK_OK : string := "âœ…".
Definition MARK_FAIL : string := "âŒ".
Definition MARK_WARN : string := "âš ï¸".
Definition MARK_START : string := "ğŸš€".
Definition MARK_EXEC : string := "ğŸ”„".
Definition MARK_SUMMARY : string := "ğŸ“Š".
Definition MARK_PASSED : string := "ğŸ‰".
Definition MARK_BROKEN : string := "ğŸ’¥".

Definition NL : string := String (ascii_of_nat 10) EmptyString.

(** ["=" * 50] *)
Fixpoint repeat_str (s : string) (n : nat) : string :=
  match n with
  | O => EmptyString
  | S n' => s +++ repeat_str s n'
  end.

(** ** class TractionTester *)

Section TractionTester.

Variable py : builtins.
Variable srv : server.
(** [int(time.time())] at the moment step 1 builds its payload. *)
Variable now : Z.

(** [__init__] *)
Definition init (base_url_arg : string) (debug_arg : bool) : tester :=
  mkTester (rstrip_slash base_url_arg) debug_arg PNone PNone PNone PNone [] [].

(** [log(message, level)]: one printed line. *)
Definition log_at (level message : string) : M unit :=
  assign (fun t => set_stdout (stdout t ++ [(level, message)]) t).

Definition log (message : string) : M unit := log_at "INFO" message.

(** [log(message, level)] for a message that shows a value decoded from the
    body of the answer at hand: [print] raises when stdout cannot encode
    the line. *)
Definition log_data (level message : string) : M unit :=
  if encodes py message then log_at level message
  else raise (Exn "UnicodeEncodeError" (encode_error py message)).

(** [response.json()] *)
Definition response_json (r : response) : M pyval := lift (json_ r).

(** [v.get(key, default)]: only a dict has [get]. *)
Definition py_get (v : pyval) (key : string) (default : pyval) : M pyval :=
  match v with
  | PDict d =>
      ret (match lookup key d with Some x => x | None => default end)
  | _ =>
      raise (Exn "AttributeError"
               ("'" +++ type_name v +++ "' object has no attribute 'get'"))
  end.

(** [len(v)] *)
Definition py_len (v : pyval) : M Z :=
  match v with
  | PStr s => ret (Z.of_nat (str_len s))
  | PList l => ret (Z.of_nat (List.length l))
  | PDict d => ret (Z.of_nat (List.length d))
  | _ =>
      raise (Exn "TypeError"
               ("object of type '" +++ type_name v +++ "' has no len()"))
  end.

Definition headers_value (h : list (string * string)) : pyval :=
  PDict (map (fun kv => (fst kv, PStr (snd kv))) h).

Definition log_request (method url : string) (payload : pyval)
    (headers : list (string * string)) : M unit :=
  t <- self ;;
  when (debug t)
    (log_at "DEBUG" ("REQUEST: " +++ method +++ " " +++ url) ;;
     when (match headers with [] => false | _ => true end)
       (log_at "DEBUG" ("HEADERS: " +++ json_dumps py (headers_value headers))) ;;
     when (truthy payload)
       (log_at "DEBUG" ("PAYLOAD: " +++ json_dumps py payload))).

Definition log_response (r : response) : M unit :=
  t <- self ;;
  when (debug t)
    (log_at "DEBUG"
       ("RESPONSE: " +++ str py (PInt (status_code r)) +++ " " +++ reason r) ;;
     log_at "DEBUG"
       ("RESPONSE HEADERS: " +++ json_dumps py (headers_value (resp_headers r))) ;;
     try_except
       (content <- response_json r ;;
        log_at "DEBUG" ("RESPONSE BODY: " +++ json_dumps py content))
       (fun _ => log_at "DEBUG" ("RESPONSE BODY (text): " +++ text r))).

(** [self.session.get/post/put]: the request goes on the wire and the
    service answers the history. *)
Definition session_send (method url : string) (json : pyval)
    (headers : list (string * string)) : M response :=
  fun t =>
    let w := wire t ++ [mkRequest method url json headers] in
    (match srv w with
     | Fails e => Raise e
     | Responds r => Ok r
     end, set_wire w t).

Definition make_request (method endpoint : string) (payload : pyval)
    (headers : option (list (string * string))) (use_auth : bool)
  : M response :=
  t <- self ;;
  let url := base_url t +++ endpoint in
  let req_headers :=
    match headers with
    | Some (kv :: h) => kv :: h
    | _ => []
    end in
  let req_headers :=
    if (use_auth && truthy (tenant_token t))%bool
    then dict_set req_headers "Authorization"
           ("Bearer " +++ str py (tenant_token t))
    else req_headers in
  log_request method url payload req_headers ;;
  try_except
    (response <-
       (if String.eqb (upper py method) "GET"
        then session_send "GET" url PNone req_headers
        else if String.eqb (upper py method) "POST"
        then session_send "POST" url payload req_headers
        else if String.eqb (upper py method) "PUT"
        then session_send "PUT" url payload req_headers
        else raise (Exn "ValueError" ("Unsupported method: " +++ method))) ;;
     log_response response ;;
     ret response)
    (fun e =>
       log_at "ERROR" ("Request failed: " +++ exn_str e) ;;
       raise e).

Definition step_1_create_public_reservation : M bool :=
  log "=== STEP 1: Create Public Reservation ===" ;;
  let payload :=
    PDict [("tenant_name", PStr ("test-tenant-" +++ str py (PInt now)));
           ("contact_email", PStr "test@example.com")] in
  try_except
    (response <-
       make_request "POST" "/multitenancy/reservations" payload None false ;;
     if Z.eqb (status_code response) 200 then
       data <- response_json response ;;
       rid <- py_get data "reservation_id" PNone ;;
       assign (set_reservation_id rid) ;;
       pwd <- py_get data "reservation_pwd" PNone ;;
       assign (set_reservation_pwd pwd) ;;
       log_data "INFO"
         (MARK_OK +++ " Reservation created successfully: " +++ str py rid) ;;
       log_data "INFO" ("Reservation password: " +++ str py pwd) ;;
       ret true
     else
       log_at "ERROR" (MARK_FAIL +++ " Failed to create reservation: "
                         +++ str py (PInt (status_code response))) ;;
       log_at "ERROR" ("Response: " +++ text response) ;;
       ret false)
    (fun e =>
       log_at "ERROR" (MARK_FAIL +++ " Exception during reservation creation: "
                         +++ exn_str e) ;;
       ret false).

Definition step_2_tenant_checkin : M bool :=
  log "=== STEP 2: Tenant Check-In ===" ;;
  t <- self ;;
  if negb (truthy (reservation_id t)) then
    log_at "ERROR" (MARK_FAIL +++ " No reservation ID available") ;;
    ret false
  else
    let payload := PDict [("reservation_pwd", reservation_pwd t)] in
    try_except
      (response <-
         make_request "POST"
           ("/multitenancy/reservations/" +++ str py (reservation_id t)
              +++ "/check-in") payload None false ;;
       if Z.eqb (status_code response) 200 then
         data <- response_json response ;;
         tok <- py_get data "token" PNone ;;
         assign (set_tenant_token tok) ;;
         if truthy tok then
           log (MARK_OK +++ " Tenant check-in successful") ;;
           n <- py_len tok ;;
           log ("JWT token obtained (length: " +++ str py (PInt n) +++ ")") ;;
           ret true
         else
           log_at "ERROR" (MARK_FAIL +++ " No token in check-in response") ;;
           ret false
       else
         log_at "ERROR" (MARK_FAIL +++ " Failed to check in: "
                           +++ str py (PInt (status_code response))) ;;
         log_at "ERROR" ("Response: " +++ text response) ;;
         ret false)
      (fun e =>
         log_at "ERROR" (MARK_FAIL +++ " Exception during check-in: "
                           +++ exn_str e) ;;
         ret false).

(** The first [try] of step 3 either returns from the method ([Some b]) or
    falls through to the second ([None]). *)
Definition check_tenant_config : M (option bool) :=
  try_except
    (response <- make_request "GET" "/tenant/config" PNone None true ;;
     if Z.eqb (status_code response) 200 then
       config <- response_json response ;;
       log (MARK_OK +++ " Tenant config retrieved") ;;
       t <- self ;;
       when (debug t) (log ("Tenant config: " +++ json_dumps py config)) ;;
       ret None
     else
       log_at "ERROR" (MARK_FAIL +++ " Failed to get tenant config: "
                         +++ str py (PInt (status_code response))) ;;
       ret (Some false))
    (fun e =>
       log_at "ERROR" (MARK_FAIL +++ " Exception getting tenant config: "
                         +++ exn_str e) ;;
       ret (Some false)).

Definition check_server_config : M bool :=
  try_except
    (response <- make_request "GET" "/status/config" PNone None true ;;
     if Z.eqb (status_code response) 200 then
       server_config <- response_json response ;;
       log (MARK_OK +++ " Server config retrieved") ;;
       config <- py_get server_config "config" (PDict []) ;;
       plugin_config <- py_get config "plugin_config" (PDict []) ;;
       cheqd_config <- py_get plugin_config "cheqd" (PDict []) ;;
       (if truthy cheqd_config then
          log (MARK_OK +++ " cheqd plugin configuration found") ;;
          network <- py_get cheqd_config "network" (PStr "not set") ;;
          log_data "INFO" ("Network: " +++ str py network) ;;
          registrar <- py_get cheqd_config "registrar_url" (PStr "not set") ;;
          log_data "INFO" ("Registrar URL: " +++ str py registrar) ;;
          resolver <- py_get cheqd_config "resolver_url" (PStr "not set") ;;
          log_data "INFO" ("Resolver URL: " +++ str py resolver)
        else
          log_at "WARN"
            (MARK_WARN +++ "  No cheqd plugin configuration found in server config")) ;;
       config' <- py_get server_config "config" (PDict []) ;;
       wallet <- py_get config' "wallet" (PDict []) ;;
       wallet_type <- py_get wallet "type" PNone ;;
       (if py_eq wallet_type (PStr "askar-anoncreds") then
          log (MARK_OK +++ " Wallet type is askar-anoncreds (required for cheqd)")
        else
          log_data "WARN"
            (MARK_WARN +++ "  Wallet type is " +++ str py wallet_type
               +++ ", cheqd requires askar-anoncreds")) ;;
       t <- self ;;
       when (debug t)
         (log ("Server config: " +++ json_dumps py server_config)) ;;
       ret true
     else
       log_at "WARN"
         (MARK_WARN +++ "  Failed to get server config: "
            +++ str py (PInt (status_code response))
            +++ ", continuing without validation") ;;
       ret true)
    (fun e =>
       log_at "WARN"
         (MARK_WARN +++ "  Exception getting server config: " +++ exn_str e
            +++ ", continuing") ;;
       ret true).

Definition step_3_validate_configuration : M bool :=
  log "=== STEP 3: Validate Configuration ===" ;;
  r <- check_tenant_config ;;
  match r with
  | Some b => ret b
  | None => check_server_config
  end.

Definition payloads_to_test : list pyval :=
  [ PDict [("options", PDict [("network", PStr "xanadu");
                              ("key_type", PStr "ed25519")])];
    PDict [("options", PDict [("network", PStr "xanadu");
                              ("key_type", PStr "ed25519");
                              ("method_specific_id_algo", PStr "uuid")])];
    PDict [("options", PDict [("network", PStr "xanadu");
                              ("key_type", PStr "ed25519")]);
           ("features", PDict [])] ].

(** The body of step 4's loop for payload number [i] (counted from 0):
    [Some b] when the method returns [b] from inside the loop, [None] when
    the loop goes on to the next payload. *)
Definition try_payload (i : Z) (payload : pyval) : M (option bool) :=
  log ("--- Testing payload format " +++ str py (PInt (i + 1)) +++ " ---") ;;
  try_except
    (response <- make_request "POST" "/did/cheqd/create" payload None true ;;
     if Z.eqb (status_code response) 200 then
       data <- response_json response ;;
       top <- py_get data "did" PNone ;;
       did <- (if truthy top then ret top
               else result <- py_get data "result" (PDict []) ;;
                    py_get result "did" PNone) ;;
       if truthy did then
         assign (set_created_did did) ;;
         log_data "INFO"
           (MARK_OK +++ " cheqd DID created successfully: " +++ str py did) ;;
         ret (Some true)
       else
         log_at "ERROR" (MARK_FAIL +++ " No DID in successful response") ;;
         log_at "ERROR" ("Response data: " +++ json_dumps py data) ;;
         ret None
     else if Z.eqb (status_code response) 500 then
       log_at "ERROR" (MARK_FAIL +++ " Server error creating DID (payload "
                         +++ str py (PInt (i + 1)) +++ "): "
                         +++ str py (PInt (status_code response))) ;;
       try_except
         (error_data <- response_json response ;;
          log_at "ERROR" ("Error details: " +++ json_dumps py error_data))
         (fun _ => log_at "ERROR" ("Error response (text): " +++ text response)) ;;
       ret None
     else
       log_at "ERROR" (MARK_FAIL +++ " Failed to create DID (payload "
                         +++ str py (PInt (i + 1)) +++ "): "
                         +++ str py (PInt (status_code response))) ;;
       log_at "ERROR" ("Response: " +++ text response) ;;
       ret None)
    (fun e =>
       log_at "ERROR" (MARK_FAIL +++ " Exception during DID creation (payload "
                         +++ str py (PInt (i + 1)) +++ "): " +++ exn_str e) ;;
       ret None).

(** [for i, payload in enumerate(...)], followed by the lines after the
    loop. *)
Fixpoint for_payloads (i : Z) (payloads : list pyval) : M bool :=
  match payloads with
  | [] =>
      log_at "ERROR" (MARK_FAIL +++ " All payload formats failed") ;;
      ret false
  | payload :: rest =>
      r <- try_payload i payload ;;
      match r with
      | Some b => ret b
      | None => for_payloads (i + 1) rest
      end
  end.

Definition step_4_create_cheqd_did : M bool :=
  log "=== STEP 4: Create cheqd DID ===" ;;
  for_payloads 0 payloads_to_test.

Definition step_5_assign_public_did : M bool :=
  log "=== STEP 5: Assign Public DID ===" ;;
  t <- self ;;
  if negb (truthy (created_did t)) then
    log_at "ERROR" (MARK_FAIL +++ " No DID created to assign") ;;
    ret false
  else
    try_except
      (response <-
         make_request "POST"
           ("/wallet/did/public?did=" +++ str py (created_did t))
           (PDict []) None true ;;
       if Z.eqb (status_code response) 200 then
         log (MARK_OK +++ " Public DID assigned successfully: "
                +++ str py (created_did t)) ;;
         response <- make_request "GET" "/wallet/did/public" PNone None true ;;
         if Z.eqb (status_code response) 200 then
           public_did_data <- response_json response ;;
           result <- py_get public_did_data "result" (PDict []) ;;
           assigned_did <- py_get result "did" PNone ;;
           if py_eq assigned_did (created_did t) then
             log (MARK_OK +++ " Public DID assignment verified") ;;
             ret true
           else
             log_data "ERROR"
               (MARK_FAIL +++ " DID assignment mismatch. Expected: "
                  +++ str py (created_did t) +++ ", Got: "
                  +++ str py assigned_did) ;;
             ret false
         else
           log_at "ERROR" (MARK_FAIL +++ " Failed to verify public DID: "
                             +++ str py (PInt (status_code response))) ;;
           ret false
       else
         log_at "ERROR" (MARK_FAIL +++ " Failed to assign public DID: "
                           +++ str py (PInt (status_code response))) ;;
         log_at "ERROR" ("Response: " +++ text response) ;;
         ret false)
      (fun e =>
         log_at "ERROR"
           (MARK_FAIL +++ " Exception during public DID assignment: "
              +++ exn_str e) ;;
         ret false).

Definition step_6_validate_issuer_status : M bool :=
  log "=== STEP 6: Validate Issuer Status ===" ;;
  try_except
    (response <- make_request "GET" "/wallet/did/public" PNone None true ;;
     if Z.eqb (status_code response) 200 then
       public_did_data <- response_json response ;;
       result <- py_get public_did_data "result" PNone ;;
       if truthy result then
         log (MARK_OK +++ " Tenant has public DID - ready for issuance") ;;
         ret true
       else
         log_at "ERROR" (MARK_FAIL +++ " No public DID found") ;;
         ret false
     else
       log_at "ERROR" (MARK_FAIL +++ " Failed to check issuer status: "
                         +++ str py (PInt (status_code response))) ;;
       ret false)
    (fun e =>
       log_at "ERROR" (MARK_FAIL +++ " Exception during issuer status check: "
                         +++ exn_str e) ;;
       ret false).

(** [steps] of [run_full_test] *)
Definition steps : list (string * M bool) :=
  [ ("Create Public Reservation", step_1_create_public_reservation);
    ("Tenant Check-In", step_2_tenant_checkin);
    ("Validate Configuration", step_3_validate_configuration);
    ("Create cheqd DID", step_4_create_cheqd_did);
    ("Assign Public DID", step_5_assign_public_did);
    ("Validate Issuer Status", step_6_validate_issuer_status) ].

(** The first loop of [run_full_test]: [results] is the dict built so far;
    a failing step breaks out of the loop. *)
Fixpoint run_steps (todo : list (string * M bool))
    (results : list (string * bool)) : M (list (string * bool)) :=
  match todo with
  | [] => ret results
  | (step_name, step_func) :: rest =>
      log (NL +++ MARK_EXEC +++ " Executing: " +++ step_name) ;;
      success <- step_func ;;
      let results := dict_set results step_name success in
      if success then
        log (MARK_OK +++ " " +++ step_name +++ " completed successfully") ;;
        run_steps rest results
      else
        log (MARK_FAIL +++ " " +++ step_name +++ " failed") ;;
        ret results
  end.

(** The second loop, over [results.items()]. *)
Fixpoint summarize (items : list (string * bool)) (all_passed : bool)
  : M bool :=
  match items with
  | [] => ret all_passed
  | (step_name, success) :: rest =>
      let status := if success then MARK_OK +++ " PASS"
                    else MARK_FAIL +++ " FAIL" in
      log (step_name +++ ": " +++ status) ;;
      summarize rest (if negb success then false else all_passed)
  end.

Definition run_full_test : M bool :=
  log (MARK_START +++ " Starting Traction Tenant Onboarding Flow Test") ;;
  t <- self ;;
  log ("Base URL: " +++ base_url t) ;;
  log ("Debug mode: " +++ str py (PBool (debug t))) ;;
  results <- run_steps steps [] ;;
  log (NL +++ MARK_SUMMARY +++ " TEST SUMMARY") ;;
  log (repeat_str "=" 50) ;;
  all_passed <- summarize results true ;;
  (if all_passed then
     log (NL +++ MARK_PASSED
            +++ " ALL TESTS PASSED - Tenant onboarding flow working correctly!") ;;
     t <- self ;;
     log ("Created DID: " +++ str py (created_did t))
   else
     log (NL +++ MARK_BROKEN
            +++ " TESTS FAILED - Issue identified in tenant onboarding flow")) ;;
  ret all_passed.

(** [main] after argument parsing: the exit status of the process, and the
    final state.  An exception that leaves [run_full_test] ends the
    interpreter with status 1. *)
Definition main (base_url_arg : string) (debug_arg : bool) : Z * tester :=
  match run_full_test (init base_url_arg debug_arg) with
  | (Ok success, t) => ((if success then 0 else 1)%Z, t)
  | (Raise _, t) => (1%Z, t)
  end.

End TractionTester.

Arguments init base_url_arg debug_arg : clear implicits.

(** ** The six steps, by number *)

Inductive step_id : Type := S1 | S2 | S3 | S4 | S5 | S6.

Definition all_steps : list step_id := [S1; S2; S3; S4; S5; S6].

Definition number (i : step_id) : nat :=
  match i with S1 => 1 | S2 => 2 | S3 => 3 | S4 => 4 | S5 => 5 | S6 => 6 end.

(** The name under which [run_full_test] lists the step. *)
Definition name_of (i : step_id) : string :=
  match i with
  | S1 => "Create Public Reservation"
  | S2 => "Tenant Check-In"
  | S3 => "Validate Configuration"
  | S4 => "Create cheqd DID"
  | S5 => "Assign Public DID"
  | S6 => "Validate Issuer Status"
  end.

(** The line a step prints first when it is called. *)
Definition header_line (i : step_id) : string * string :=
  ("INFO",
   match i with
   | S1 => "=== STEP 1: Create Public Reservation ==="
   | S2 => "=== STEP 2: Tenant Check-In ==="
   | S3 => "=== STEP 3: Validate Configuration ==="
   | S4 => "=== STEP 4: Create cheqd DID ==="
   | S5 => "=== STEP 5: Assign Public DID ==="
   | S6 => "=== STEP 6: Validate Issuer Status ==="
   end).

Definition method_of (py : builtins) (srv : server) (now : Z) (i : step_id)
  : M bool :=
  match i with
  | S1 => step_1_create_public_reservation py srv now
  | S2 => step_2_tenant_checkin py srv
  | S3 => step_3_validate_configuration py srv
  | S4 => step_4_create_cheqd_did py srv
  | S5 => step_5_assign_public_did py srv
  | S6 => step_6_validate_issuer_status py srv
  end.

(** A step was called in the run that printed [stdout t]: its header is
    there. *)
Definition invoked (i : step_id) (t : tester) : Prop :=
  In (header_line i) (stdout t).

(** [status] in the second loop of [run_full_test]. *)
Definition status_text (passed : bool) : string :=
  if passed then MARK_OK +++ " PASS" else MARK_FAIL +++ " FAIL".

(** The line of the final summary for a step. *)
Definition summary_line (i : step_id) (passed : bool) : string * string :=
  ("INFO", name_of i +++ ": " +++ status_text passed).

Definition add_line (ln : string * string) (t : tester) : tester :=
  set_stdout (stdout t ++ [ln]) t.

(** What [run_full_test] prints around a call of a step. *)
Definition announced (i : step_id) (t : tester) : tester :=
  add_line ("INFO", NL +++ MARK_EXEC +++ " Executing: " +++ name_of i) t.
Definition completed (i : step_id) (t : tester) : tester :=
  add_line ("INFO", MARK_OK +++ " " +++ name_of i +++ " completed successfully") t.
Definition failed (i : step_id) (t : tester) : tester :=
  add_line ("INFO", MARK_FAIL +++ " " +++ name_of i +++ " failed") t.

(** The state in which [run_full_test] enters its loop. *)
Definition started (py : builtins) (t : tester) : tester :=
  add_line ("INFO", "Debug mode: " +++ str py (PBool (debug t)))
    (add_line ("INFO", "Base URL: " +++ base_url t)
       (add_line ("INFO", MARK_START
                            +++ " Starting Traction Tenant Onboarding Flow Test") t)).

Section Sequencing.

Variable py : builtins.
Variable srv : server.
Variable now : Z.

(** Every step of [todo], called in order on the state its predecessor
    left, reports success. *)
Fixpoint succeed_in_order (todo : list step_id) (t : tester) : Prop :=
  match todo with
  | [] => True
  | i :: rest =>
      exists t', method_of py srv now i (announced i t) = (Ok true, t')
                 /\ succeed_in_order rest (completed i t')
  end.


(** The entry of step [i] in the list [steps] of [run_full_test]. *)
Definition entry (i : step_id) : string * M bool :=
  (name_of i, method_of py srv now i).

(** The steps that the first loop of [run_full_test] calls when it is to go
    through [todo] from state [t], each with what it reported, and the state
    in which the loop ends. *)
Fixpoint outcomes (todo : list step_id) (t : tester)
  : list (step_id * bool) * tester :=
  match todo with
  | [] => ([], t)
  | i :: rest =>
      match method_of py srv now i (announced i t) with
      | (Ok true, t') =>
          let (out, t'') := outcomes rest (completed i t') in
          ((i, true) :: out, t'')
      | (Ok false, t') => ([(i, false)], failed i t')
      | (Raise _, t') => ([], t')
      end
  end.

End Sequencing.

(** [results] after the loop has stored [out] in it. *)
Definition record (results : list (string * bool))
    (out : list (step_id * bool)) : list (string * bool) :=
  fold_left (fun r ib => dict_set r (name_of (fst ib)) (snd ib)) out results.

(** ** What [make_request] sends *)

(** [req_headers] for a call without [headers]. *)
Definition auth_headers (py : builtins) (t : tester) (use_auth : bool)
  : list (string * string) :=
  if (use_auth && truthy (tenant_token t))%bool
  then [("Authorization", "Bearer " +++ str py (tenant_token t))]
  else [].

Definition request_of (py : builtins) (t : tester) (method endpoint : string)
    (json : pyval) (use_auth : bool) : request :=
  mkRequest method (base_url t +++ endpoint) json (auth_headers py t use_auth).

(** The state after one more request and some more printed lines. *)
Definition after (t : tester) (l : list (string * string)) (req : request)
  : tester :=
  set_wire (wire t ++ [req]) (set_stdout (stdout t ++ l) t).

(** ** The requests of the steps, and what the answers carry *)

Definition reservation_payload (py : builtins) (now : Z) : pyval :=
  PDict [("tenant_name", PStr ("test-tenant-" +++ str py (PInt now)));
         ("contact_email", PStr "test@example.com")].

Definition reservation_request (py : builtins) (now : Z) (t : tester) : request :=
  request_of py t "POST" "/multitenancy/reservations"
    (reservation_payload py now) false.

Definition checkin_request (py : builtins) (t : tester) : request :=
  request_of py t "POST"
    ("/multitenancy/reservations/" +++ str py (reservation_id t) +++ "/check-in")
    (PDict [("reservation_pwd", reservation_pwd t)]) false.

Definition tenant_config_request (py : builtins) (t : tester) : request :=
  request_of py t "GET" "/tenant/config" PNone true.

Definition server_config_request (py : builtins) (t : tester) : request :=
  request_of py t "GET" "/status/config" PNone true.

Definition create_request (py : builtins) (t : tester) (payload : pyval)
  : request :=
  request_of py t "POST" "/did/cheqd/create" payload true.

Definition assign_request (py : builtins) (t : tester) : request :=
  request_of py t "POST" ("/wallet/did/public?did=" +++ str py (created_did t))
    (PDict []) true.

Definition readback_request (py : builtins) (t : tester) : request :=
  request_of py t "GET" "/wallet/did/public" PNone true.

(** [d.get(key)] *)
Definition get_or_none (d : dict) (key : string) : pyval :=
  match lookup key d with Some v => v | None => PNone end.

(** [v.get(key, default)] when [v] is a dict, nothing otherwise. *)
Definition dict_get (v : pyval) (key : string) (default : pyval) : option pyval :=
  match v with
  | PDict d => Some (match lookup key d with Some x => x | None => default end)
  | _ => None
  end.

(** [server_config.get('config', {}).get('plugin_config', {}).get('cheqd', {})] *)
Definition cheqd_config (server_config : pyval) : option pyval :=
  match dict_get server_config "config" (PDict []) with
  | Some config =>
      match dict_get config "plugin_config" (PDict []) with
      | Some plugin_config => dict_get plugin_config "cheqd" (PDict [])
      | None => None
      end
  | None => None
  end.

(** The identifier in the body of an answer to the creation request: the
    top-level [did] when it is there (and truthy), else [result.did]. *)
Definition extract_did (data : pyval) : option pyval :=
  match dict_get data "did" PNone with
  | Some top =>
      if truthy top then Some top
      else match dict_get data "result" (PDict []) with
           | Some result =>
               match dict_get result "did" PNone with
               | Some nested => if truthy nested then Some nested else None
               | None => None
               end
           | None => None
           end
  | None => None
  end.

(** The identifier that an answer to the creation request yields: HTTP 200
    and an extractable identifier. *)
Definition created_by (o : outcome) : option pyval :=
  match o with
  | Responds r =>
      if Z.eqb (status_code r) 200 then
        match json_ r with
        | Ok data => extract_did data
        | Raise _ => None
        end
      else None
  | Fails _ => None
  end.

(** The identifier that the read of the public DID shows:
    [response.json().get('result', {}).get('did')], when that exists. *)
Definition observed_did (r : response) : option pyval :=
  match json_ r with
  | Ok data =>
      match dict_get data "result" (PDict []) with
      | Some result => dict_get result "did" PNone
      | None => None
      end
  | Raise _ => None
  end.

(** ** Sample services and built-ins, to run the model on *)

(** U+D800, a lone surrogate, in its three-byte form. *)
Definition lone_surrogate : string :=
  String (ascii_of_nat 237)
    (String (ascii_of_nat 160) (String (ascii_of_nat 128) EmptyString)).

(** The text holds a surrogate: a byte 0xED followed by one from 0xA0 up. *)
Fixpoint has_surrogate (s : string) : bool :=
  match s with
  | EmptyString => false
  | String c r =>
      match r with
      | String c' _ =>
          (Nat.eqb (nat_of_ascii c) 237 && Nat.leb 160 (nat_of_ascii c'))%bool
      | EmptyString => false
      end || has_surrogate r
  end.

(** A stand-in for the built-ins: enough of [str] for identifiers, and a
    stdout in UTF-8, which encodes everything but surrogates. *)
Definition demo_py : builtins :=
  mkBuiltins
    (fun v => match v with
              | PStr s => s
              | PNone => "None"
              | PBool true => "True"
              | PBool false => "False"
              | _ => "<value>"
              end)
    (fun _ => "<json>")
    (fun s => s)
    (fun s => negb (has_surrogate s))
    (fun _ => "'utf-8' codec can't encode character: surrogates not allowed").

Definition conn_refused : exn := Exn "ConnectionError" "connection refused".

(** A service that plays a fixed list of answers, one per request, and
    refuses connections afterwards. *)
Definition scripted (answers : list outcome) : server :=
  fun w => nth (Nat.pred (List.length w)) answers (Fails conn_refused).

Definition answer (status : Z) (body : pyval) : outcome :=
  Responds (mkResponse status "" [] "" (Ok body)).

(** Nothing listens at the base URL. *)
Definition down : server := scripted [].

Definition sample_did : pyval := PStr "did:cheqd:testnet:abc".

(** Every endpoint answers 200 with a well-formed, consistent body. *)
Definition happy : server :=
  scripted
    [ answer 200 (PDict [("reservation_id", PStr "res-1");
                         ("reservation_pwd", PStr "s3cret")]);
      answer 200 (PDict [("token", PStr "jwt")]);
      answer 200 (PDict []);
      answer 200 (PDict []);
      answer 200 (PDict [("did", sample_did)]);
      answer 200 (PDict []);
      answer 200 (PDict [("result", PDict [("did", sample_did)])]);
      answer 200 (PDict [("result", PDict [("did", sample_did)])]) ].

(** The tester after a successful step 1, and after steps 2 and 4 as well. *)
Definition reserved : tester :=
  set_reservation_pwd (PStr "s3cret")
    (set_reservation_id (PStr "res-1") (init "http://localhost:8032" false)).

Definition onboarded : tester :=
  set_created_did sample_did (set_tenant_token (PStr "jwt") reserved).


(** The first two payloads of step 4 get a 500, the third a top-level
    [did]. *)
Definition third_time_lucky : server :=
  scripted [ answer 500 (PDict []); answer 500 (PDict []);
             answer 200 (PDict [("did", sample_did)]) ].

(** The write of the public DID is accepted, the read shows another one. *)
Definition overridden : server :=
  scripted
    [ answer 200 (PDict []);
      answer 200 (PDict [("result",
                          PDict [("did", PStr "did:cheqd:testnet:other")])]) ].

(** ** Relations between the state before and after a method *)

(** [respects R m]: whatever [m] does, and whether it returns or raises, the
    state it leaves is [R]-related to the one it started from. *)
Definition respects {A : Type} (R : tester -> tester -> Prop) (m : M A) : Prop :=
  forall t, R t (snd (m t)).

(** A field that keeps its value. *)
Definition keeps {X : Type} (f : tester -> X) (t t' : tester) : Prop :=
  f t' = f t.

(** [stdout] only gets longer, by lines that satisfy [P]. *)
Definition grows (P : string * string -> Prop) (t t' : tester) : Prop :=
  exists l, stdout t' = stdout t ++ l /\ Forall P l.

(** A line that is not the header of a step other than [own], and not a
    line of the summary. *)
Definition foreign (own : option step_id) (ln : string * string) : Prop :=
  (forall j, Some j <> own -> ln <> header_line j)
  /\ (forall j b, ln <> summary_line j b).

(** The method prints the header of step [i], and after it only lines
    that are [foreign] to every other step. *)
Definition opens {A : Type} (i : step_id) (m : M A) : Prop :=
  forall t, exists l,
    stdout (snd (m t)) = stdout t ++ header_line i :: l
    /\ Forall (foreign (Some i)) l.

(** The wire only gets longer. *)
Definition sends (t t' : tester) : Prop :=
  exists more, wire t' = wire t ++ more.

(** If [m] returns, what it returns satisfies [P]. *)
Definition yields {A : Type} (P : A -> Prop) (m : M A) : Prop :=
  forall t, match fst (m t) with Ok a => P a | Raise _ => True end.

(** The method returns: no exception leaves it. *)
Definition returns {A : Type} (m : M A) : Prop :=
  forall t, exists a, fst (m t) = Ok a.

(** ** Statements about the request layer and about whole runs *)

(** [req_headers] of [make_request]: the caller's headers ([{}] when there
    are none), with the bearer token when one is asked for and there. *)
Definition sent_headers (py : builtins) (t : tester)
    (headers : option (list (string * string))) (use_auth : bool)
  : list (string * string) :=
  let base := match headers with Some (kv :: h) => kv :: h | _ => [] end in
  if (use_auth && truthy (tenant_token t))%bool
  then dict_set base "Authorization" ("Bearer " +++ str py (tenant_token t))
  else base.

(** The [session] methods that [make_request] knows. *)
Definition supported (method : string) : Prop :=
  method = "GET" \/ method = "POST" \/ method = "PUT".

(** What [make_request] puts on the wire for a supported method. *)
Definition request_sent (py : builtins) (t : tester) (method endpoint : string)
    (payload : pyval) (headers : option (list (string * string)))
    (use_auth : bool) : request :=
  mkRequest (upper py method) (base_url t +++ endpoint)
    (if String.eqb (upper py method) "GET" then PNone else payload)
    (sent_headers py t headers use_auth).

(** What the call of a [session] method gives. *)
Definition result_of (o : outcome) : res response :=
  match o with Fails e => Raise e | Responds r => Ok r end.

(** Every request sent satisfies [P], and [inv] of the tester is kept. *)
Definition talks (inv : tester -> Prop) (P : request -> Prop) (t t' : tester)
  : Prop :=
  inv t ->
  inv t' /\ exists more, wire t' = wire t ++ more /\ Forall P more.

(** A request to the service at [b]: a GET without body or a POST, at a
    path under [b]. *)
Definition to_service (b : string) (r : request) : Prop :=
  ((req_method r = "GET" /\ req_json r = PNone) \/ req_method r = "POST")
  /\ exists path, req_url r = b +++ "/" +++ path.

(** [m] sends at most [n] requests. *)
Definition within {A : Type} (n : nat) (m : M A) : Prop :=
  forall t, exists more,
    wire (snd (m t)) = wire t ++ more /\ List.length more <= n.

(** The most requests a step can send. *)
Definition quota (i : step_id) : nat :=
  match i with S1 => 1 | S2 => 1 | S3 => 2 | S4 => 3 | S5 => 2 | S6 => 1 end.

(** [len(v)] is defined. *)
Definition has_len (v : pyval) : bool :=
  match v with
  | PStr _ | PList _ | PDict _ => true
  | _ => false
  end.


(** With debug off, it stays off and no line at level DEBUG is printed. *)
Definition hush (t t' : tester) : Prop :=
  debug t = false ->
  debug t' = false
  /\ exists l, stdout t' = stdout t ++ l
               /\ Forall (fun ln => fst ln <> "DEBUG") l.

(** The answer to the reservation request is HTTP 200 with a JSON object. *)
Definition grants (o : outcome) : bool :=
  match o with
  | Responds r =>
      (Z.eqb (status_code r) 200
       && match json_ r with Ok (PDict _) => true | _ => false end)%bool
  | Fails _ => false
  end.

(** The longest passing run: step 4 succeeds with its third payload only. *)
Definition longest : server :=
  scripted
    [ answer 200 (PDict [("reservation_id", PStr "res-1");
                         ("reservation_pwd", PStr "s3cret")]);
      answer 200 (PDict [("token", PStr "jwt")]);
      answer 200 (PDict []);
      answer 200 (PDict []);
      answer 500 (PDict []);
      answer 500 (PDict []);
      answer 200 (PDict [("did", sample_did)]);
      answer 200 (PDict []);
      answer 200 (PDict [("result", PDict [("did", sample_did)])]);
      answer 200 (PDict [("result", PDict [("did", sample_did)])]) ].

(** ** The lines that show a value of the answer *)

(** The two lines in which step 1 shows what it has stored. *)
Definition reservation_line (py : builtins) (rid : pyval) : string :=
  MARK_OK +++ " Reservation created successfully: " +++ str py rid.

Definition password_line (py : builtins) (pwd : pyval) : string :=
  "Reservation password: " +++ str py pwd.

(** The line in which step 4 shows the identifier it has stored. *)
Definition created_line (py : builtins) (did : pyval) : string :=
  MARK_OK +++ " cheqd DID created successfully: " +++ str py did.
(** The identifier that step 4 accepts from an answer: the one the answer
    yields, when stdout takes the line that shows it. *)
Definition accepted_by (py : builtins) (o : outcome) : option pyval :=
  match created_by o with
  | Some did => if encodes py (created_line py did) then Some did else None
  | None => None
  end.

(** [created_did] after an attempt: the identifier that the answer yields
    is stored before it is shown. *)
Definition stored_after (o : outcome) (before : pyval) : pyval :=
  match created_by o with Some did => did | None => before end.
(** ** Answers that stdout cannot show, and a method that is not ASCII *)

Definition unprintable_did : pyval :=
  PStr ("did:cheqd:testnet:" +++ lone_surrogate).

(** The first payload of step 4 is answered with HTTP 200 and an identifier
    that holds a lone surrogate, the other two with 500. *)
Definition unprintable_first : server :=
  scripted [ answer 200 (PDict [("did", unprintable_did)]);
             answer 500 (PDict []); answer 500 (PDict []) ].

(** The reservation is granted with an id that holds a lone surrogate. *)
Definition unprintable_reservation : server :=
  scripted [ answer 200 (PDict [("reservation_id", PStr ("res-" +++ lone_surrogate));
                                ("reservation_pwd", PStr "s3cret")]) ].

(** [post] written with U+017F, the long s, which [str.upper()] maps to S. *)
Definition long_s_post : string :=
  "po" +++ String (ascii_of_nat 197) (String (ascii_of_nat 191) "t").

(** Built-ins whose [upper] knows the long s. *)
Definition unicode_py : builtins :=
  mkBuiltins (str demo_py) (json_dumps demo_py)
    (fun s => if String.eqb s long_s_post then "POST" else s)
    (encodes demo_py) (encode_error demo_py).

(** * Properties *)

(** ** Reasoning about methods: relations every path respects *)

Section Respects.

Context (R : tester -> tester -> Prop) {preR : PreOrder R}.

Lemma respects_ret {A : Type} (a : A) : respects R (ret a).
Proof. intro t. simpl. reflexivity. Qed.

Lemma respects_raise {A : Type} (e : exn) : respects R (@raise A e).
Proof. intro t. simpl. reflexivity. Qed.

Lemma respects_self : respects R self.
Proof. intro t. simpl. reflexivity. Qed.

Lemma respects_lift {A : Type} (r : res A) : respects R (lift r).
Proof. intro t. simpl. reflexivity. Qed.

Lemma respects_bind {A B : Type} (m : M A) (f : A -> M B) :
  respects R m -> (forall a, respects R (f a)) -> respects R (bind m f).
Proof.
  intros Hm Hf t. unfold bind. specialize (Hm t).
  destruct (m t) as [[a | e] t1]; simpl in *.
  - transitivity t1; [exact Hm | apply Hf].
  - exact Hm.
Qed.

Lemma respects_try {A : Type} (m : M A) (h : exn -> M A) :
  respects R m -> (forall e, respects R (h e)) -> respects R (try_except m h).
Proof.
  intros Hm Hh t. unfold try_except. specialize (Hm t).
  destruct (m t) as [[a | e] t1]; simpl in *.
  - exact Hm.
  - transitivity t1; [exact Hm | apply Hh].
Qed.

Lemma respects_when (b : bool) (m : M unit) :
  respects R m -> respects R (when b m).
Proof. intro Hm. destruct b; simpl; [exact Hm | apply respects_ret]. Qed.

Lemma respects_assign (upd : tester -> tester) :
  (forall t, R t (upd t)) -> respects R (assign upd).
Proof. intros H t. simpl. apply H. Qed.

Lemma respects_py_get (v : pyval) (k : string) (d : pyval) :
  respects R (py_get v k d).
Proof. destruct v; simpl; first [apply respects_ret | apply respects_raise]. Qed.

Lemma respects_py_len (v : pyval) : respects R (py_len v).
Proof. destruct v; simpl; first [apply respects_ret | apply respects_raise]. Qed.

Lemma respects_session_send (srv : server) (meth url : string) (j : pyval)
    (h : list (string * string)) :
  (forall t w, R t (set_wire w t)) -> respects R (session_send srv meth url j h).
Proof. intros H t. simpl. apply H. Qed.

End Respects.

(** Breaks a method into its statements; [leaf] must settle the
    assignments (to fields, to [stdout]) and the sends. *)
Ltac respects_walk leaf :=
  repeat first
    [ solve [leaf]
    | apply respects_ret; typeclasses eauto
    | apply respects_raise; typeclasses eauto
    | apply respects_self; typeclasses eauto
    | apply respects_lift; typeclasses eauto
    | apply respects_py_get; typeclasses eauto
    | apply respects_py_len; typeclasses eauto
    | apply respects_when; [typeclasses eauto | ]
    | apply respects_bind; [typeclasses eauto | | intro ]
    | apply respects_try; [typeclasses eauto | | intro ]
    | apply respects_assign; intro; leaf
    | apply respects_session_send; intros; leaf
    | match goal with
      | |- respects _ (if ?b then _ else _) => destruct b
      | |- respects _ (match ?x with _ => _ end) => destruct x
      end ].

#[local] Instance keeps_preorder {X : Type} (f : tester -> X) : PreOrder (keeps f).
Proof.
  split.
  - intro t. reflexivity.
  - intros t1 t2 t3 H12 H23. unfold keeps in *. congruence.
Qed.

Section Frame.

Variable py : builtins.
Variable srv : server.
Variable now : Z.


Lemma make_request_keeps {X : Type} (f : tester -> X) meth ep payload hd auth :
  (forall t l, f (set_stdout l t) = f t) ->
  (forall t w, f (set_wire w t) = f t) ->
  respects (keeps f) (make_request py srv meth ep payload hd auth).
Proof.
  intros Hout Hwire.
  unfold make_request, log_request, log_response, response_json, log_at.
  respects_walk ltac:(unfold keeps; first [apply Hout | apply Hwire]).
Qed.

Lemma step_1_keeps {X : Type} (f : tester -> X) :
  (forall t l, f (set_stdout l t) = f t) ->
  (forall t w, f (set_wire w t) = f t) ->
  (forall t v, f (set_reservation_id v t) = f t) ->
  (forall t v, f (set_reservation_pwd v t) = f t) ->
  respects (keeps f) (step_1_create_public_reservation py srv now).
Proof.
  intros Hout Hwire Hid Hpwd. unfold step_1_create_public_reservation.
  unfold log_data, log, log_at, response_json.
  respects_walk ltac:(first
    [ apply make_request_keeps; assumption
    | unfold keeps; first [apply Hout | apply Hid | apply Hpwd] ]).
Qed.

Lemma step_2_keeps {X : Type} (f : tester -> X) :
  (forall t l, f (set_stdout l t) = f t) ->
  (forall t w, f (set_wire w t) = f t) ->
  (forall t v, f (set_tenant_token v t) = f t) ->
  respects (keeps f) (step_2_tenant_checkin py srv).
Proof.
  intros Hout Hwire Htok. unfold step_2_tenant_checkin.
  unfold log_data, log, log_at, response_json.
  respects_walk ltac:(first
    [ apply make_request_keeps; assumption
    | unfold keeps; first [apply Hout | apply Htok] ]).
Qed.

Lemma step_3_keeps {X : Type} (f : tester -> X) :
  (forall t l, f (set_stdout l t) = f t) ->
  (forall t w, f (set_wire w t) = f t) ->
  respects (keeps f) (step_3_validate_configuration py srv).
Proof.
  intros Hout Hwire.
  unfold step_3_validate_configuration, check_tenant_config,
    check_server_config, log_data, log, log_at, response_json.
  respects_walk ltac:(first
    [ apply make_request_keeps; assumption
    | unfold keeps; apply Hout ]).
Qed.

Lemma try_payload_keeps {X : Type} (f : tester -> X) i payload :
  (forall t l, f (set_stdout l t) = f t) ->
  (forall t w, f (set_wire w t) = f t) ->
  (forall t v, f (set_created_did v t) = f t) ->
  respects (keeps f) (try_payload py srv i payload).
Proof.
  intros Hout Hwire Hdid.
  unfold try_payload, log_data, log, log_at, response_json.
  respects_walk ltac:(first
    [ apply make_request_keeps; assumption
    | unfold keeps; first [apply Hout | apply Hdid] ]).
Qed.

Lemma for_payloads_keeps {X : Type} (f : tester -> X) payloads :
  (forall t l, f (set_stdout l t) = f t) ->
  (forall t w, f (set_wire w t) = f t) ->
  (forall t v, f (set_created_did v t) = f t) ->
  forall i, respects (keeps f) (for_payloads py srv i payloads).
Proof.
  intros Hout Hwire Hdid.
  induction payloads as [| p rest IH]; intro i; simpl.
  - unfold log_at. respects_walk ltac:(unfold keeps; apply Hout).
  - apply respects_bind; [typeclasses eauto | | intros [b |]].
    + apply try_payload_keeps; assumption.
    + apply respects_ret. typeclasses eauto.
    + apply IH.
Qed.

Lemma step_4_keeps {X : Type} (f : tester -> X) :
  (forall t l, f (set_stdout l t) = f t) ->
  (forall t w, f (set_wire w t) = f t) ->
  (forall t v, f (set_created_did v t) = f t) ->
  respects (keeps f) (step_4_create_cheqd_did py srv).
Proof.
  intros Hout Hwire Hdid. unfold step_4_create_cheqd_did.
  apply respects_bind; [typeclasses eauto | | intros _].
  - unfold log_data, log, log_at. apply respects_assign. intro t. apply Hout.
  - apply for_payloads_keeps; assumption.
Qed.

Lemma step_5_keeps {X : Type} (f : tester -> X) :
  (forall t l, f (set_stdout l t) = f t) ->
  (forall t w, f (set_wire w t) = f t) ->
  respects (keeps f) (step_5_assign_public_did py srv).
Proof.
  intros Hout Hwire.
  unfold step_5_assign_public_did, log_data, log, log_at, response_json.
  respects_walk ltac:(first
    [ apply make_request_keeps; assumption
    | unfold keeps; apply Hout ]).
Qed.

Lemma step_6_keeps {X : Type} (f : tester -> X) :
  (forall t l, f (set_stdout l t) = f t) ->
  (forall t w, f (set_wire w t) = f t) ->
  respects (keeps f) (step_6_validate_issuer_status py srv).
Proof.
  intros Hout Hwire.
  unfold step_6_validate_issuer_status, log_data, log, log_at, response_json.
  respects_walk ltac:(first
    [ apply make_request_keeps; assumption
    | unfold keeps; apply Hout ]).
Qed.

End Frame.

(** ** What the methods print *)

#[local] Instance grows_preorder (P : string * string -> Prop) :
  PreOrder (grows P).
Proof.
  split.
  - intro t. exists []. split; [symmetry; apply app_nil_r | constructor].
  - intros t1 t2 t3 [l1 [E1 F1]] [l2 [E2 F2]]. exists (l1 ++ l2). split.
    + rewrite E2, E1. symmetry. apply app_assoc.
    + apply Forall_app. split; assumption.
Qed.

Lemma grows_line (P : string * string -> Prop) (ln : string * string) t :
  P ln -> grows P t (set_stdout (stdout t ++ [ln]) t).
Proof. intro H. exists [ln]. split; [reflexivity | repeat constructor; exact H]. Qed.

Lemma grows_same (P : string * string -> Prop) t t' :
  stdout t' = stdout t -> grows P t t'.
Proof. intro H. exists []. split; [rewrite H; symmetry; apply app_nil_r | constructor]. Qed.

(** Settles [foreign own ln] for a line whose text starts with a literal. *)
Ltac foreign_line :=
  split;
  [ let j := fresh "j" in let Hj := fresh "Hj" in let H := fresh "H" in
    intros j Hj; destruct j;
    first [ exfalso; apply Hj; reflexivity
          | intro H; cbn in H; discriminate H ]
  | let j := fresh "j" in let b := fresh "b" in let H := fresh "H" in
    intros j b; destruct j, b; intro H; cbn in H; discriminate H ].

Ltac grows_leaf :=
  first [ apply grows_same; reflexivity
        | apply grows_line; foreign_line ].

Section Printing.

Variable py : builtins.
Variable srv : server.
Variable now : Z.

Lemma make_request_prints own meth ep payload hd auth :
  respects (grows (foreign own)) (make_request py srv meth ep payload hd auth).
Proof.
  unfold make_request, log_request, log_response, response_json, log_at.
  respects_walk grows_leaf.
Qed.

Ltac prints_walk :=
  unfold log_data, log, log_at, response_json;
  respects_walk ltac:(first [ apply make_request_prints | grows_leaf ]).

Lemma opens_intro {A : Type} i msg (rest : M A) :
  header_line i = ("INFO", msg) ->
  respects (grows (foreign (Some i))) rest ->
  opens i (log msg ;; rest).
Proof.
  intros Hh Hrest t. unfold bind, log_data, log, log_at, assign.
  destruct (Hrest (set_stdout (stdout t ++ [("INFO", msg)]) t)) as [l [El Fl]].
  exists l. split; [| exact Fl].
  rewrite El. simpl. rewrite Hh, <- app_assoc. reflexivity.
Qed.

Lemma step_1_opens : opens S1 (step_1_create_public_reservation py srv now).
Proof.
  unfold step_1_create_public_reservation.
  apply opens_intro; [reflexivity | prints_walk].
Qed.

Lemma step_2_opens : opens S2 (step_2_tenant_checkin py srv).
Proof.
  unfold step_2_tenant_checkin.
  apply opens_intro; [reflexivity | prints_walk].
Qed.

Lemma step_3_opens : opens S3 (step_3_validate_configuration py srv).
Proof.
  unfold step_3_validate_configuration, check_tenant_config, check_server_config.
  apply opens_intro; [reflexivity | prints_walk].
Qed.

Lemma for_payloads_prints payloads :
  forall i, respects (grows (foreign (Some S4))) (for_payloads py srv i payloads).
Proof.
  induction payloads as [| p rest IH]; intro i; simpl.
  - prints_walk.
  - apply respects_bind; [typeclasses eauto | | intros [b |]].
    + unfold try_payload. prints_walk.
    + apply respects_ret. typeclasses eauto.
    + apply IH.
Qed.

Lemma step_4_opens : opens S4 (step_4_create_cheqd_did py srv).
Proof.
  unfold step_4_create_cheqd_did.
  apply opens_intro; [reflexivity | apply for_payloads_prints].
Qed.

Lemma step_5_opens : opens S5 (step_5_assign_public_did py srv).
Proof.
  unfold step_5_assign_public_did.
  apply opens_intro; [reflexivity | prints_walk].
Qed.

Lemma step_6_opens : opens S6 (step_6_validate_issuer_status py srv).
Proof.
  unfold step_6_validate_issuer_status.
  apply opens_intro; [reflexivity | prints_walk].
Qed.

Lemma method_opens i : opens i (method_of py srv now i).
Proof.
  destruct i; simpl;
    [ apply step_1_opens | apply step_2_opens | apply step_3_opens
    | apply step_4_opens | apply step_5_opens | apply step_6_opens ].
Qed.

End Printing.

(** ** No exception leaves a step *)

Lemma returns_ret {A : Type} (a : A) : returns (ret a).
Proof. intro t. exists a. reflexivity. Qed.

Lemma returns_self : returns self.
Proof. intro t. exists t. reflexivity. Qed.

Lemma returns_assign (upd : tester -> tester) : returns (assign upd).
Proof. intro t. exists tt. reflexivity. Qed.

Lemma returns_bind {A B : Type} (m : M A) (f : A -> M B) :
  returns m -> (forall a, returns (f a)) -> returns (bind m f).
Proof.
  intros Hm Hf t. unfold bind. destruct (Hm t) as [a Ha].
  destruct (m t) as [r t1]. simpl in Ha. subst r. apply Hf.
Qed.

(** A [try] whose handler returns lets nothing through, whatever its body
    does. *)
Lemma returns_try {A : Type} (m : M A) (h : exn -> M A) :
  (forall e, returns (h e)) -> returns (try_except m h).
Proof.
  intros Hh t. unfold try_except.
  destruct (m t) as [[a | e] t1]; [exists a; reflexivity | apply Hh].
Qed.

Ltac returns_walk :=
  unfold log_data, log, log_at;
  repeat first
    [ apply returns_ret | apply returns_self | apply returns_assign
    | apply returns_try; intro
    | apply returns_bind; [ | intro ]
    | match goal with
      | |- returns (if ?b then _ else _) => destruct b
      | |- returns (match ?x with _ => _ end) => destruct x
      end ].

Section Returning.

Variable py : builtins.
Variable srv : server.
Variable now : Z.

Lemma for_payloads_returns payloads :
  forall i, returns (for_payloads py srv i payloads).
Proof.
  induction payloads as [| p rest IH]; intro i; simpl.
  - returns_walk.
  - apply returns_bind; [unfold try_payload; returns_walk | intros [b |]].
    + apply returns_ret.
    + apply IH.
Qed.

Lemma method_returns i : returns (method_of py srv now i).
Proof.
  destruct i; simpl.
  - unfold step_1_create_public_reservation. returns_walk.
  - unfold step_2_tenant_checkin. returns_walk.
  - unfold step_3_validate_configuration, check_tenant_config,
      check_server_config. returns_walk.
  - unfold step_4_create_cheqd_did.
    apply returns_bind; [returns_walk | intros _; apply for_payloads_returns].
  - unfold step_5_assign_public_did. returns_walk.
  - unfold step_6_validate_issuer_status. returns_walk.
Qed.

End Returning.

(** ** The loops of [run_full_test] *)

Lemma lookup_app_fresh {A : Type} (k k' : string) (v : A) d :
  lookup k d = None -> k <> k' -> lookup k (d ++ [(k', v)]) = None.
Proof.
  intros Hd Hk. induction d as [| [k0 v0] d IH]; simpl in *.
  - apply String.eqb_neq in Hk. rewrite Hk. reflexivity.
  - destruct (String.eqb k k0); [discriminate | apply IH; exact Hd].
Qed.

Lemma dict_set_fresh {A : Type} (k : string) (v : A) d :
  lookup k d = None -> dict_set d k v = d ++ [(k, v)].
Proof.
  intro Hd. induction d as [| [k0 v0] d IH]; simpl in *.
  - reflexivity.
  - destruct (String.eqb k k0); [discriminate | rewrite IH; auto].
Qed.

Lemma name_of_inj i j : name_of i = name_of j -> i = j.
Proof. destruct i, j; simpl; intro H; first [reflexivity | discriminate H]. Qed.

Lemma record_fresh out : forall results,
  NoDup (map fst out) ->
  (forall i, In i (map fst out) -> lookup (name_of i) results = None) ->
  record results out
  = results ++ map (fun ib => (name_of (fst ib), snd ib)) out.
Proof.
  induction out as [| [i b] out IH]; intros results Hnd Hfresh; simpl.
  - symmetry. apply app_nil_r.
  - inversion Hnd as [| x l Hni Hnd']; subst.
    unfold record in *. simpl.
    rewrite dict_set_fresh by (apply Hfresh; left; reflexivity).
    rewrite IH; [rewrite <- app_assoc; reflexivity | exact Hnd' |].
    intros j Hj. apply lookup_app_fresh.
    + apply Hfresh. right. exact Hj.
    + intro E. apply name_of_inj in E. subst j. apply Hni. exact Hj.
Qed.

Lemma summarize_spec items : forall all_passed t,
  summarize items all_passed t
  = (Ok (all_passed && forallb snd items)%bool,
     set_stdout
       (stdout t ++ map (fun nb => ("INFO", fst nb +++ ": " +++ status_text (snd nb)))
                        items) t).
Proof.
  induction items as [| [name b] items IH]; intros acc t.
  - simpl. rewrite andb_true_r, app_nil_r. destruct t; reflexivity.
  - simpl. unfold bind, log_data, log, log_at, assign. rewrite IH. simpl.
    rewrite <- app_assoc. simpl. f_equal.
    destruct b, acc; reflexivity.
Qed.

Section Loops.

Variable py : builtins.
Variable srv : server.
Variable now : Z.

Lemma steps_are_entries :
  steps py srv now = map (entry py srv now) all_steps.
Proof. reflexivity. Qed.

Lemma run_steps_cons i rest results t :
  run_steps (entry py srv now i :: rest) results t
  = match method_of py srv now i (announced i t) with
    | (Ok true, t1) =>
        run_steps rest (dict_set results (name_of i) true) (completed i t1)
    | (Ok false, t1) =>
        (Ok (dict_set results (name_of i) false), failed i t1)
    | (Raise e, t1) => (Raise e, t1)
    end.
Proof.
  unfold entry, announced, completed, failed, add_line.
  cbn [run_steps]. unfold bind, log_data, log, log_at, assign.
  destruct (method_of py srv now i _) as [[[|] | e] t1]; reflexivity.
Qed.

Lemma run_steps_outcomes todo : forall results t,
  run_steps (map (entry py srv now) todo) results t
  = (Ok (record results (fst (outcomes py srv now todo t))),
     snd (outcomes py srv now todo t)).
Proof.
  induction todo as [| i rest IH]; intros results t.
  - reflexivity.
  - cbn [map outcomes]. rewrite run_steps_cons.
    destruct (method_returns py srv now i (announced i t)) as [b Hb].
    destruct (method_of py srv now i (announced i t)) as [r t1].
    cbn [fst] in Hb. subst r. destruct b.
    + rewrite IH. destruct (outcomes py srv now rest (completed i t1)) as [out t2].
      reflexivity.
    + reflexivity.
Qed.

(** What the first loop prints: the header of every step it calls, and
    otherwise nothing that could pass for the header of another step or for
    a line of the summary. *)
Lemma header_line_inj i j : header_line i = header_line j -> i = j.
Proof. destruct i, j; intro H; first [reflexivity | discriminate H]. Qed.

Lemma outcomes_print todo : forall t,
  exists l,
    stdout (snd (outcomes py srv now todo t)) = stdout t ++ l
    /\ Forall (fun ln =>
                 (forall j, ~ In j (map fst (fst (outcomes py srv now todo t))) ->
                            ln <> header_line j)
                 /\ (forall j b, ln <> summary_line j b)) l
    /\ (forall j, In j (map fst (fst (outcomes py srv now todo t))) ->
                  In (header_line j) l).
Proof.
  induction todo as [| i rest IH]; intro t.
  - exists []. simpl. repeat split.
    + symmetry. apply app_nil_r.
    + constructor.
    + intros j [].
  - simpl.
    destruct (method_returns py srv now i (announced i t)) as [b Hb].
    destruct (method_opens py srv now i (announced i t)) as [l1 [E1 F1]].
    destruct (method_of py srv now i (announced i t)) as [r t1].
    simpl in Hb, E1. subst r.
    assert (Hann : foreign None ("INFO", NL +++ MARK_EXEC +++ " Executing: " +++ name_of i))
      by (destruct i; foreign_line).
    assert (Hown : forall j, j <> i -> header_line i <> header_line j)
      by (intros j Hj E; apply Hj; symmetry; apply header_line_inj; exact E).
    assert (Hsum : forall j c, header_line i <> summary_line j c)
      by (intros j c; destruct i, j, c; intro E; cbn in E; discriminate E).
    destruct b.
    + destruct (IH (completed i t1)) as [l2 [E2 [F2 H2]]].
      destruct (outcomes py srv now rest (completed i t1)) as [out t2].
      simpl in *.
      assert (Hdone : foreign None ("INFO", MARK_OK +++ " " +++ name_of i
                                              +++ " completed successfully"))
        by (destruct i; foreign_line).
      exists ((("INFO", NL +++ MARK_EXEC +++ " Executing: " +++ name_of i)
                 :: header_line i :: l1)
              ++ ("INFO", MARK_OK +++ " " +++ name_of i +++ " completed successfully")
                 :: l2).
      split; [| split].
      * rewrite E2, E1. simpl. rewrite <- !app_assoc. reflexivity.
      * apply Forall_app. split.
        -- constructor; [| constructor].
           ++ split; [intros j _; apply Hann; discriminate | apply Hann].
           ++ split; [| apply Hsum].
              intros j Hj. apply Hown. intro E. apply Hj. left. symmetry. exact E.
           ++ eapply Forall_impl; [| exact F1]. intros ln [Fa Fb]. split; [| exact Fb].
              intros j Hj. apply Fa. intro E. apply Hj. left. congruence.
        -- constructor.
           ++ split; [intros j _; apply Hdone; discriminate | apply Hdone].
           ++ eapply Forall_impl; [| exact F2]. intros ln [Fa Fb]. split; [| exact Fb].
              intros j Hj. apply Fa. intro Hin. apply Hj. right. exact Hin.
      * intros j [Hj | Hj].
        -- subst j. apply in_or_app. left. right. left. reflexivity.
        -- apply in_or_app. right. right. apply H2. exact Hj.
    + simpl.
      assert (Hfail : foreign None ("INFO", MARK_FAIL +++ " " +++ name_of i +++ " failed"))
        by (destruct i; foreign_line).
      exists ((("INFO", NL +++ MARK_EXEC +++ " Executing: " +++ name_of i)
                 :: header_line i :: l1)
              ++ [("INFO", MARK_FAIL +++ " " +++ name_of i +++ " failed")]).
      split; [| split].
      * rewrite E1. simpl. rewrite <- !app_assoc. reflexivity.
      * apply Forall_app. split.
        -- constructor; [| constructor].
           ++ split; [intros j _; apply Hann; discriminate | apply Hann].
           ++ split; [| apply Hsum].
              intros j Hj. apply Hown. intro E. apply Hj. left. symmetry. exact E.
           ++ eapply Forall_impl; [| exact F1]. intros ln [Fa Fb]. split; [| exact Fb].
              intros j Hj. apply Fa. intro E. apply Hj. left. congruence.
        -- constructor; [| constructor].
           split; [intros j _; apply Hfail; discriminate | apply Hfail].
      * intros j [Hj | []]. subst j. apply in_or_app. left. right. left. reflexivity.
Qed.

Lemma all_steps_nodup : NoDup all_steps.
Proof.
  repeat constructor; simpl; intuition discriminate.
Qed.

Lemma outcomes_prefix todo : forall t,
  exists rest, todo = map fst (fst (outcomes py srv now todo t)) ++ rest.
Proof.
  induction todo as [| i todo IH]; intro t; simpl.
  - exists []. reflexivity.
  - destruct (method_of py srv now i (announced i t)) as [[[|] | e] t1].
    + destruct (IH (completed i t1)) as [rest E].
      destruct (outcomes py srv now todo (completed i t1)) as [out t2].
      exists rest. simpl in *. rewrite <- E. reflexivity.
    + exists todo. reflexivity.
    + exists (i :: todo). reflexivity.
Qed.

Lemma outcomes_nodup todo t :
  NoDup todo -> NoDup (map fst (fst (outcomes py srv now todo t))).
Proof.
  intro Hnd. destruct (outcomes_prefix todo t) as [rest E].
  rewrite E in Hnd. apply NoDup_app_remove_r in Hnd. exact Hnd.
Qed.

Lemma run_full_test_spec t :
  exists closing,
    run_full_test py srv now t
    = (Ok (forallb snd (fst (outcomes py srv now all_steps (started py t)))),
       set_stdout
         (stdout (snd (outcomes py srv now all_steps (started py t)))
            ++ [("INFO", NL +++ MARK_SUMMARY +++ " TEST SUMMARY");
                ("INFO", repeat_str "=" 50)]
            ++ map (fun ib => summary_line (fst ib) (snd ib))
                   (fst (outcomes py srv now all_steps (started py t)))
            ++ closing)
         (snd (outcomes py srv now all_steps (started py t))))
    /\ Forall (foreign None) closing.
Proof.
  unfold run_full_test. rewrite steps_are_entries.
  unfold bind at 1. unfold log at 1, log_at, assign.
  unfold bind at 1. unfold self at 1.
  unfold bind at 1. unfold log at 1, log_at, assign.
  unfold bind at 1. unfold log at 1, log_at, assign.
  unfold bind at 1.
  change (set_stdout _ (set_stdout _ (set_stdout _ t))) with (started py t).
  rewrite run_steps_outcomes.
  pose proof (outcomes_nodup all_steps (started py t) all_steps_nodup) as Hnd.
  destruct (outcomes py srv now all_steps (started py t)) as [out t1].
  cbn [fst snd] in *.
  rewrite record_fresh by (auto; intros; reflexivity).
  cbn [app].
  unfold bind at 1. unfold log at 1, log_at, assign.
  unfold bind at 1. unfold log at 1, log_at, assign.
  unfold bind at 1. rewrite summarize_spec.
  rewrite map_map. cbn [fst snd andb].
  assert (Hall : forallb snd (map (fun ib : step_id * bool => (name_of (fst ib), snd ib)) out)
                 = forallb snd out).
  { clear. induction out as [| [i b] out IH]; simpl; [reflexivity | rewrite IH; reflexivity]. }
  rewrite Hall. clear Hall Hnd.
  destruct (forallb snd out).
  - exists [("INFO", NL +++ MARK_PASSED
                       +++ " ALL TESTS PASSED - Tenant onboarding flow working correctly!");
            ("INFO", "Created DID: " +++ str py (created_did t1))].
    split; [| repeat (apply Forall_cons; [foreign_line |]); apply Forall_nil].
    unfold bind, log_data, log, log_at, assign, self, ret, set_stdout, summary_line.
    cbn [stdout base_url debug tenant_token reservation_id reservation_pwd
         created_did wire].
    rewrite <- !app_assoc. reflexivity.
  - exists [("INFO", NL +++ MARK_BROKEN
                       +++ " TESTS FAILED - Issue identified in tenant onboarding flow")].
    split; [| repeat (apply Forall_cons; [foreign_line |]); apply Forall_nil].
    unfold bind, log_data, log, log_at, assign, self, ret, set_stdout, summary_line.
    cbn [stdout base_url debug tenant_token reservation_id reservation_pwd
         created_did wire].
    rewrite <- !app_assoc. reflexivity.
Qed.

Lemma outcomes_all_passed todo : forall t,
  forallb snd (fst (outcomes py srv now todo t)) = true
  <-> succeed_in_order py srv now todo t.
Proof.
  induction todo as [| i todo IH]; intro t; simpl.
  - split; auto.
  - destruct (method_returns py srv now i (announced i t)) as [b Hb].
    destruct (method_of py srv now i (announced i t)) as [r t1].
    simpl in Hb. subst r. destruct b.
    + specialize (IH (completed i t1)).
      destruct (outcomes py srv now todo (completed i t1)) as [out t2].
      simpl in *. rewrite IH. split.
      * intro H. exists t1. split; [reflexivity | exact H].
      * intros [t' [E H]]. injection E as <-. exact H.
    + simpl. split; [discriminate |]. intros [t' [E _]]. discriminate E.
Qed.


End Loops.



Lemma step_id_eq_dec (i j : step_id) : {i = j} + {i <> j}.
Proof. decide equality. Defined.

Lemma summary_line_inj i b j c :
  summary_line i b = summary_line j c -> i = j /\ b = c.
Proof.
  destruct i, b, j, c; intro H;
    first [split; reflexivity | cbn in H; discriminate H].
Qed.

Lemma header_not_summary i j b : header_line i <> summary_line j b.
Proof. destruct i, j, b; intro H; cbn in H; discriminate H. Qed.

(** What a whole run leaves on [stdout], in terms of the steps it called. *)
Lemma run_report py srv now base dbg :
  let out := fst (outcomes py srv now all_steps (started py (init base dbg))) in
  let r := run_full_test py srv now (init base dbg) in
  fst r = Ok (forallb snd out)
  /\ (forall j, invoked j (snd r) <-> In j (map fst out))
  /\ (forall j b, In (summary_line j b) (stdout (snd r)) <-> In (j, b) out).
Proof.
  intros out r.
  destruct (run_full_test_spec py srv now (init base dbg)) as [closing [E Fc]].
  destruct (outcomes_print py srv now all_steps (started py (init base dbg)))
    as [l [El [Fl Hl]]].
  fold out in E, El, Fl, Hl.
  assert (Es : stdout (snd r)
               = ([("INFO", MARK_START +++ " Starting Traction Tenant Onboarding Flow Test");
                   ("INFO", "Base URL: " +++ rstrip_slash base);
                   ("INFO", "Debug mode: " +++ str py (PBool dbg))]
                  ++ l)
                 ++ [("INFO", NL +++ MARK_SUMMARY +++ " TEST SUMMARY");
                     ("INFO", repeat_str "=" 50)]
                 ++ map (fun ib => summary_line (fst ib) (snd ib)) out
                 ++ closing).
  { unfold r. rewrite E. cbn [snd]. unfold set_stdout at 1. cbn [stdout].
    rewrite El. reflexivity. }
  assert (Fpre : Forall (foreign None)
                   [("INFO", MARK_START +++ " Starting Traction Tenant Onboarding Flow Test");
                    ("INFO", "Base URL: " +++ rstrip_slash base);
                    ("INFO", "Debug mode: " +++ str py (PBool dbg))])
    by (repeat (apply Forall_cons; [foreign_line |]); apply Forall_nil).
  assert (Fmid : Forall (foreign None)
                   [("INFO", NL +++ MARK_SUMMARY +++ " TEST SUMMARY");
                    ("INFO", repeat_str "=" 50)])
    by (repeat (apply Forall_cons; [foreign_line |]); apply Forall_nil).
  rewrite Forall_forall in Fpre, Fmid, Fc, Fl.
  split; [unfold r; rewrite E; reflexivity | split].
  - intro j. unfold invoked. rewrite Es. split.
    + intro Hin.
      destruct (in_dec step_id_eq_dec j (map fst out)) as [Hj | Hj]; [exact Hj |].
      exfalso.
      apply in_app_or in Hin. destruct Hin as [Hin | Hin];
        [apply in_app_or in Hin; destruct Hin as [Hin | Hin] |
         apply in_app_or in Hin; destruct Hin as [Hin | Hin];
           [| apply in_app_or in Hin; destruct Hin as [Hin | Hin]]].
      * apply (proj1 (Fpre _ Hin) j); [discriminate | reflexivity].
      * apply (proj1 (Fl _ Hin) j Hj). reflexivity.
      * apply (proj1 (Fmid _ Hin) j); [discriminate | reflexivity].
      * apply in_map_iff in Hin. destruct Hin as [[i b] [Eib _]].
        symmetry in Eib. exact (header_not_summary _ _ _ Eib).
      * apply (proj1 (Fc _ Hin) j); [discriminate | reflexivity].
    + intro Hj. apply in_or_app. left. apply in_or_app. right. apply Hl. exact Hj.
  - intros j b. rewrite Es. split.
    + intro Hin.
      apply in_app_or in Hin. destruct Hin as [Hin | Hin];
        [apply in_app_or in Hin; destruct Hin as [Hin | Hin] |
         apply in_app_or in Hin; destruct Hin as [Hin | Hin];
           [| apply in_app_or in Hin; destruct Hin as [Hin | Hin]]].
      * exfalso. apply (proj2 (Fpre _ Hin) j b). reflexivity.
      * exfalso. apply (proj2 (Fl _ Hin) j b). reflexivity.
      * exfalso. apply (proj2 (Fmid _ Hin) j b). reflexivity.
      * apply in_map_iff in Hin. destruct Hin as [[i c] [Eib Hib]].
        apply summary_line_inj in Eib. simpl in Eib. destruct Eib as [-> ->].
        exact Hib.
      * exfalso. apply (proj2 (Fc _ Hin) j b). reflexivity.
    + intro Hin. apply in_or_app. right. apply in_or_app. right.
      apply in_or_app. left.
      apply in_map_iff. exists (j, b). split; [reflexivity | exact Hin].
Qed.

(** ** The run as a whole *)


(** C9, amended. The summary has a pass/fail line for exactly the steps that
    were called: a step that never ran because an earlier one failed has no
    line. *)
Theorem C9_summary_lists_called_steps py srv now base dbg :
  let final := snd (run_full_test py srv now (init base dbg)) in
  forall j,
    (exists b, In (summary_line j b) (stdout final)) <-> invoked j final.
Proof.
  intros final j.
  destruct (run_report py srv now base dbg) as [_ [Hinv Hsum]].
  fold final in Hinv, Hsum. rewrite Hinv. split.
  - intros [b Hb]. apply Hsum in Hb.
    apply in_map_iff. exists (j, b). split; [reflexivity | exact Hb].
  - intro Hj. apply in_map_iff in Hj. destruct Hj as [[i b] [E Hib]].
    simpl in E. subst i. exists b. apply Hsum. exact Hib.
Qed.

(** C9 as stated fails: when nothing listens at the base URL, step 1 fails
    and the summary has no line for step 2. *)
Lemma C9_counterexample :
  ~ (forall j, exists b,
       In (summary_line j b)
          (stdout (snd (run_full_test demo_py down 0
                          (init "http://localhost:8032" false))))).
Proof.
  intro H. destruct (H S2) as [b Hb].
  destruct b; vm_compute in Hb;
    repeat (destruct Hb as [Hb | Hb]; [discriminate Hb |]); exact Hb.
Qed.

(** Two sample runs: everything answers well, and nothing answers. *)
Example happy_run_exits_0 :
  fst (main demo_py happy 1700000000 "http://localhost:8032/" false) = 0%Z.
Proof. vm_compute. reflexivity. Qed.

Example down_run_exits_1 :
  fst (main demo_py down 1700000000 "http://localhost:8032/" false) = 1%Z.
Proof. vm_compute. reflexivity. Qed.

(** ** Who writes which field *)

Section Writers.

Variable py : builtins.
Variable srv : server.
Variable now : Z.

Lemma run_steps_keeps_base_url todo :
  (forall entry, In entry todo -> respects (keeps base_url) (snd entry)) ->
  forall results, respects (keeps base_url) (run_steps todo results).
Proof.
  induction todo as [| [name f] todo IH]; intros Hall results; simpl.
  - apply respects_ret. typeclasses eauto.
  - unfold log_data, log, log_at.
    apply respects_bind; [typeclasses eauto | | intros _].
    { apply respects_assign. intro t. reflexivity. }
    apply respects_bind; [typeclasses eauto | | intros [|]].
    + apply (Hall (name, f)). left. reflexivity.
    + apply respects_bind; [typeclasses eauto | | intros _].
      * apply respects_assign. intro t. reflexivity.
      * apply IH. intros e He. apply Hall. right. exact He.
    + apply respects_bind; [typeclasses eauto | | intros _].
      * apply respects_assign. intro t. reflexivity.
      * apply respects_ret. typeclasses eauto.
Qed.

Lemma summarize_keeps_base_url items :
  forall all_passed, respects (keeps base_url) (summarize items all_passed).
Proof.
  induction items as [| [name b] items IH]; intro acc; simpl.
  - apply respects_ret. typeclasses eauto.
  - unfold log_data, log, log_at.
    apply respects_bind; [typeclasses eauto | | intros _].
    + apply respects_assign. intro t. reflexivity.
    + apply IH.
Qed.

Lemma method_keeps_base_url i :
  respects (keeps base_url) (method_of py srv now i).
Proof.
  destruct i; simpl;
    [ apply step_1_keeps | apply step_2_keeps | apply step_3_keeps
    | apply step_4_keeps | apply step_5_keeps | apply step_6_keeps ];
    reflexivity.
Qed.

Lemma run_full_test_keeps_base_url :
  respects (keeps base_url) (run_full_test py srv now).
Proof.
  unfold run_full_test. rewrite steps_are_entries. unfold log_data, log, log_at.
  respects_walk ltac:(first
    [ apply summarize_keeps_base_url
    | apply run_steps_keeps_base_url;
      let e := fresh "e" in let He := fresh "He" in
      intros e He; apply in_map_iff in He;
      destruct He as [? [<- _]]; apply method_keeps_base_url
    | unfold keeps; reflexivity ]).
Qed.

End Writers.

(** C8. [reservation_id] and [reservation_pwd] are assigned by step 1 only,
    [tenant_token] by step 2 only, [created_did] by step 4 only: every other
    step leaves them as they were, whatever the service answers; no step,
    and no run, changes [base_url].  Each owner does write its field. *)
Theorem C8_fields_have_one_writer py srv now :
  (forall i, i <> S1 -> respects (keeps reservation_id) (method_of py srv now i))
  /\ (forall i, i <> S1 -> respects (keeps reservation_pwd) (method_of py srv now i))
  /\ (forall i, i <> S2 -> respects (keeps tenant_token) (method_of py srv now i))
  /\ (forall i, i <> S4 -> respects (keeps created_did) (method_of py srv now i))
  /\ (forall i, respects (keeps base_url) (method_of py srv now i))
  /\ respects (keeps base_url) (run_full_test py srv now)
  /\ (let t := snd (step_1_create_public_reservation demo_py happy 0
                      (init "http://localhost:8032" false)) in
      reservation_id t = PStr "res-1" /\ reservation_pwd t = PStr "s3cret")
  /\ (let t := snd (step_2_tenant_checkin demo_py
                      (scripted [answer 200 (PDict [("token", PStr "jwt")])])
                      (set_reservation_id (PStr "res-1")
                         (init "http://localhost:8032" false))) in
      tenant_token t = PStr "jwt")
  /\ (let t := snd (step_4_create_cheqd_did demo_py
                      (scripted [answer 200 (PDict [("did", sample_did)])])
                      (init "http://localhost:8032" false)) in
      created_did t = sample_did).
Proof.
  split; [| split; [| split; [| split; [| split; [| split; [| split; [| split]]]]]]].
  - intros i Hi. destruct i; simpl;
      [ congruence | apply step_2_keeps | apply step_3_keeps
      | apply step_4_keeps | apply step_5_keeps | apply step_6_keeps ];
      reflexivity.
  - intros i Hi. destruct i; simpl;
      [ congruence | apply step_2_keeps | apply step_3_keeps
      | apply step_4_keeps | apply step_5_keeps | apply step_6_keeps ];
      reflexivity.
  - intros i Hi. destruct i; simpl;
      [ apply step_1_keeps | congruence | apply step_3_keeps
      | apply step_4_keeps | apply step_5_keeps | apply step_6_keeps ];
      reflexivity.
  - intros i Hi. destruct i; simpl;
      [ apply step_1_keeps | apply step_2_keeps | apply step_3_keeps
      | congruence | apply step_5_keeps | apply step_6_keeps ];
      reflexivity.
  - apply method_keeps_base_url.
  - apply run_full_test_keeps_base_url.
  - vm_compute. split; reflexivity.
  - vm_compute. reflexivity.
  - vm_compute. reflexivity.
Qed.

(** ** One request *)

Ltac close_after :=
  unfold after, set_wire, set_stdout;
  cbn [stdout wire base_url debug tenant_token reservation_id reservation_pwd
       created_did];
  first [ rewrite <- ?app_assoc; cbn [app]; reflexivity
        | instantiate (1 := []); rewrite app_nil_r; reflexivity ].

Section OneRequest.

Variable py : builtins.
Variable srv : server.

Lemma make_request_post ep payload auth t :
  match srv (wire t ++ [request_of py t "POST" ep payload auth]) with
  | Fails e =>
      exists l, make_request py srv "POST" ep payload None auth t
                = (Raise e, after t l (request_of py t "POST" ep payload auth))
  | Responds r =>
      exists l, make_request py srv "POST" ep payload None auth t
                = (Ok r, after t l (request_of py t "POST" ep payload auth))
  end.
Proof.
  unfold make_request.
  change (String.eqb (upper py "POST") "GET") with false.
  change (String.eqb (upper py "POST") "POST") with true.
  unfold request_of, auth_headers, log_request, log_response,
    response_json, session_send, log_at, when, bind, try_except, self, assign,
    lift, raise, ret.
  destruct t as [bu dbg tok rid pwd did out w].
  cbn -[String.append].
  destruct (auth && truthy tok)%bool; destruct dbg;
    try destruct (truthy payload); cbn -[String.append];
    destruct (srv _) as [e | r]; cbn -[String.append];
    try destruct (json_ r); cbn -[String.append];
    eexists; f_equal; close_after.
Qed.

Lemma make_request_get ep auth t :
  match srv (wire t ++ [request_of py t "GET" ep PNone auth]) with
  | Fails e =>
      exists l, make_request py srv "GET" ep PNone None auth t
                = (Raise e, after t l (request_of py t "GET" ep PNone auth))
  | Responds r =>
      exists l, make_request py srv "GET" ep PNone None auth t
                = (Ok r, after t l (request_of py t "GET" ep PNone auth))
  end.
Proof.
  unfold make_request.
  change (String.eqb (upper py "GET") "GET") with true.
  unfold request_of, auth_headers, log_request, log_response,
    response_json, session_send, log_at, when, bind, try_except, self, assign,
    lift, raise, ret.
  destruct t as [bu dbg tok rid pwd did out w].
  cbn -[String.append].
  destruct (auth && truthy tok)%bool; destruct dbg;
    cbn -[String.append];
    destruct (srv _) as [e | r]; cbn -[String.append];
    try destruct (json_ r); cbn -[String.append];
    eexists; f_equal; close_after.
Qed.

End OneRequest.

(** ** Running a method by hand *)

Lemma bind_log {A : Type} (msg : string) (k : M A) t :
  (log msg ;; k) t = k (add_line ("INFO", msg) t).
Proof. reflexivity. Qed.

Lemma try_bind_ok {A B : Type} (m : M A) (k : A -> M B) (h : exn -> M B) t a t1 :
  m t = (Ok a, t1) -> try_except (bind m k) h t = try_except (k a) h t1.
Proof. intro E. unfold try_except, bind. rewrite E. reflexivity. Qed.

Lemma try_bind_raise {A B : Type} (m : M A) (k : A -> M B) (h : exn -> M B) t e t1 :
  m t = (Raise e, t1) -> try_except (bind m k) h t = h e t1.
Proof. intro E. unfold try_except, bind. rewrite E. reflexivity. Qed.

Lemma try_log {A : Type} (msg : string) (m : M A) (h : exn -> M A) t :
  try_except (log msg ;; m) h t = try_except m h (add_line ("INFO", msg) t).
Proof. reflexivity. Qed.


(** Runs what is left of a method once its request has been answered. *)
Tactic Notation "run_rest" "in" hyp(H) :=
  unfold try_except, bind, response_json, lift, py_get, py_len, assign, log_data, log,
    log_at, self, ret, raise, when in H;
  cbn -[String.append lookup] in H.

(** ** Step 1: the reservation *)

Section Step1.

Variable py : builtins.
Variable srv : server.
Variable now : Z.

(** C6, amended. Step 1 reports failure when the request raises and when the
    answer has a status other than 200.  On a 200 answer whose body is a
    JSON object it reports success, whether or not the object has
    [reservation_id] and [reservation_pwd], provided stdout takes the two
    lines that show them: each field is stored as found, [None] when
    missing. *)
Theorem C6_step_1_outcome t :
  (forall e, srv (wire t ++ [reservation_request py now t]) = Fails e ->
     fst (step_1_create_public_reservation py srv now t) = Ok false)
  /\ (forall r, srv (wire t ++ [reservation_request py now t]) = Responds r ->
        status_code r <> 200%Z ->
        fst (step_1_create_public_reservation py srv now t) = Ok false)
  /\ (forall r d, srv (wire t ++ [reservation_request py now t]) = Responds r ->
        status_code r = 200%Z -> json_ r = Ok (PDict d) ->
        encodes py (reservation_line py (get_or_none d "reservation_id")) = true ->
        encodes py (password_line py (get_or_none d "reservation_pwd")) = true ->
        let t' := snd (step_1_create_public_reservation py srv now t) in
        fst (step_1_create_public_reservation py srv now t) = Ok true
        /\ reservation_id t' = get_or_none d "reservation_id"
        /\ reservation_pwd t' = get_or_none d "reservation_pwd").
Proof.
  unfold step_1_create_public_reservation. rewrite bind_log.
  pose proof (make_request_post py srv "/multitenancy/reservations"
                (reservation_payload py now) false
                (add_line ("INFO", "=== STEP 1: Create Public Reservation ===") t))
    as Hreq.
  change (wire (add_line _ t) ++ [request_of py _ _ _ _ _])
    with (wire t ++ [reservation_request py now t]) in Hreq.
  cbv zeta. fold (reservation_payload py now).
  split; [| split].
  - intros e He. rewrite He in Hreq. destruct Hreq as [l E].
    rewrite (try_bind_raise _ _ _ _ _ _ E). reflexivity.
  - intros r Hr Hs. rewrite Hr in Hreq. destruct Hreq as [l E].
    rewrite (try_bind_ok _ _ _ _ _ _ E).
    apply Z.eqb_neq in Hs. rewrite Hs. reflexivity.
  - intros r d Hr Hs Hj H1 H2. rewrite Hr in Hreq. destruct Hreq as [l E].
    rewrite (try_bind_ok _ _ _ _ _ _ E).
    apply Z.eqb_eq in Hs. rewrite Hs.
    unfold response_json. rewrite Hj.
    unfold reservation_line, password_line, get_or_none in H1, H2.
    unfold try_except, bind, lift, py_get, assign, log_data, log_at, ret.
    cbn -[String.append lookup]. rewrite H1.
    cbn -[String.append lookup]. rewrite H2.
    repeat split.
Qed.

End Step1.

(** ** Step 2: the check-in *)

Section Step2.

Variable py : builtins.
Variable srv : server.

(** C7, amended. On a 200 answer to the check-in (a JSON object), step 2
    reports failure when the object has no [token]; when [token] is a
    non-empty string it is stored and the step reports success; when
    [token] is there but falsy (empty, null) it is stored and the step
    reports failure. *)
Theorem C7_step_2_token t r d :
  truthy (reservation_id t) = true ->
  srv (wire t ++ [checkin_request py t]) = Responds r ->
  status_code r = 200%Z ->
  json_ r = Ok (PDict d) ->
  let t' := snd (step_2_tenant_checkin py srv t) in
  (lookup "token" d = None ->
     fst (step_2_tenant_checkin py srv t) = Ok false)
  /\ (forall s, lookup "token" d = Some (PStr s) -> s <> "" ->
        fst (step_2_tenant_checkin py srv t) = Ok true
        /\ tenant_token t' = PStr s)
  /\ (forall v, lookup "token" d = Some v -> truthy v = false ->
        fst (step_2_tenant_checkin py srv t) = Ok false
        /\ tenant_token t' = v).
Proof.
  intros Hid Hr Hs Hj.
  remember (step_2_tenant_checkin py srv t) as run eqn:Erun. intro t'. subst t'.
  unfold step_2_tenant_checkin in Erun. rewrite bind_log in Erun.
  unfold bind at 1, self at 1 in Erun.
  change (reservation_id (add_line _ t)) with (reservation_id t) in Erun.
  change (reservation_pwd (add_line _ t)) with (reservation_pwd t) in Erun.
  rewrite Hid in Erun. cbn [negb] in Erun.
  pose proof (make_request_post py srv
                ("/multitenancy/reservations/" +++ str py (reservation_id t)
                   +++ "/check-in")
                (PDict [("reservation_pwd", reservation_pwd t)]) false
                (add_line ("INFO", "=== STEP 2: Tenant Check-In ===") t))
    as Hreq.
  change (wire (add_line _ t) ++ [request_of py _ _ _ _ _])
    with (wire t ++ [checkin_request py t]) in Hreq.
  rewrite Hr in Hreq. destruct Hreq as [l E].
  rewrite (try_bind_ok _ _ _ _ _ _ E) in Erun.
  apply Z.eqb_eq in Hs. rewrite Hs in Erun.
  unfold response_json in Erun. rewrite Hj in Erun.
  run_rest in Erun.
  split; [| split].
  - intro Hn. rewrite Hn in Erun. rewrite Erun. reflexivity.
  - intros s Hsome Hne. rewrite Hsome in Erun. cbn -[String.append] in Erun.
    apply String.eqb_neq in Hne. rewrite Hne in Erun. rewrite Erun.
    split; reflexivity.
  - intros v Hsome Hv. rewrite Hsome in Erun. cbn -[String.append] in Erun.
    rewrite Hv in Erun. rewrite Erun. split; reflexivity.
Qed.

End Step2.

(** ** Requests only accumulate *)

#[local] Instance sends_preorder : PreOrder sends.
Proof.
  split.
  - intro t. exists []. symmetry. apply app_nil_r.
  - intros t1 t2 t3 [m1 E1] [m2 E2]. exists (m1 ++ m2).
    rewrite E2, E1. symmetry. apply app_assoc.
Qed.

Lemma sends_same t t' : wire t' = wire t -> sends t t'.
Proof. intro E. exists []. rewrite E. symmetry. apply app_nil_r. Qed.

Section Sending.

Variable py : builtins.
Variable srv : server.

Lemma session_send_sends meth url j h :
  respects sends (session_send srv meth url j h).
Proof. intro t. eexists. reflexivity. Qed.

Ltac sends_leaf :=
  first [ apply session_send_sends | apply sends_same; reflexivity ].

Lemma make_request_sends meth ep payload hd auth :
  respects sends (make_request py srv meth ep payload hd auth).
Proof.
  unfold make_request, log_request, log_response, response_json, log_at.
  respects_walk sends_leaf.
Qed.

Ltac sends_walk :=
  unfold log_data, log, log_at, response_json;
  respects_walk ltac:(first [ apply make_request_sends | sends_leaf ]).

Lemma for_payloads_sends payloads :
  forall i, respects sends (for_payloads py srv i payloads).
Proof.
  induction payloads as [| p rest IH]; intro i; simpl.
  - sends_walk.
  - apply respects_bind; [typeclasses eauto | | intros [b |]].
    + unfold try_payload. sends_walk.
    + apply respects_ret. typeclasses eauto.
    + apply IH.
Qed.

(** A [try] that starts with a request puts that request on the wire,
    whatever comes next. *)
Lemma first_post {B : Type} ep payload auth (k : response -> M B)
    (h : exn -> M B) t :
  (forall r, respects sends (try_except (k r) h)) ->
  (forall e, respects sends (h e)) ->
  exists more,
    wire (snd (try_except
                 (bind (make_request py srv "POST" ep payload None auth) k) h t))
    = wire t ++ request_of py t "POST" ep payload auth :: more.
Proof.
  intros Hk Hh.
  pose proof (make_request_post py srv ep payload auth t) as Hreq.
  destruct (srv _) as [e | r]; destruct Hreq as [l E].
  - rewrite (try_bind_raise _ _ _ _ _ _ E).
    destruct (Hh e (after t l (request_of py t "POST" ep payload auth)))
      as [more Em].
    exists more. rewrite Em. cbn [after wire set_wire]. rewrite <- app_assoc.
    reflexivity.
  - rewrite (try_bind_ok _ _ _ _ _ _ E).
    destruct (Hk r (after t l (request_of py t "POST" ep payload auth)))
      as [more Em].
    exists more. rewrite Em. cbn [after wire set_wire]. rewrite <- app_assoc.
    reflexivity.
Qed.

Lemma first_get {B : Type} ep auth (k : response -> M B) (h : exn -> M B) t :
  (forall r, respects sends (try_except (k r) h)) ->
  (forall e, respects sends (h e)) ->
  exists more,
    wire (snd (try_except
                 (bind (make_request py srv "GET" ep PNone None auth) k) h t))
    = wire t ++ request_of py t "GET" ep PNone auth :: more.
Proof.
  intros Hk Hh.
  pose proof (make_request_get py srv ep auth t) as Hreq.
  destruct (srv _) as [e | r]; destruct Hreq as [l E].
  - rewrite (try_bind_raise _ _ _ _ _ _ E).
    destruct (Hh e (after t l (request_of py t "GET" ep PNone auth)))
      as [more Em].
    exists more. rewrite Em. cbn [after wire set_wire]. rewrite <- app_assoc.
    reflexivity.
  - rewrite (try_bind_ok _ _ _ _ _ _ E).
    destruct (Hk r (after t l (request_of py t "GET" ep PNone auth)))
      as [more Em].
    exists more. rewrite Em. cbn [after wire set_wire]. rewrite <- app_assoc.
    reflexivity.
Qed.

Lemma then_sends {A B : Type} (m : M A) (f : A -> M B) t req :
  (exists more, wire (snd (m t)) = wire t ++ req :: more) ->
  (forall a, respects sends (f a)) ->
  exists more, wire (snd (bind m f t)) = wire t ++ req :: more.
Proof.
  intros [more Em] Hf. unfold bind.
  destruct (m t) as [[a | e] t1]; simpl in Em.
  - destruct (Hf a t1) as [more' E']. exists (more ++ more').
    rewrite E', Em, <- app_assoc. reflexivity.
  - exists more. exact Em.
Qed.

Lemma step_3_first_request t :
  exists more,
    wire (snd (step_3_validate_configuration py srv t))
    = wire t ++ request_of py t "GET" "/tenant/config" PNone true :: more.
Proof.
  unfold step_3_validate_configuration. rewrite bind_log.
  apply (then_sends _ _ (add_line _ t)).
  - unfold check_tenant_config.
    apply (first_get _ _ _ _ (add_line _ t)); intro; sends_walk.
  - intros [b |]; [apply respects_ret; typeclasses eauto |].
    unfold check_server_config. sends_walk.
Qed.

Lemma step_4_first_request t :
  exists more,
    wire (snd (step_4_create_cheqd_did py srv t))
    = wire t ++ request_of py t "POST" "/did/cheqd/create"
                  (nth 0 payloads_to_test PNone) true :: more.
Proof.
  unfold step_4_create_cheqd_did. rewrite bind_log.
  unfold payloads_to_test. cbn [for_payloads nth].
  apply (then_sends _ _ (add_line _ t)).
  - unfold try_payload. rewrite bind_log.
    apply (first_post _ _ _ _ _ (add_line _ (add_line _ t))); intro; sends_walk.
  - intros [b |]; [apply respects_ret; typeclasses eauto |].
    exact (for_payloads_sends (tl payloads_to_test) (0 + 1)%Z).
Qed.

Lemma step_6_first_request t :
  exists more,
    wire (snd (step_6_validate_issuer_status py srv t))
    = wire t ++ request_of py t "GET" "/wallet/did/public" PNone true :: more.
Proof.
  unfold step_6_validate_issuer_status. rewrite bind_log.
  apply (first_get _ _ _ _ (add_line _ t)); intro; sends_walk.
Qed.

(** C2, amended. Step 2 fails before any request when [reservation_id] is
    unset, and step 5 when [created_did] is unset.  Steps 3, 4 and 6 do not
    look at the token: with the token unset they still send their request,
    without an [Authorization] header. *)
Theorem C2_guards_before_requests t :
  (truthy (reservation_id t) = false ->
     fst (step_2_tenant_checkin py srv t) = Ok false
     /\ wire (snd (step_2_tenant_checkin py srv t)) = wire t)
  /\ (truthy (created_did t) = false ->
        fst (step_5_assign_public_did py srv t) = Ok false
        /\ wire (snd (step_5_assign_public_did py srv t)) = wire t)
  /\ (truthy (tenant_token t) = false ->
        (exists more,
           wire (snd (step_3_validate_configuration py srv t))
           = wire t ++ mkRequest "GET" (base_url t +++ "/tenant/config") PNone []
                       :: more)
        /\ (exists more,
              wire (snd (step_4_create_cheqd_did py srv t))
              = wire t ++ mkRequest "POST" (base_url t +++ "/did/cheqd/create")
                            (nth 0 payloads_to_test PNone) [] :: more)
        /\ (exists more,
              wire (snd (step_6_validate_issuer_status py srv t))
              = wire t ++ mkRequest "GET" (base_url t +++ "/wallet/did/public")
                            PNone [] :: more)).
Proof.
  split; [| split].
  - intro H. remember (step_2_tenant_checkin py srv t) as run eqn:Erun.
    unfold step_2_tenant_checkin in Erun. rewrite bind_log in Erun.
    unfold bind at 1, self at 1 in Erun.
    change (reservation_id (add_line _ t)) with (reservation_id t) in Erun.
    rewrite H in Erun. rewrite Erun. split; reflexivity.
  - intro H. remember (step_5_assign_public_did py srv t) as run eqn:Erun.
    unfold step_5_assign_public_did in Erun. rewrite bind_log in Erun.
    unfold bind at 1, self at 1 in Erun.
    change (created_did (add_line _ t)) with (created_did t) in Erun.
    rewrite H in Erun. rewrite Erun. split; reflexivity.
  - intro H.
    assert (Hreq : forall meth ep payload,
              request_of py t meth ep payload true
              = mkRequest meth (base_url t +++ ep) payload []).
    { intros. unfold request_of, auth_headers.
      rewrite H, andb_false_r. reflexivity. }
    rewrite <- !Hreq.
    split; [apply step_3_first_request |
            split; [apply step_4_first_request | apply step_6_first_request]].
Qed.

End Sending.

(** ** Step 5: the public DID *)

(** On strings, [==] is equality of the strings. *)
Lemma py_eq_strings (a b : string) :
  py_eq (PStr a) (PStr b) = false <-> a <> b.
Proof. simpl. apply String.eqb_neq. Qed.

Section Step5.

Variable py : builtins.
Variable srv : server.

(** C5. When the write is answered with 200 and the identifier shown by the
    read that follows is not equal to [created_did], step 5 reports
    failure. *)
Theorem C5_read_after_write t r1 r2 v :
  truthy (created_did t) = true ->
  srv (wire t ++ [assign_request py t]) = Responds r1 ->
  status_code r1 = 200%Z ->
  srv (wire t ++ [assign_request py t; readback_request py t]) = Responds r2 ->
  observed_did r2 = Some v ->
  py_eq v (created_did t) = false ->
  fst (step_5_assign_public_did py srv t) = Ok false.
Proof.
  intros Hdid Hr1 Hs1 Hr2 Hobs Hneq.
  remember (step_5_assign_public_did py srv t) as run eqn:Erun.
  unfold step_5_assign_public_did in Erun. rewrite bind_log in Erun.
  unfold bind at 1, self at 1 in Erun.
  change (created_did (add_line _ t)) with (created_did t) in Erun.
  rewrite Hdid in Erun. cbn [negb] in Erun.
  pose proof (make_request_post py srv
                ("/wallet/did/public?did=" +++ str py (created_did t))
                (PDict []) true
                (add_line ("INFO", "=== STEP 5: Assign Public DID ===") t))
    as Hq1.
  change (wire (add_line _ t) ++ [request_of py _ _ _ _ _])
    with (wire t ++ [assign_request py t]) in Hq1.
  rewrite Hr1 in Hq1. destruct Hq1 as [l1 E1].
  rewrite (try_bind_ok _ _ _ _ _ _ E1) in Erun.
  apply Z.eqb_eq in Hs1. rewrite Hs1 in Erun.
  rewrite try_log in Erun.
  match type of Erun with
  | _ = try_except (bind (make_request _ _ _ _ _ _ _) _) _ ?t2 =>
      pose proof (make_request_get py srv "/wallet/did/public" true t2) as Hq2
  end.
  change (wire (add_line _ (after _ l1 _)) ++ [request_of py _ _ _ _ _])
    with ((wire t ++ [assign_request py t]) ++ [readback_request py t]) in Hq2.
  rewrite <- app_assoc in Hq2. cbn [app] in Hq2.
  rewrite Hr2 in Hq2. destruct Hq2 as [l2 E2].
  rewrite (try_bind_ok _ _ _ _ _ _ E2) in Erun.
  destruct (Z.eqb (status_code r2) 200).
  - unfold observed_did in Hobs. unfold response_json in Erun.
    destruct (json_ r2) as [data | e]; [| discriminate Hobs].
    destruct data as [| | | | | body]; try discriminate Hobs.
    cbn [dict_get] in Hobs.
    run_rest in Erun.
    destruct (match lookup "result" body with Some x => x | None => PDict [] end)
      as [| | | | | result]; try discriminate Hobs.
    cbn [dict_get] in Hobs. injection Hobs as Hv.
    cbn -[String.append lookup] in Erun. rewrite Hv, Hneq in Erun.
    destruct (encodes py _) in Erun; rewrite Erun; reflexivity.
  - rewrite Erun. reflexivity.
Qed.

End Step5.

(** ** [log_request], [log_response] and [make_request] in general *)

Lemma bind_ok {A B : Type} (m : M A) (f : A -> M B) t a t1 :
  m t = (Ok a, t1) -> bind m f t = f a t1.
Proof. intro E. unfold bind. rewrite E. reflexivity. Qed.

Ltac same_state :=
  unfold after, add_line, set_wire, set_stdout;
  cbn [stdout wire base_url debug tenant_token reservation_id reservation_pwd
       created_did];
  first [ rewrite <- ?app_assoc; cbn [app]; reflexivity
        | rewrite <- ?app_assoc; cbn [app]; rewrite app_nil_r; reflexivity ].

Section Logging.

Variable py : builtins.

Lemma log_request_only_prints method url payload headers t :
  exists l,
    log_request py method url payload headers t
    = (Ok tt, set_stdout (stdout t ++ l) t)
    /\ (debug t = false -> l = [])
    /\ Forall (fun ln => fst ln = "DEBUG") l.
Proof.
  unfold log_request, log_at, when, bind, self, assign, ret.
  destruct (debug t) eqn:Hd; [| exists []; split; [f_equal; destruct t; simpl; rewrite app_nil_r; reflexivity | split; [reflexivity | constructor]]].
  destruct headers as [| kv h]; destruct (truthy payload);
    eexists; (split; [f_equal; same_state | split; [discriminate |]]);
    repeat constructor.
Qed.

Lemma log_response_only_prints r t :
  exists l,
    log_response py r t = (Ok tt, set_stdout (stdout t ++ l) t)
    /\ (debug t = false -> l = [])
    /\ Forall (fun ln => fst ln = "DEBUG") l.
Proof.
  unfold log_response, response_json, log_at, when, bind, try_except, self,
    assign, ret, lift.
  destruct (debug t) eqn:Hd; [| exists []; split; [f_equal; destruct t; simpl; rewrite app_nil_r; reflexivity | split; [reflexivity | constructor]]].
  destruct (json_ r); cbn -[String.append];
    eexists; (split; [f_equal; same_state | split; [discriminate |]]);
    repeat constructor.
Qed.

End Logging.

Section MakeRequest.

Variable py : builtins.
Variable srv : server.

Lemma make_request_run method ep payload headers auth t :
  supported (upper py method) ->
  let req := request_sent py t method ep payload headers auth in
  exists d,
    make_request py srv method ep payload headers auth t
    = (result_of (srv (wire t ++ [req])),
       after t
         (d ++ match srv (wire t ++ [req]) with
               | Fails e => [("ERROR", "Request failed: " +++ exn_str e)]
               | Responds _ => []
               end) req)
    /\ Forall (fun ln => fst ln = "DEBUG") d
    /\ (debug t = false -> d = []).
Proof.
  intros Hm req. unfold req. clear req.
  unfold make_request, request_sent, sent_headers.
  unfold bind at 1. unfold self at 1. cbv beta iota zeta.
  generalize (if (auth && truthy (tenant_token t))%bool
              then dict_set match headers with Some (kv :: h) => kv :: h | _ => [] end
                     "Authorization" ("Bearer " +++ str py (tenant_token t))
              else match headers with Some (kv :: h) => kv :: h | _ => [] end).
  intro hd.
  destruct (log_request_only_prints py method (base_url t +++ ep) payload hd t)
    as [l1 [E1 [Q1 F1]]].
  unfold bind at 1. rewrite E1.
  set (t1 := set_stdout (stdout t ++ l1) t).
  assert (Hsend : forall M body,
             let req := mkRequest M (base_url t +++ ep) body hd in
             exists d,
               try_except
                 (response <- session_send srv M (base_url t +++ ep) body hd ;;
                  log_response py response ;; ret response)
                 (fun e => log_at "ERROR" ("Request failed: " +++ exn_str e) ;; raise e)
                 t1
               = (result_of (srv (wire t ++ [req])),
                  after t
                    (d ++ match srv (wire t ++ [req]) with
                          | Fails e => [("ERROR", "Request failed: " +++ exn_str e)]
                          | Responds _ => []
                          end) req)
               /\ Forall (fun ln => fst ln = "DEBUG") d
               /\ (debug t = false -> d = [])).
  { intros M body req. unfold try_except, bind at 1, session_send.
    change (wire t1) with (wire t). fold req.
    destruct (srv (wire t ++ [req])) as [e | r]; cbn [result_of].
    - exists l1. split; [| split; [exact F1 | exact Q1]].
      unfold bind, log_at, assign, raise, t1. f_equal. same_state.
    - destruct (log_response_only_prints py r (set_wire (wire t ++ [req]) t1))
        as [l2 [E2 [Q2 F2]]].
      exists (l1 ++ l2). split; [| split].
      + unfold bind at 1. rewrite E2. unfold ret, t1. f_equal.
        rewrite app_nil_r. same_state.
      + apply Forall_app. split; assumption.
      + intro Hd. rewrite (Q1 Hd). apply Q2. exact Hd. }
  destruct Hm as [Hm | [Hm | Hm]]; rewrite Hm.
  - change (String.eqb "GET" "GET") with true. cbv iota. apply Hsend.
  - change (String.eqb "POST" "GET") with false.
    change (String.eqb "POST" "POST") with true. cbv iota. apply Hsend.
  - change (String.eqb "PUT" "GET") with false.
    change (String.eqb "PUT" "POST") with false.
    change (String.eqb "PUT" "PUT") with true. cbv iota. apply Hsend.
Qed.

Lemma make_request_rejects method ep payload headers auth t :
  ~ supported (upper py method) ->
  exists l,
    make_request py srv method ep payload headers auth t
    = (Raise (Exn "ValueError" ("Unsupported method: " +++ method)),
       set_stdout
         (stdout t ++ l
            ++ [("ERROR", "Request failed: Unsupported method: " +++ method)]) t).
Proof.
  intro Hm. unfold make_request.
  unfold bind at 1. unfold self at 1. cbv beta iota zeta.
  match goal with
  | |- context [log_request py method ?u payload ?hd] =>
      destruct (log_request_only_prints py method u payload hd t)
        as [l1 [E1 _]]
  end.
  unfold bind at 1. rewrite E1.
  assert (Hg : String.eqb (upper py method) "GET" = false)
    by (apply String.eqb_neq; intro E; apply Hm; left; exact E).
  assert (Hp : String.eqb (upper py method) "POST" = false)
    by (apply String.eqb_neq; intro E; apply Hm; right; left; exact E).
  assert (Hu : String.eqb (upper py method) "PUT" = false)
    by (apply String.eqb_neq; intro E; apply Hm; right; right; exact E).
  rewrite Hg, Hp, Hu.
  exists l1. unfold try_except, bind, raise, log_at, assign. f_equal. same_state.
Qed.



(** X5. With debug off, [make_request] prints nothing when the service
    answers, and exactly one line, at level ERROR, when the transport
    raises. *)
Theorem X5_make_request_quiet method ep payload headers auth t :
  supported (upper py method) ->
  debug t = false ->
  stdout (snd (make_request py srv method ep payload headers auth t))
  = stdout t
      ++ match srv (wire t ++ [request_sent py t method ep payload headers auth]) with
         | Fails e => [("ERROR", "Request failed: " +++ exn_str e)]
         | Responds _ => []
         end.
Proof.
  intros Hm Hd.
  destruct (make_request_run method ep payload headers auth t Hm)
    as [d [E [_ Q]]].
  rewrite E, (Q Hd). reflexivity.
Qed.

Lemma lookup_dict_set_same {A : Type} (d : list (string * A)) k v :
  lookup k (dict_set d k v) = Some v.
Proof.
  induction d as [| [k0 v0] d IH]; simpl.
  - rewrite String.eqb_refl. reflexivity.
  - destruct (String.eqb k k0) eqn:E; simpl; rewrite E; [reflexivity | exact IH].
Qed.

Lemma lookup_dict_set_other {A : Type} (d : list (string * A)) k k' v :
  k' <> k -> lookup k' (dict_set d k v) = lookup k' d.
Proof.
  intro Hk. induction d as [| [k0 v0] d IH]; simpl.
  - apply String.eqb_neq in Hk. rewrite Hk. reflexivity.
  - destruct (String.eqb k k0) eqn:E; simpl.
    + apply String.eqb_eq in E. subst k0.
      apply String.eqb_neq in Hk. rewrite Hk. reflexivity.
    + rewrite IH. reflexivity.
Qed.

(** X4. The [Authorization] header.  Without [use_auth], or with the token
    unset, the request carries the caller's headers and nothing else: the
    token is not sent.  With [use_auth] and a token, [Authorization] is
    [Bearer <token>], replacing any [Authorization] of the caller, and every
    other header of the caller is sent as given. *)
Theorem X4_authorization_header method ep payload headers auth t :
  supported (upper py method) ->
  let given := match headers with Some h => h | None => [] end in
  exists req,
    wire (snd (make_request py srv method ep payload headers auth t))
    = wire t ++ [req]
    /\ ((auth && truthy (tenant_token t))%bool = false ->
        req_headers req = given)
    /\ ((auth && truthy (tenant_token t))%bool = true ->
        lookup "Authorization" (req_headers req)
        = Some ("Bearer " +++ str py (tenant_token t))
        /\ forall k, k <> "Authorization" ->
                     lookup k (req_headers req) = lookup k given).
Proof.
  intros Hm given.
  destruct (make_request_run method ep payload headers auth t Hm) as [l [E _]].
  exists (request_sent py t method ep payload headers auth).
  rewrite E. split; [reflexivity |].
  assert (Hbase : match headers with Some (kv :: h) => kv :: h | _ => [] end = given)
    by (unfold given; destruct headers as [[| kv h] |]; reflexivity).
  unfold request_sent, sent_headers. cbn [req_headers]. rewrite Hbase.
  split; intro Ha; rewrite Ha.
  - reflexivity.
  - split; [apply lookup_dict_set_same |].
    intros k Hk. apply lookup_dict_set_other. exact Hk.
Qed.

End MakeRequest.

(** ** What a method can return *)

Lemma yields_ret {A : Type} (P : A -> Prop) a : P a -> yields P (ret a).
Proof. intros H t. exact H. Qed.

Lemma yields_bind {A B : Type} (P : B -> Prop) (m : M A) (f : A -> M B) :
  (forall a, yields P (f a)) -> yields P (bind m f).
Proof.
  intros Hf t. unfold bind. destruct (m t) as [[a | e] t1]; [apply Hf | exact I].
Qed.

(** A [try] whose body can only return values in [P], and whose handler
    always returns one, always returns one. *)
Lemma try_yields {A : Type} (P : A -> Prop) (m : M A) (h : exn -> M A) :
  yields P m ->
  (forall e t, exists a, fst (h e t) = Ok a /\ P a) ->
  forall t, exists a, fst (try_except m h t) = Ok a /\ P a.
Proof.
  intros Hm Hh t. unfold try_except. specialize (Hm t).
  destruct (m t) as [[a | e] t1]; simpl in *.
  - exists a. split; [reflexivity | exact Hm].
  - apply Hh.
Qed.

Ltac yields_walk :=
  repeat first
    [ apply yields_ret; reflexivity
    | apply yields_bind; intro
    | match goal with
      | |- yields _ (if ?b then _ else _) => destruct b
      end ].

Lemma in_grown (P : string * string -> Prop) ln t t' :
  grows P t t' -> In ln (stdout t) -> In ln (stdout t').
Proof. intros [l [E _]] H. rewrite E. apply in_or_app. left. exact H. Qed.

Ltac any_line :=
  first [ apply grows_same; reflexivity | apply grows_line; exact I ].

(** ** Step 3: the two configurations *)

Section Step3.

Variable py : builtins.
Variable srv : server.

Lemma make_request_prints_any meth ep payload hd auth :
  respects (grows (fun _ => True)) (make_request py srv meth ep payload hd auth).
Proof.
  unfold make_request, log_request, log_response, response_json, log_at.
  respects_walk any_line.
Qed.

Lemma check_server_config_true t :
  fst (check_server_config py srv t) = Ok true.
Proof.
  unfold check_server_config.
  match goal with
  | |- fst (try_except ?m ?h t) = _ =>
      destruct (try_yields (fun b => b = true) m h) with (t := t) as [b [E Hb]]
  end.
  - yields_walk.
  - intros e t0. exists true. split; reflexivity.
  - rewrite E, Hb. reflexivity.
Qed.







End Step3.

(** ** Step 4: the three payloads *)

Ltac close_state :=
  unfold after, add_line, set_wire, set_stdout, set_created_did;
  cbn [stdout wire base_url debug tenant_token reservation_id reservation_pwd
       created_did];
  first [ rewrite <- ?app_assoc; cbn [app]; reflexivity
        | instantiate (1 := []); rewrite app_nil_r; reflexivity ].

Ltac run_goal :=
  unfold try_except, bind, response_json, lift, py_get, py_len, assign,
    log_data, log, log_at, self, ret, raise, when;
  cbn -[String.append lookup].

Section Step4.

Variable py : builtins.
Variable srv : server.

Lemma try_payload_run i payload t :
  exists l,
    try_payload py srv i payload t
    = match created_by (srv (wire t ++ [create_request py t payload])) with
      | Some did =>
          (Ok (if encodes py (created_line py did) then Some true else None),
           set_created_did did (after t l (create_request py t payload)))
      | None => (Ok None, after t l (create_request py t payload))
      end.
Proof.
  unfold try_payload. rewrite bind_log.
  match goal with
  | |- context [try_except _ _ ?t1] =>
      pose proof (make_request_post py srv "/did/cheqd/create" payload true t1)
        as Hq
  end.
  change (wire (add_line _ t) ++ [request_of py _ _ _ _ _])
    with (wire t ++ [create_request py t payload]) in Hq.
  change (request_of py (add_line _ t) "POST" "/did/cheqd/create" payload true)
    with (create_request py t payload) in Hq.
  destruct (srv (wire t ++ [create_request py t payload])) as [e | r];
    destruct Hq as [l1 E1].
  - rewrite (try_bind_raise _ _ _ _ _ _ E1). cbn [created_by].
    eexists. run_goal. f_equal. close_state.
  - rewrite (try_bind_ok _ _ _ _ _ _ E1). cbn [created_by].
    destruct (Z.eqb (status_code r) 200).
    + unfold response_json, extract_did, created_line.
      destruct (json_ r) as [data | e].
      * destruct data as [| b | z | s | l0 | d]; cbn [dict_get];
          try (eexists; run_goal; f_equal; close_state).
        rewrite (try_bind_ok _ _ _ _ (PDict d) _ eq_refl).
        rewrite (try_bind_ok _ _ _ _
                   (match lookup "did" d with Some x => x | None => PNone end)
                   _ eq_refl).
        destruct (truthy (match lookup "did" d with Some x => x | None => PNone end))
          eqn:Htop.
        -- run_goal. rewrite Htop.
           destruct (encodes py _); cbn -[String.append lookup];
             eexists; f_equal; close_state.
        -- destruct (match lookup "result" d with Some x => x | None => PDict [] end)
             as [| b | z | s | l0 | res] eqn:Hres; cbn [dict_get];
             try (eexists; run_goal; rewrite Hres; cbn -[String.append lookup];
                  f_equal; close_state).
           destruct (truthy (match lookup "did" res with Some x => x | None => PNone end))
             eqn:Hnested.
           ++ run_goal. rewrite Hres. cbn -[String.append lookup].
              rewrite Hnested.
              destruct (encodes py _); cbn -[String.append lookup];
             eexists; f_equal; close_state.
           ++ eexists. run_goal. rewrite Hres. cbn -[String.append lookup].
              rewrite Hnested. f_equal. close_state.
      * eexists. run_goal. f_equal. close_state.
    + destruct (Z.eqb (status_code r) 500); [destruct (json_ r) eqn:Hj |];
        eexists; run_goal; rewrite ?Hj; cbn -[String.append lookup];
        f_equal; close_state.
Qed.


Lemma accepted_created o did :
  accepted_by py o = Some did -> created_by o = Some did.
Proof.
  unfold accepted_by. destruct (created_by o) as [d |]; [| discriminate].
  destruct (encodes py (created_line py d)); [| discriminate].
  intro H. exact H.
Qed.

Lemma accepted_stored o did before :
  accepted_by py o = Some did -> stored_after o before = did.
Proof.
  intro H. apply accepted_created in H. unfold stored_after. rewrite H.
  reflexivity.
Qed.

Lemma create_request_same t t' payload :
  base_url t' = base_url t -> tenant_token t' = tenant_token t ->
  create_request py t' payload = create_request py t payload.
Proof.
  intros Hb Ht. unfold create_request, request_of, auth_headers.
  rewrite Hb, Ht. reflexivity.
Qed.

(** One attempt of step 4: what it reports, sends and stores. *)
Lemma try_payload_step i payload t :
  let req := create_request py t payload in
  let o := srv (wire t ++ [req]) in
  let run := try_payload py srv i payload t in
  fst run = Ok (match accepted_by py o with Some _ => Some true | None => None end)
  /\ wire (snd run) = wire t ++ [req]
  /\ base_url (snd run) = base_url t
  /\ tenant_token (snd run) = tenant_token t
  /\ created_did (snd run) = stored_after o (created_did t).
Proof.
  intros req o run. destruct (try_payload_run i payload t) as [l E].
  fold req in E. fold o in E. unfold run. rewrite E.
  unfold accepted_by, stored_after.
  destruct (created_by o) as [did |].
  - destruct (encodes py (created_line py did));
      (split; [reflexivity | split; [reflexivity | split; [reflexivity |
       split; reflexivity]]]).
  - split; [reflexivity | split; [reflexivity | split; [reflexivity |
    split; reflexivity]]].
Qed.

(** Step 4, attempt by attempt: which requests go out, what is reported and
    what is stored, from what the service answers to each request.  An
    attempt is accepted when its answer yields an identifier and stdout
    takes the line that shows it; an identifier is stored as soon as an
    answer yields it. *)
Lemma step_4_run t :
  let q k := create_request py t (nth k payloads_to_test PNone) in
  let o1 := srv (wire t ++ [q 0]) in
  let o2 := srv (wire t ++ [q 0; q 1]) in
  let o3 := srv (wire t ++ [q 0; q 1; q 2]) in
  let run := step_4_create_cheqd_did py srv t in
  match accepted_by py o1 with
  | Some did =>
      fst run = Ok true /\ wire (snd run) = wire t ++ [q 0]
      /\ created_did (snd run) = did
  | None =>
      match accepted_by py o2 with
      | Some did =>
          fst run = Ok true /\ wire (snd run) = wire t ++ [q 0; q 1]
          /\ created_did (snd run) = did
      | None =>
          match accepted_by py o3 with
          | Some did =>
              fst run = Ok true /\ wire (snd run) = wire t ++ [q 0; q 1; q 2]
              /\ created_did (snd run) = did
          | None =>
              fst run = Ok false /\ wire (snd run) = wire t ++ [q 0; q 1; q 2]
              /\ created_did (snd run)
                 = stored_after o3 (stored_after o2 (stored_after o1 (created_did t)))
          end
      end
  end.
Proof.
  intros q o1 o2 o3 run.
  assert (Erun : run = step_4_create_cheqd_did py srv t) by reflexivity.
  clearbody run.
  unfold step_4_create_cheqd_did in Erun. rewrite bind_log in Erun.
  unfold payloads_to_test in Erun. cbn [for_payloads] in Erun.
  (* first attempt *)
  unfold bind at 1 in Erun.
  match type of Erun with
  | context [try_payload py srv ?i ?p ?t0] =>
      pose proof (try_payload_step i p t0) as H1; cbv zeta in H1;
      change (create_request py t0 p) with (q 0) in H1;
      change (wire t0) with (wire t) in H1;
      change (base_url t0) with (base_url t) in H1;
      change (tenant_token t0) with (tenant_token t) in H1;
      change (created_did t0) with (created_did t) in H1;
      destruct (try_payload py srv i p t0) as [r1 t1]
  end.
  fold o1 in H1. cbn [fst snd] in H1.
  destruct H1 as [Hr1 [Hw1 [Hb1 [Ht1 Hd1]]]]. subst r1.
  destruct (accepted_by py o1) as [did |] eqn:A1.
  { rewrite Erun. split; [reflexivity | split; [exact Hw1 |]].
    cbn [snd ret]. rewrite Hd1. apply accepted_stored. exact A1. }
  cbv beta iota in Erun.
  (* second attempt *)
  unfold bind at 1 in Erun.
  match type of Erun with
  | context [try_payload py srv ?i ?p t1] =>
      pose proof (try_payload_step i p t1) as H2; cbv zeta in H2;
      rewrite (create_request_same t t1 p Hb1 Ht1) in H2;
      change (create_request py t p) with (q 1) in H2;
      rewrite Hw1, Hb1, Ht1, Hd1, <- app_assoc in H2; cbn [app] in H2;
      destruct (try_payload py srv i p t1) as [r2 t2]
  end.
  fold o2 in H2. cbn [fst snd] in H2.
  destruct H2 as [Hr2 [Hw2 [Hb2 [Ht2 Hd2]]]]. subst r2.
  destruct (accepted_by py o2) as [did |] eqn:A2.
  { rewrite Erun. split; [reflexivity | split; [exact Hw2 |]].
    cbn [snd ret]. rewrite Hd2. apply accepted_stored. exact A2. }
  cbv beta iota in Erun.
  (* third attempt *)
  unfold bind at 1 in Erun.
  match type of Erun with
  | context [try_payload py srv ?i ?p t2] =>
      pose proof (try_payload_step i p t2) as H3; cbv zeta in H3;
      rewrite (create_request_same t t2 p Hb2 Ht2) in H3;
      change (create_request py t p) with (q 2) in H3;
      rewrite Hw2, Hb2, Ht2, Hd2, <- app_assoc in H3; cbn [app] in H3;
      destruct (try_payload py srv i p t2) as [r3 t3]
  end.
  fold o3 in H3. cbn [fst snd] in H3.
  destruct H3 as [Hr3 [Hw3 [Hb3 [Ht3 Hd3]]]]. subst r3.
  destruct (accepted_by py o3) as [did |] eqn:A3.
  { rewrite Erun. split; [reflexivity | split; [exact Hw3 |]].
    cbn [snd ret]. rewrite Hd3. apply accepted_stored. exact A3. }
  cbv beta iota in Erun.
  rewrite Erun. split; [reflexivity | split].
  - cbn [snd ret wire bind log_at assign set_stdout]. exact Hw3.
  - cbn [snd ret created_did bind log_at assign set_stdout]. exact Hd3.
Qed.


End Step4.

(** ** The statements at work on sample services *)


(** With no reservation, step 2 sends nothing. *)
Lemma C2_witness :
  let run := step_2_tenant_checkin demo_py happy
               (init "http://localhost:8032" false) in
  fst run = Ok false /\ wire (snd run) = [].
Proof.
  apply (proj1 (C2_guards_before_requests demo_py happy
                  (init "http://localhost:8032" false))).
  reflexivity.
Defined.

(** C2 as stated fails: with the token unset, step 3 sends its two requests
    and reports success. *)
Lemma C2_counterexample :
  let t := init "http://localhost:8032" false in
  let run := step_3_validate_configuration demo_py
               (scripted [answer 200 (PDict []); answer 200 (PDict [])]) t in
  tenant_token t = PNone /\ fst run = Ok true /\ List.length (wire (snd run)) = 2.
Proof. vm_compute. repeat split. Qed.



(** The read shows another identifier than the one written. *)
Lemma C5_witness :
  fst (step_5_assign_public_did demo_py overridden onboarded) = Ok false.
Proof.
  apply (C5_read_after_write demo_py overridden onboarded
           (mkResponse 200 "" [] "" (Ok (PDict [])))
           (mkResponse 200 "" [] ""
              (Ok (PDict [("result",
                           PDict [("did", PStr "did:cheqd:testnet:other")])])))
           (PStr "did:cheqd:testnet:other"));
    reflexivity.
Defined.

(** A reservation answered with 503. *)
Lemma C6_witness :
  fst (step_1_create_public_reservation demo_py
         (scripted [answer 503 (PDict [])]) 1700000000
         (init "http://localhost:8032" false)) = Ok false.
Proof.
  apply (proj1 (proj2 (C6_step_1_outcome demo_py
                         (scripted [answer 503 (PDict [])]) 1700000000
                         (init "http://localhost:8032" false)))
           (mkResponse 503 "" [] "" (Ok (PDict []))));
    [reflexivity | discriminate].
Defined.

(** C6 as stated fails: a 200 answer without [reservation_id] and
    [reservation_pwd] lets step 1 report success. *)
Lemma C6_counterexample :
  let body : dict := [] in
  lookup "reservation_id" body = None
  /\ lookup "reservation_pwd" body = None
  /\ fst (step_1_create_public_reservation demo_py
            (scripted [answer 200 (PDict body)]) 1700000000
            (init "http://localhost:8032" false)) = Ok true.
Proof. vm_compute. repeat split. Qed.

(** A check-in answered with a token. *)
Lemma C7_witness :
  let run := step_2_tenant_checkin demo_py
               (scripted [answer 200 (PDict [("token", PStr "jwt")])]) reserved in
  fst run = Ok true /\ tenant_token (snd run) = PStr "jwt".
Proof.
  apply (proj1 (proj2
           (C7_step_2_token demo_py
              (scripted [answer 200 (PDict [("token", PStr "jwt")])]) reserved
              (mkResponse 200 "" [] "" (Ok (PDict [("token", PStr "jwt")])))
              [("token", PStr "jwt")] eq_refl eq_refl eq_refl eq_refl)) "jwt");
    [reflexivity | discriminate].
Defined.

(** C7 as stated fails: a 200 answer whose [token] field is there but empty
    makes step 2 report failure. *)
Lemma C7_counterexample :
  let body : dict := [("token", PStr "")] in
  let run := step_2_tenant_checkin demo_py (scripted [answer 200 (PDict body)])
               reserved in
  lookup "token" body = Some (PStr "")
  /\ fst run = Ok false /\ tenant_token (snd run) = PStr "".
Proof. vm_compute. repeat split. Qed.

(** Step 2 never touches the reservation. *)
Lemma C8_witness :
  respects (keeps reservation_id) (step_2_tenant_checkin demo_py happy).
Proof.
  apply (proj1 (C8_fields_have_one_writer demo_py happy 0) S2). discriminate.
Defined.


(** The scenario of two 500s and then a top-level [did]: step 4 succeeds with
    the third payload. *)
Example step_4_third_variant :
  let run := step_4_create_cheqd_did demo_py third_time_lucky onboarded in
  fst run = Ok true /\ created_did (snd run) = sample_did
  /\ map req_json (wire (snd run)) = payloads_to_test.
Proof. vm_compute. repeat split. Qed.

(** C3, where the code departs from it.  The first answer is HTTP 200 with
    an extractable identifier, yet step 4 does not stop there: the
    identifier holds a lone surrogate, [print] raises on the line that
    shows it, the [except] of the attempt takes that for a failed attempt,
    and the two other payloads are sent.  The step reports failure, with
    the identifier stored. *)
Theorem C3_unprintable_identifier :
  let t := onboarded in
  let q0 := create_request demo_py t (nth 0 payloads_to_test PNone) in
  let run := step_4_create_cheqd_did demo_py unprintable_first t in
  created_by (unprintable_first (wire t ++ [q0])) = Some unprintable_did
  /\ fst run = Ok false
  /\ map req_json (wire (snd run)) = payloads_to_test
  /\ created_did (snd run) = unprintable_did
  /\ In ("ERROR",
         MARK_FAIL +++ " Exception during DID creation (payload "
           +++ str demo_py (PInt 1) +++ "): "
           +++ encode_error demo_py (created_line demo_py unprintable_did))
        (stdout (snd run)).
Proof.
  vm_compute.
  split; [reflexivity | split; [reflexivity | split; [reflexivity |
    split; [reflexivity |]]]].
  right. right. left. reflexivity.
Qed.

(** * The request layer, the traffic and whole runs *)

(** ** What goes on the wire *)

#[local] Instance talks_preorder inv P : PreOrder (talks inv P).
Proof.
  split.
  - intros t Hi. split; [exact Hi |]. exists []. split; [symmetry; apply app_nil_r | constructor].
  - intros t1 t2 t3 H12 H23 Hi.
    destruct (H12 Hi) as [Hi2 [m1 [E1 F1]]].
    destruct (H23 Hi2) as [Hi3 [m2 [E2 F2]]].
    split; [exact Hi3 |]. exists (m1 ++ m2). split.
    + rewrite E2, E1. symmetry. apply app_assoc.
    + apply Forall_app. split; assumption.
Qed.

Lemma talks_same inv P t t' :
  wire t' = wire t -> (inv t -> inv t') -> talks inv P t t'.
Proof.
  intros Ew Hi H. split; [apply Hi; exact H |].
  exists []. split; [rewrite Ew; symmetry; apply app_nil_r | constructor].
Qed.

Lemma upper_GET py : upper py "GET" = "GET".
Proof. reflexivity. Qed.

Lemma upper_POST py : upper py "POST" = "POST".
Proof. reflexivity. Qed.

Lemma supported_GET py : supported (upper py "GET").
Proof. left. reflexivity. Qed.

Lemma supported_POST py : supported (upper py "POST").
Proof. right. left. reflexivity. Qed.

Section Traffic.

Variable py : builtins.
Variable srv : server.
Variable now : Z.

Lemma make_request_talks inv P method ep payload headers auth :
  supported (upper py method) ->
  (forall t l req, inv t -> inv (after t l req)) ->
  (forall t, inv t -> P (request_sent py t method ep payload headers auth)) ->
  respects (talks inv P) (make_request py srv method ep payload headers auth).
Proof.
  intros Hm Hafter HP t Hi.
  destruct (make_request_run py srv method ep payload headers auth t Hm)
    as [l [E _]].
  rewrite E. cbn [snd]. split; [apply Hafter; exact Hi |].
  eexists. split; [reflexivity |]. repeat constructor. apply HP. exact Hi.
Qed.

Variable inv : tester -> Prop.
Variable P : request -> Prop.
Variable auth : bool.

Hypothesis inv_stdout : forall t l, inv t -> inv (set_stdout l t).
Hypothesis inv_after : forall t l req, inv t -> inv (after t l req).
Hypothesis P_post :
  forall t ep payload,
    inv t -> P (request_sent py t "POST" (String "/" ep) payload None auth).
Hypothesis P_get :
  forall t ep, inv t -> P (request_sent py t "GET" (String "/" ep) PNone None auth).

Ltac talks_leaf extra :=
  first
    [ apply make_request_talks;
      [ first [apply supported_GET | apply supported_POST]
      | exact inv_after
      | intros; first [apply P_post | apply P_get]; assumption ]
    | apply talks_same; [reflexivity | first [apply inv_stdout | extra]] ].

Ltac talks_walk extra :=
  unfold log_data, log, log_at, response_json;
  respects_walk ltac:(talks_leaf extra).

Lemma step_1_talks :
  auth = false ->
  (forall t v, inv t -> inv (set_reservation_id v t)) ->
  (forall t v, inv t -> inv (set_reservation_pwd v t)) ->
  respects (talks inv P) (step_1_create_public_reservation py srv now).
Proof.
  intros Ha Hid Hpwd. subst auth. unfold step_1_create_public_reservation.
  talks_walk ltac:(first [apply Hid | apply Hpwd]).
Qed.

Lemma step_2_talks :
  auth = false ->
  (forall t v, inv t -> inv (set_tenant_token v t)) ->
  respects (talks inv P) (step_2_tenant_checkin py srv).
Proof.
  intros Ha Htok. subst auth. unfold step_2_tenant_checkin.
  talks_walk ltac:(apply Htok).
Qed.

Lemma step_3_talks :
  auth = true ->
  respects (talks inv P) (step_3_validate_configuration py srv).
Proof.
  intros Ha. subst auth.
  unfold step_3_validate_configuration, check_tenant_config, check_server_config.
  talks_walk fail.
Qed.

Lemma for_payloads_talks payloads :
  auth = true ->
  (forall t v, inv t -> inv (set_created_did v t)) ->
  forall i, respects (talks inv P) (for_payloads py srv i payloads).
Proof.
  intros Ha Hdid. subst auth.
  induction payloads as [| p rest IH]; intro i; simpl.
  - talks_walk fail.
  - apply respects_bind; [typeclasses eauto | | intros [b |]].
    + unfold try_payload. talks_walk ltac:(apply Hdid).
    + apply respects_ret. typeclasses eauto.
    + apply IH.
Qed.

Lemma step_4_talks :
  auth = true ->
  (forall t v, inv t -> inv (set_created_did v t)) ->
  respects (talks inv P) (step_4_create_cheqd_did py srv).
Proof.
  intros Ha Hdid. unfold step_4_create_cheqd_did.
  apply respects_bind; [typeclasses eauto | | intros _].
  - talks_walk fail.
  - apply for_payloads_talks; assumption.
Qed.

Lemma step_5_talks :
  auth = true ->
  respects (talks inv P) (step_5_assign_public_did py srv).
Proof.
  intros Ha. subst auth. unfold step_5_assign_public_did. talks_walk fail.
Qed.

Lemma step_6_talks :
  auth = true ->
  respects (talks inv P) (step_6_validate_issuer_status py srv).
Proof.
  intros Ha. subst auth. unfold step_6_validate_issuer_status. talks_walk fail.
Qed.

End Traffic.

(** The loops of [run_full_test] respect whatever every step and every
    printed line respect. *)
Section RunRespects.

Variable py : builtins.
Variable srv : server.
Variable now : Z.
Variable R : tester -> tester -> Prop.
Context {preR : PreOrder R}.
Hypothesis R_stdout : forall t msg, R t (add_line ("INFO", msg) t).

Lemma run_steps_respects todo :
  (forall e, In e todo -> respects R (snd e)) ->
  forall results, respects R (run_steps todo results).
Proof.
  induction todo as [| [name f] todo IH]; intros Hall results; simpl.
  - apply respects_ret. exact preR.
  - unfold log_data, log, log_at.
    apply respects_bind; [exact preR | | intros _].
    { apply respects_assign. intro t. apply R_stdout. }
    apply respects_bind; [exact preR | | intros [|]].
    + apply (Hall (name, f)). left. reflexivity.
    + apply respects_bind; [exact preR | | intros _].
      * apply respects_assign. intro t. apply R_stdout.
      * apply IH. intros e He. apply Hall. right. exact He.
    + apply respects_bind; [exact preR | | intros _].
      * apply respects_assign. intro t. apply R_stdout.
      * apply respects_ret. exact preR.
Qed.

Lemma summarize_respects items :
  forall all_passed, respects R (summarize items all_passed).
Proof.
  induction items as [| [name b] items IH]; intro acc; simpl.
  - apply respects_ret. exact preR.
  - unfold log_data, log, log_at.
    apply respects_bind; [exact preR | | intros _].
    + apply respects_assign. intro t. apply R_stdout.
    + apply IH.
Qed.

Lemma run_full_test_respects :
  (forall i, respects R (method_of py srv now i)) ->
  respects R (run_full_test py srv now).
Proof.
  intro Hsteps. unfold run_full_test. rewrite steps_are_entries.
  unfold log_data, log, log_at.
  repeat first
    [ apply respects_ret; exact preR
    | apply respects_self; exact preR
    | apply summarize_respects
    | apply run_steps_respects;
      let e := fresh "e" in let He := fresh "He" in
      intros e He; apply in_map_iff in He;
      destruct He as [? [<- _]]; apply Hsteps
    | apply respects_assign; intro; apply R_stdout
    | apply respects_bind; [exact preR | | intro]
    | match goal with
      | |- respects _ (if ?b then _ else _) => destruct b
      end ].
Qed.

End RunRespects.

Section TrafficFacts.

Variable py : builtins.
Variable srv : server.
Variable now : Z.

(** X6. Steps 1 and 2 never send an [Authorization] header, whatever the
    tester holds (a token included) and whatever the service answers. *)
Theorem X6_public_steps_send_no_token t :
  (exists more,
     wire (snd (step_1_create_public_reservation py srv now t)) = wire t ++ more
     /\ Forall (fun r => req_headers r = []) more)
  /\ (exists more,
        wire (snd (step_2_tenant_checkin py srv t)) = wire t ++ more
        /\ Forall (fun r => req_headers r = []) more).
Proof.
  split.
  - apply (step_1_talks py srv now (fun _ => True)
             (fun r => req_headers r = []) false); auto.
  - apply (step_2_talks py srv (fun _ => True)
             (fun r => req_headers r = []) false); auto.
Qed.

(** X7. With a token in hand, every request that steps 3, 4, 5 and 6 send
    carries exactly one header, [Authorization: Bearer <token>]. *)
Theorem X7_authenticated_steps_send_token t i :
  truthy (tenant_token t) = true ->
  3 <= number i ->
  exists more,
    wire (snd (method_of py srv now i t)) = wire t ++ more
    /\ Forall (fun r => req_headers r
                        = [("Authorization", "Bearer " +++ str py (tenant_token t))])
              more.
Proof.
  intros Htok Hi.
  set (inv := fun t' : tester => tenant_token t' = tenant_token t).
  set (P := fun r : request =>
              req_headers r
              = [("Authorization", "Bearer " +++ str py (tenant_token t))]).
  assert (Hpost : forall t' ep payload,
             inv t' -> P (request_sent py t' "POST" (String "/" ep) payload None true)).
  { intros t' ep payload Ht'. unfold P, request_sent, sent_headers.
    cbn [req_headers]. rewrite Ht', Htok. reflexivity. }
  assert (Hget : forall t' ep,
             inv t' -> P (request_sent py t' "GET" (String "/" ep) PNone None true)).
  { intros t' ep Ht'. unfold P, request_sent, sent_headers.
    cbn [req_headers]. rewrite Ht', Htok. reflexivity. }
  assert (H : respects (talks inv P) (method_of py srv now i)).
  { destruct i; simpl in Hi; try lia; simpl;
      [ apply (step_3_talks py srv inv P true)
      | apply (step_4_talks py srv inv P true)
      | apply (step_5_talks py srv inv P true)
      | apply (step_6_talks py srv inv P true) ];
      auto. }
  apply (H t). reflexivity.
Qed.

Lemma to_service_post b auth t ep payload :
  base_url t = b ->
  to_service b (request_sent py t "POST" (String "/" ep) payload None auth).
Proof.
  intro Hb. unfold to_service, request_sent. cbn [req_method req_json req_url].
  rewrite upper_POST, Hb. split; [right; reflexivity | exists ep; reflexivity].
Qed.

Lemma to_service_get b auth t ep :
  base_url t = b ->
  to_service b (request_sent py t "GET" (String "/" ep) PNone None auth).
Proof.
  intro Hb. unfold to_service, request_sent. cbn [req_method req_json req_url].
  rewrite upper_GET, Hb.
  split; [left; split; reflexivity | exists ep; reflexivity].
Qed.

Lemma method_to_service b i :
  respects (talks (fun t => base_url t = b) (to_service b))
           (method_of py srv now i).
Proof.
  destruct i; simpl;
    [ apply (step_1_talks py srv now _ _ false)
    | apply (step_2_talks py srv _ _ false)
    | apply (step_3_talks py srv _ _ true)
    | apply (step_4_talks py srv _ _ true)
    | apply (step_5_talks py srv _ _ true)
    | apply (step_6_talks py srv _ _ true) ];
    first [ reflexivity
          | intros; apply to_service_post; assumption
          | intros; apply to_service_get; assumption
          | intros; assumption ].
Qed.

(** X8. Every request of a whole run goes to the service at [base_url]
    (the base URL without its trailing slashes, then a path that starts
    with one slash), and is a GET without body or a POST: the run never
    sends PUT, and never leaves the base URL. *)
Theorem X8_run_stays_on_service base dbg :
  Forall (to_service (rstrip_slash base))
         (wire (snd (main py srv now base dbg))).
Proof.
  assert (H : respects (talks (fun t => base_url t = rstrip_slash base)
                              (to_service (rstrip_slash base)))
                       (run_full_test py srv now)).
  { apply run_full_test_respects.
    - typeclasses eauto.
    - intros t msg. apply talks_same; [reflexivity | intro E; exact E].
    - apply method_to_service. }
  destruct (H (init base dbg) eq_refl) as [_ [more [E F]]].
  unfold main. destruct (run_full_test py srv now (init base dbg)) as [[b | e] tf];
    simpl in *; rewrite E; exact F.
Qed.

End TrafficFacts.

(** ** How many requests *)

Lemma within_weaken {A : Type} n n' (m : M A) :
  n <= n' -> within n m -> within n' m.
Proof.
  intros Hn Hm t. destruct (Hm t) as [more [E L]]. exists more.
  split; [exact E | lia].
Qed.

Lemma within_quiet {A : Type} n (m : M A) :
  (forall t, wire (snd (m t)) = wire t) -> within n m.
Proof.
  intros H t. exists []. split; [rewrite H; symmetry; apply app_nil_r | simpl; lia].
Qed.

Lemma within_bind {A B : Type} n1 n2 (m : M A) (f : A -> M B) :
  within n1 m -> (forall a, within n2 (f a)) -> within (n1 + n2) (bind m f).
Proof.
  intros Hm Hf t. unfold bind. destruct (Hm t) as [m1 [E1 L1]].
  destruct (m t) as [[a | e] t1]; simpl in E1.
  - destruct (Hf a t1) as [m2 [E2 L2]]. exists (m1 ++ m2). split.
    + rewrite E2, E1. symmetry. apply app_assoc.
    + rewrite length_app. lia.
  - exists m1. split; [exact E1 | lia].
Qed.

Lemma within_try {A : Type} n1 n2 (m : M A) (h : exn -> M A) :
  within n1 m -> (forall e, within n2 (h e)) -> within (n1 + n2) (try_except m h).
Proof.
  intros Hm Hh t. unfold try_except. destruct (Hm t) as [m1 [E1 L1]].
  destruct (m t) as [[a | e] t1]; simpl in E1.
  - exists m1. split; [exact E1 | lia].
  - destruct (Hh e t1) as [m2 [E2 L2]]. exists (m1 ++ m2). split.
    + rewrite E2, E1. symmetry. apply app_assoc.
    + rewrite length_app. lia.
Qed.

(** Statements that send nothing. *)
Ltac quiet :=
  unfold log_data, log, log_at, response_json;
  repeat first
    [ apply within_quiet; intro; reflexivity
    | apply (within_bind 0 0); [ | intro ]
    | apply (within_try 0 0); [ | intro ]
    | match goal with
      | |- within _ (py_get ?v _ _) => destruct v
      | |- within _ (py_len ?v) => destruct v
      | |- within _ (when ?b _) => destruct b
      | |- within _ (if ?b then _ else _) => destruct b
      | |- within _ (match ?x with _ => _ end) => destruct x
      end ].

Section Counting.

Variable py : builtins.
Variable srv : server.
Variable now : Z.

Lemma make_request_within_1 method ep payload headers auth :
  within 1 (make_request py srv method ep payload headers auth).
Proof.
  intro t.
  assert (Hdec : supported (upper py method) \/ ~ supported (upper py method)).
  { unfold supported.
    destruct (string_dec (upper py method) "GET"); [left; left; assumption |].
    destruct (string_dec (upper py method) "POST"); [left; right; left; assumption |].
    destruct (string_dec (upper py method) "PUT"); [left; right; right; assumption |].
    right. intros [H | [H | H]]; contradiction. }
  destruct Hdec as [Hm | Hm].
  - destruct (make_request_run py srv method ep payload headers auth t Hm)
      as [l [E _]].
    rewrite E. eexists. split; [reflexivity | simpl; lia].
  - destruct (make_request_rejects py srv method ep payload headers auth t Hm)
      as [l E].
    rewrite E. exists []. split; [symmetry; apply app_nil_r | simpl; lia].
Qed.

(** A [try] around one request and statements that send nothing. *)
Ltac one_request :=
  apply (within_try 1 0);
  [ apply (within_bind 1 0); [apply make_request_within_1 | intro; quiet]
  | intro; quiet ].

Lemma step_1_within : within 1 (step_1_create_public_reservation py srv now).
Proof.
  unfold step_1_create_public_reservation.
  apply (within_bind 0 1); [quiet | intros _; cbv zeta; one_request].
Qed.

Lemma step_2_within : within 1 (step_2_tenant_checkin py srv).
Proof.
  unfold step_2_tenant_checkin.
  apply (within_bind 0 1); [quiet | intros _].
  apply (within_bind 0 1); [quiet | intro t0].
  destruct (negb (truthy (reservation_id t0))).
  - apply (within_weaken 0); [lia | quiet].
  - cbv zeta. one_request.
Qed.

Lemma step_3_within : within 2 (step_3_validate_configuration py srv).
Proof.
  unfold step_3_validate_configuration.
  apply (within_bind 0 2); [quiet | intros _].
  apply (within_bind 1 1).
  - unfold check_tenant_config. one_request.
  - intros [b |]; [apply (within_weaken 0); [lia | quiet] |].
    unfold check_server_config. one_request.
Qed.

Lemma for_payloads_within payloads :
  forall i, within (List.length payloads) (for_payloads py srv i payloads).
Proof.
  induction payloads as [| p rest IH]; intro i; simpl.
  - quiet.
  - apply (within_bind 1 (List.length rest)).
    + unfold try_payload. apply (within_bind 0 1); [quiet | intros _].
      one_request.
    + intros [b |]; [apply (within_weaken 0); [lia | quiet] | apply IH].
Qed.

Lemma step_4_within : within 3 (step_4_create_cheqd_did py srv).
Proof.
  unfold step_4_create_cheqd_did.
  apply (within_bind 0 3); [quiet | intros _].
  exact (for_payloads_within payloads_to_test 0%Z).
Qed.

Lemma step_5_within : within 2 (step_5_assign_public_did py srv).
Proof.
  unfold step_5_assign_public_did.
  apply (within_bind 0 2); [quiet | intros _].
  apply (within_bind 0 2); [quiet | intro t0].
  destruct (negb (truthy (created_did t0))).
  - apply (within_weaken 0); [lia | quiet].
  - apply (within_try 2 0); [| intro; quiet].
    apply (within_bind 1 1); [apply make_request_within_1 | intro r].
    destruct (Z.eqb (status_code r) 200); [| apply (within_weaken 0); [lia | quiet]].
    apply (within_bind 0 1); [quiet | intros _].
    apply (within_bind 1 0); [apply make_request_within_1 | intro; quiet].
Qed.

Lemma step_6_within : within 1 (step_6_validate_issuer_status py srv).
Proof.
  unfold step_6_validate_issuer_status.
  apply (within_bind 0 1); [quiet | intros _; one_request].
Qed.

Lemma method_within i : within (quota i) (method_of py srv now i).
Proof.
  destruct i; simpl;
    [ apply step_1_within | apply step_2_within | apply step_3_within
    | apply step_4_within | apply step_5_within | apply step_6_within ].
Qed.

Lemma run_steps_within todo : forall results,
  within (list_sum (map quota todo))
         (run_steps (map (entry py srv now) todo) results).
Proof.
  induction todo as [| i todo IH]; intro results; simpl.
  - quiet.
  - apply (within_bind 0 (quota i + list_sum (map quota todo))); [quiet | intros _].
    apply (within_bind (quota i) (list_sum (map quota todo)));
      [apply method_within | intros [|]].
    + apply (within_bind 0 (list_sum (map quota todo))); [quiet | intros _].
      apply IH.
    + apply (within_weaken 0); [lia | quiet].
Qed.

Lemma summarize_within items : forall all_passed,
  within 0 (summarize items all_passed).
Proof.
  induction items as [| [name b] items IH]; intro acc; simpl.
  - quiet.
  - apply (within_bind 0 0); [quiet | intros _; apply IH].
Qed.

(** X9. No step sends more than its share of requests (1, 1, 2, 3, 2 and 1
    for steps 1 to 6), and a whole run sends at most 10: nothing is ever
    retried. *)
Theorem X9_request_budget :
  (forall i, within (quota i) (method_of py srv now i))
  /\ forall base dbg,
       List.length (wire (snd (main py srv now base dbg))) <= 10.
Proof.
  split; [exact method_within |].
  intros base dbg.
  assert (H : within 10 (run_full_test py srv now)).
  { unfold run_full_test. rewrite steps_are_entries.
    apply (within_bind 0 10); [quiet | intros _].
    apply (within_bind 0 10); [quiet | intros t0].
    apply (within_bind 0 10); [quiet | intros _].
    apply (within_bind 0 10); [quiet | intros _].
    apply (within_bind 10 0); [exact (run_steps_within all_steps []) | intro results].
    apply (within_bind 0 0); [quiet | intros _].
    apply (within_bind 0 0); [quiet | intros _].
    apply (within_bind 0 0); [apply summarize_within | intro passed].
    quiet. }
  destruct (H (init base dbg)) as [more [E L]].
  unfold main. destruct (run_full_test py srv now (init base dbg)) as [[b | e] tf];
    simpl in *; rewrite E; exact L.
Qed.

End Counting.

(** ** The steps, request by request *)

Lemma within_0 {A : Type} (m : M A) t : within 0 m -> wire (snd (m t)) = wire t.
Proof.
  intro H. destruct (H t) as [more [E L]].
  destruct more; [rewrite E; apply app_nil_r | simpl in L; lia].
Qed.

Section Exactly.

Variable py : builtins.
Variable srv : server.
Variable now : Z.

(** A [try] that starts with a request and then sends nothing puts exactly
    that request on the wire. *)
Lemma one_post {B : Type} ep payload auth (k : response -> M B)
    (h : exn -> M B) t :
  (forall r, within 0 (try_except (k r) h)) ->
  (forall e, within 0 (h e)) ->
  wire (snd (try_except
               (bind (make_request py srv "POST" ep payload None auth) k) h t))
  = wire t ++ [request_of py t "POST" ep payload auth].
Proof.
  intros Hk Hh.
  pose proof (make_request_post py srv ep payload auth t) as Hreq.
  destruct (srv _) as [e | r]; destruct Hreq as [l E].
  - rewrite (try_bind_raise _ _ _ _ _ _ E). rewrite (within_0 _ _ (Hh e)).
    reflexivity.
  - rewrite (try_bind_ok _ _ _ _ _ _ E). rewrite (within_0 _ _ (Hk r)).
    reflexivity.
Qed.

Lemma one_get {B : Type} ep auth (k : response -> M B) (h : exn -> M B) t :
  (forall r, within 0 (try_except (k r) h)) ->
  (forall e, within 0 (h e)) ->
  wire (snd (try_except
               (bind (make_request py srv "GET" ep PNone None auth) k) h t))
  = wire t ++ [request_of py t "GET" ep PNone auth].
Proof.
  intros Hk Hh.
  pose proof (make_request_get py srv ep auth t) as Hreq.
  destruct (srv _) as [e | r]; destruct Hreq as [l E].
  - rewrite (try_bind_raise _ _ _ _ _ _ E). rewrite (within_0 _ _ (Hh e)).
    reflexivity.
  - rewrite (try_bind_ok _ _ _ _ _ _ E). rewrite (within_0 _ _ (Hk r)).
    reflexivity.
Qed.

Lemma step_1_wire t :
  wire (snd (step_1_create_public_reservation py srv now t))
  = wire t ++ [reservation_request py now t].
Proof.
  unfold step_1_create_public_reservation. rewrite bind_log. cbv zeta.
  rewrite one_post; [reflexivity | intro; quiet | intro; quiet].
Qed.

Lemma step_6_wire t :
  wire (snd (step_6_validate_issuer_status py srv t))
  = wire t ++ [readback_request py t].
Proof.
  unfold step_6_validate_issuer_status. rewrite bind_log.
  rewrite one_get; [reflexivity | intro; quiet | intro; quiet].
Qed.

(** Step 1, case by case. *)
Lemma step_1_cases t :
  let run := step_1_create_public_reservation py srv now t in
  let q := reservation_request py now t in
  wire (snd run) = wire t ++ [q]
  /\ (fst run = Ok true <->
      exists r d,
        srv (wire t ++ [q]) = Responds r
        /\ status_code r = 200%Z /\ json_ r = Ok (PDict d)
        /\ encodes py (reservation_line py (get_or_none d "reservation_id")) = true
        /\ encodes py (password_line py (get_or_none d "reservation_pwd")) = true)
  /\ (fst run <> Ok true -> fst run = Ok false)
  /\ (forall r d,
        srv (wire t ++ [q]) = Responds r -> status_code r = 200%Z ->
        json_ r = Ok (PDict d) ->
        reservation_id (snd run) = get_or_none d "reservation_id"
        /\ reservation_pwd (snd run) = get_or_none d "reservation_pwd")
  /\ (grants (srv (wire t ++ [q])) = false ->
      reservation_id (snd run) = reservation_id t
      /\ reservation_pwd (snd run) = reservation_pwd t).
Proof.
  intros run q. split; [apply step_1_wire |].
  assert (Erun : run = step_1_create_public_reservation py srv now t) by reflexivity.
  clearbody run.
  unfold step_1_create_public_reservation in Erun. rewrite bind_log in Erun.
  cbv zeta in Erun.
  pose proof (make_request_post py srv "/multitenancy/reservations"
                (reservation_payload py now) false
                (add_line ("INFO", "=== STEP 1: Create Public Reservation ===") t))
    as Hreq.
  change (wire (add_line _ t) ++ [request_of py _ _ _ _ _])
    with (wire t ++ [q]) in Hreq.
  fold (reservation_payload py now) in Erun.
  destruct (srv (wire t ++ [q])) as [e | r]; destruct Hreq as [l E].
  - rewrite (try_bind_raise _ _ _ _ _ _ E) in Erun. rewrite Erun.
    split; [split; [discriminate | intros [r [d [H _]]]; discriminate H] |].
    split; [intros _; reflexivity |].
    split; [intros r d H; discriminate H | intros _; split; reflexivity].
  - rewrite (try_bind_ok _ _ _ _ _ _ E) in Erun. cbn [grants].
    destruct (Z.eqb (status_code r) 200) eqn:Hs.
    + unfold response_json in Erun.
      destruct (json_ r) as [data | e] eqn:Hj.
      * destruct data as [| b | z | s | l0 | d];
          try (rewrite Erun;
               split; [split; [discriminate
                              | intros [r' [d' [H [_ [Hd _]]]]]; injection H as <-;
                                rewrite Hj in Hd; discriminate Hd] |];
               split; [intros _; reflexivity |];
               split; [intros r' d' H _ Hd; injection H as <-;
                       rewrite Hj in Hd; discriminate Hd
                      | intros _; split; reflexivity]).
        run_rest in Erun.
        assert (Hsame : forall r' d',
                   Responds r = Responds r' -> json_ r' = Ok (PDict d') -> d' = d).
        { intros r' d' H Hd. injection H as <-. rewrite Hj in Hd.
          injection Hd as Hd. symmetry. exact Hd. }
        unfold reservation_line, password_line, get_or_none.
        destruct (encodes py (MARK_OK +++ _)) eqn:H1 in Erun;
          cbn -[String.append lookup] in Erun;
          [destruct (encodes py ("Reservation password: " +++ _)) eqn:H2 in Erun;
             cbn -[String.append lookup] in Erun |];
          rewrite Erun; cbn [fst snd reservation_id reservation_pwd set_stdout
                             set_reservation_id set_reservation_pwd after set_wire].
        -- split; [split; [intros _ | reflexivity] |].
           { exists r, d. apply Z.eqb_eq in Hs.
             split; [reflexivity | split; [exact Hs | split; [exact Hj |
               split; [exact H1 | exact H2]]]]. }
           split; [intro H; exfalso; apply H; reflexivity |].
           split; [| intro H; discriminate H].
           intros r' d' H _ Hd. rewrite (Hsame r' d' H Hd). split; reflexivity.
        -- split; [split; [discriminate |] |].
           { intros [r' [d' [H [_ [Hd [_ H2']]]]]].
             rewrite (Hsame r' d' H Hd) in H2'. rewrite H2 in H2'.
             discriminate H2'. }
           split; [intros _; reflexivity |].
           split; [| intro H; discriminate H].
           intros r' d' H _ Hd. rewrite (Hsame r' d' H Hd). split; reflexivity.
        -- split; [split; [discriminate |] |].
           { intros [r' [d' [H [_ [Hd [H1' _]]]]]].
             rewrite (Hsame r' d' H Hd) in H1'. rewrite H1 in H1'.
             discriminate H1'. }
           split; [intros _; reflexivity |].
           split; [| intro H; discriminate H].
           intros r' d' H _ Hd. rewrite (Hsame r' d' H Hd). split; reflexivity.
      * rewrite Erun.
        split; [split; [discriminate
                       | intros [r' [d' [H [_ [Hd _]]]]]; injection H as <-;
                         rewrite Hj in Hd; discriminate Hd] |].
        split; [intros _; reflexivity |].
        split; [intros r' d' H _ Hd; injection H as <-;
                rewrite Hj in Hd; discriminate Hd
               | intros _; split; reflexivity].
    + rewrite Erun.
      split; [split; [discriminate
                     | intros [r' [d' [H [Hs' _]]]]; injection H as <-;
                       apply Z.eqb_neq in Hs; contradiction] |].
      split; [intros _; reflexivity |].
      split; [intros r' d' H Hs' _; injection H as <-;
              apply Z.eqb_neq in Hs; contradiction
             | intros _; split; reflexivity].
Qed.

(** X10. Step 1 sends exactly one request.  It reports success exactly when
    the answer is HTTP 200 with a JSON object as body and stdout takes the
    two lines that show the reservation id and password found in it ([None]
    for a missing one); in every other case it reports failure.  The two
    fields are overwritten as soon as the answer is HTTP 200 with a JSON
    object, also when a line then fails to print and the step reports
    failure; for any other answer they stay as they were. *)
Theorem X10_step_1_exactly t :
  let run := step_1_create_public_reservation py srv now t in
  let q := reservation_request py now t in
  wire (snd run) = wire t ++ [q]
  /\ (fst run = Ok true <->
      exists r d,
        srv (wire t ++ [q]) = Responds r
        /\ status_code r = 200%Z /\ json_ r = Ok (PDict d)
        /\ encodes py (reservation_line py (get_or_none d "reservation_id")) = true
        /\ encodes py (password_line py (get_or_none d "reservation_pwd")) = true)
  /\ (fst run <> Ok true -> fst run = Ok false)
  /\ (forall r d,
        srv (wire t ++ [q]) = Responds r -> status_code r = 200%Z ->
        json_ r = Ok (PDict d) ->
        reservation_id (snd run) = get_or_none d "reservation_id"
        /\ reservation_pwd (snd run) = get_or_none d "reservation_pwd")
  /\ (grants (srv (wire t ++ [q])) = false ->
      reservation_id (snd run) = reservation_id t
      /\ reservation_pwd (snd run) = reservation_pwd t).
Proof. exact (step_1_cases t). Qed.

(** X15. Step 6 sends exactly one request, and reports success exactly when
    the answer is HTTP 200 with a JSON object whose [result] is truthy; it
    does not look at [created_did]. *)
Theorem X15_step_6_exactly t :
  let run := step_6_validate_issuer_status py srv t in
  wire (snd run) = wire t ++ [readback_request py t]
  /\ (exists b, fst run = Ok b)
  /\ (fst run = Ok true <->
      exists r d, srv (wire t ++ [readback_request py t]) = Responds r
                  /\ status_code r = 200%Z /\ json_ r = Ok (PDict d)
                  /\ truthy (get_or_none d "result") = true).
Proof.
  intro run. split; [apply step_6_wire |].
  assert (Erun : run = step_6_validate_issuer_status py srv t) by reflexivity.
  clearbody run.
  unfold step_6_validate_issuer_status in Erun. rewrite bind_log in Erun.
  pose proof (make_request_get py srv "/wallet/did/public" true
                (add_line ("INFO", "=== STEP 6: Validate Issuer Status ===") t))
    as Hreq.
  change (wire (add_line _ t) ++ [request_of py _ _ _ _ _])
    with (wire t ++ [readback_request py t]) in Hreq.
  destruct (srv (wire t ++ [readback_request py t])) as [e | r];
    destruct Hreq as [l E].
  - rewrite (try_bind_raise _ _ _ _ _ _ E) in Erun. rewrite Erun.
    split; [exists false; reflexivity |].
    split; [discriminate | intros [r [d [H _]]]; discriminate H].
  - rewrite (try_bind_ok _ _ _ _ _ _ E) in Erun.
    destruct (Z.eqb (status_code r) 200) eqn:Hs.
    + unfold response_json in Erun.
      destruct (json_ r) as [data | e] eqn:Hj.
      * destruct data as [| b | z | s | l0 | d];
          try (rewrite Erun; split; [exists false; reflexivity |];
               split; [discriminate
                      | intros [r' [d' [H [_ [Hd _]]]]]; injection H as <-;
                        rewrite Hj in Hd; discriminate Hd]).
        run_rest in Erun. fold (get_or_none d "result") in Erun.
        destruct (truthy (get_or_none d "result")) eqn:Ht; rewrite Erun.
        -- split; [exists true; reflexivity |]. split; [intros _ | reflexivity].
           exists r, d. apply Z.eqb_eq in Hs. repeat split; assumption.
        -- split; [exists false; reflexivity |]. split; [discriminate |].
           intros [r' [d' [H [_ [Hd Ht']]]]]. injection H as <-.
           rewrite Hj in Hd. injection Hd as <-. rewrite Ht in Ht'. discriminate Ht'.
      * rewrite Erun. split; [exists false; reflexivity |].
        split; [discriminate
               | intros [r' [d' [H [_ [Hd _]]]]]; injection H as <-;
                 rewrite Hj in Hd; discriminate Hd].
    + rewrite Erun. split; [exists false; reflexivity |].
      split; [discriminate
             | intros [r' [d' [H [Hs' _]]]]; injection H as <-;
               apply Z.eqb_neq in Hs; contradiction].
Qed.

Lemma step_2_wire t :
  truthy (reservation_id t) = true ->
  wire (snd (step_2_tenant_checkin py srv t)) = wire t ++ [checkin_request py t].
Proof.
  intro Hid. unfold step_2_tenant_checkin. rewrite bind_log.
  unfold bind at 1, self at 1.
  change (reservation_id (add_line _ t)) with (reservation_id t).
  change (reservation_pwd (add_line _ t)) with (reservation_pwd t).
  rewrite Hid. cbn [negb].
  rewrite one_post; [reflexivity | intro; quiet | intro; quiet].
Qed.

(** Step 2 past its guard, case by case. *)
Lemma step_2_cases t :
  truthy (reservation_id t) = true ->
  let run := step_2_tenant_checkin py srv t in
  match srv (wire t ++ [checkin_request py t]) with
  | Fails _ => fst run = Ok false
  | Responds r =>
      if Z.eqb (status_code r) 200 then
        match json_ r with
        | Ok (PDict d) =>
            tenant_token (snd run) = get_or_none d "token"
            /\ fst run = Ok (truthy (get_or_none d "token")
                              && has_len (get_or_none d "token"))%bool
        | _ => fst run = Ok false
        end
      else fst run = Ok false
  end.
Proof.
  intros Hid run.
  assert (Erun : run = step_2_tenant_checkin py srv t) by reflexivity.
  clearbody run.
  unfold step_2_tenant_checkin in Erun. rewrite bind_log in Erun.
  unfold bind at 1, self at 1 in Erun.
  change (reservation_id (add_line _ t)) with (reservation_id t) in Erun.
  change (reservation_pwd (add_line _ t)) with (reservation_pwd t) in Erun.
  rewrite Hid in Erun. cbn [negb] in Erun.
  pose proof (make_request_post py srv
                ("/multitenancy/reservations/" +++ str py (reservation_id t)
                   +++ "/check-in")
                (PDict [("reservation_pwd", reservation_pwd t)]) false
                (add_line ("INFO", "=== STEP 2: Tenant Check-In ===") t))
    as Hreq.
  change (wire (add_line _ t) ++ [request_of py _ _ _ _ _])
    with (wire t ++ [checkin_request py t]) in Hreq.
  destruct (srv (wire t ++ [checkin_request py t])) as [e | r];
    destruct Hreq as [l E].
  - rewrite (try_bind_raise _ _ _ _ _ _ E) in Erun. rewrite Erun. reflexivity.
  - rewrite (try_bind_ok _ _ _ _ _ _ E) in Erun.
    destruct (Z.eqb (status_code r) 200); [| rewrite Erun; reflexivity].
    unfold response_json in Erun.
    destruct (json_ r) as [data | e]; [| rewrite Erun; reflexivity].
    destruct data as [| b | z | s | l0 | d]; try (rewrite Erun; reflexivity).
    run_rest in Erun. fold (get_or_none d "token") in Erun.
    destruct (truthy (get_or_none d "token")) eqn:Ht.
    + destruct (get_or_none d "token") as [| b | z | s | l0 | d0];
        cbn -[String.append lookup] in Erun; rewrite Erun; split; reflexivity.
    + rewrite Erun. split; reflexivity.
Qed.

(** X11. With a reservation in hand, step 2 sends exactly one request.  It
    reports success exactly when the answer is HTTP 200 with a JSON object
    whose [token] is truthy and has a length; whatever [token] the object
    holds is stored, also when the step then reports failure (a number as
    token is stored, and the step fails on [len]). *)
Theorem X11_step_2_exactly t :
  truthy (reservation_id t) = true ->
  let run := step_2_tenant_checkin py srv t in
  wire (snd run) = wire t ++ [checkin_request py t]
  /\ (fst run = Ok true <->
      exists r d, srv (wire t ++ [checkin_request py t]) = Responds r
                  /\ status_code r = 200%Z /\ json_ r = Ok (PDict d)
                  /\ truthy (get_or_none d "token") = true
                  /\ has_len (get_or_none d "token") = true)
  /\ (fst run <> Ok true -> fst run = Ok false)
  /\ (forall r d, srv (wire t ++ [checkin_request py t]) = Responds r ->
        status_code r = 200%Z -> json_ r = Ok (PDict d) ->
        tenant_token (snd run) = get_or_none d "token").
Proof.
  intros Hid run. split; [apply step_2_wire; exact Hid |].
  pose proof (step_2_cases t Hid) as H. cbv zeta in H. fold run in H.
  destruct (srv (wire t ++ [checkin_request py t])) as [e | r].
  { rewrite H.
    split; [split; [discriminate | intros [r [d [E _]]]; discriminate E] |].
    split; [reflexivity | intros r d E; discriminate E]. }
  destruct (Z.eqb (status_code r) 200) eqn:Hs.
  2:{ rewrite H.
      split; [split; [discriminate
                     | intros [r' [d [E [Hs' _]]]]; injection E as <-;
                       apply Z.eqb_neq in Hs; contradiction] |].
      split; [reflexivity
             | intros r' d E Hs' _; injection E as <-;
               apply Z.eqb_neq in Hs; contradiction]. }
  destruct (json_ r) as [data | e] eqn:Hj.
  2:{ rewrite H.
      split; [split; [discriminate
                     | intros [r' [d [E [_ [Hd _]]]]]; injection E as <-;
                       rewrite Hj in Hd; discriminate Hd] |].
      split; [reflexivity
             | intros r' d E _ Hd; injection E as <-;
               rewrite Hj in Hd; discriminate Hd]. }
  destruct data as [| b | z | s | l0 | d];
    try (rewrite H;
         split; [split; [discriminate
                        | intros [r' [d' [E [_ [Hd _]]]]]; injection E as <-;
                          rewrite Hj in Hd; discriminate Hd] |];
         split; [reflexivity
                | intros r' d' E _ Hd; injection E as <-;
                  rewrite Hj in Hd; discriminate Hd]).
  destruct H as [Htok Hres].
  assert (Hsame : forall r' d',
             Responds r = Responds r' -> json_ r' = Ok (PDict d') -> d' = d).
  { intros r' d' E Hd. injection E as <-. rewrite Hj in Hd.
    injection Hd as <-. reflexivity. }
  split; [| split].
  - rewrite Hres. split.
    + intro E. injection E as E. apply andb_prop in E. destruct E as [E1 E2].
      exists r, d. apply Z.eqb_eq in Hs. repeat split; assumption.
    + intros [r' [d' [E [_ [Hd [E1 E2]]]]]]. rewrite (Hsame r' d' E Hd) in E1, E2.
      rewrite E1, E2. reflexivity.
  - rewrite Hres.
    destruct (truthy (get_or_none d "token") && has_len (get_or_none d "token"))%bool;
      [intro Hn; exfalso; apply Hn; reflexivity | reflexivity].
  - intros r' d' E _ Hd. rewrite (Hsame r' d' E Hd). exact Htok.
Qed.

Lemma step_2_guard t :
  truthy (reservation_id t) = false ->
  fst (step_2_tenant_checkin py srv t) = Ok false.
Proof.
  intro H. remember (step_2_tenant_checkin py srv t) as run eqn:Erun.
  unfold step_2_tenant_checkin in Erun. rewrite bind_log in Erun.
  unfold bind at 1, self at 1 in Erun.
  change (reservation_id (add_line _ t)) with (reservation_id t) in Erun.
  rewrite H in Erun. rewrite Erun. reflexivity.
Qed.

(** What a successful step 2 guarantees. *)
Lemma step_2_success t t' :
  step_2_tenant_checkin py srv t = (Ok true, t') ->
  truthy (reservation_id t') = true /\ truthy (tenant_token t') = true.
Proof.
  intro E.
  destruct (truthy (reservation_id t)) eqn:Hid.
  2:{ pose proof (step_2_guard t Hid) as H. rewrite E in H. discriminate H. }
  split.
  - pose proof (step_2_keeps py srv reservation_id
                  (fun _ _ => eq_refl) (fun _ _ => eq_refl) (fun _ _ => eq_refl) t)
      as Hk.
    unfold keeps in Hk. rewrite E in Hk. simpl in Hk. rewrite Hk. exact Hid.
  - pose proof (step_2_cases t Hid) as H. cbv zeta in H. rewrite E in H.
    cbn [fst snd] in H.
    destruct (srv (wire t ++ [checkin_request py t])) as [e | r];
      [discriminate H |].
    destruct (Z.eqb (status_code r) 200); [| discriminate H].
    destruct (json_ r) as [data | e]; [| discriminate H].
    destruct data as [| b | z | s | l0 | d]; try discriminate H.
    destruct H as [Htok Hres]. rewrite Htok.
    injection Hres as Hres. symmetry in Hres.
    apply andb_prop in Hres. apply Hres.
Qed.

Lemma check_server_config_wire t :
  wire (snd (check_server_config py srv t))
  = wire t ++ [server_config_request py t].
Proof.
  unfold check_server_config.
  rewrite one_get; [reflexivity | intro; quiet | intro; quiet].
Qed.

(** Step 3, case by case. *)
Lemma step_3_cases t :
  let run := step_3_validate_configuration py srv t in
  let q1 := tenant_config_request py t in
  let q2 := server_config_request py t in
  (fst run = Ok true <->
   exists r config, srv (wire t ++ [q1]) = Responds r
                    /\ status_code r = 200%Z /\ json_ r = Ok config)
  /\ (fst run = Ok true -> wire (snd run) = wire t ++ [q1; q2])
  /\ (fst run <> Ok true ->
      fst run = Ok false /\ wire (snd run) = wire t ++ [q1]).
Proof.
  intros run q1 q2.
  assert (Erun : run = step_3_validate_configuration py srv t) by reflexivity.
  clearbody run.
  unfold step_3_validate_configuration in Erun. rewrite bind_log in Erun.
  unfold bind at 1 in Erun. unfold check_tenant_config at 1 in Erun.
  pose proof (make_request_get py srv "/tenant/config" true
                (add_line ("INFO", "=== STEP 3: Validate Configuration ===") t))
    as Hq1.
  change (wire (add_line _ t) ++ [request_of py _ _ _ _ _])
    with (wire t ++ [q1]) in Hq1.
  destruct (srv (wire t ++ [q1])) as [e | r]; destruct Hq1 as [l1 E1].
  - rewrite (try_bind_raise _ _ _ _ _ _ E1) in Erun. rewrite Erun.
    split; [split; [discriminate | intros [r [c [H _]]]; discriminate H] |].
    split; [discriminate | intros _; split; reflexivity].
  - rewrite (try_bind_ok _ _ _ _ _ _ E1) in Erun.
    destruct (Z.eqb (status_code r) 200) eqn:Hs.
    + unfold response_json at 1 in Erun.
      destruct (json_ r) as [config | e] eqn:Hj.
      * assert (Ht2 : exists t2,
                   run = check_server_config py srv t2
                   /\ wire t2 = wire t ++ [q1] /\ base_url t2 = base_url t
                   /\ tenant_token t2 = tenant_token t).
        { run_rest in Erun. destruct (debug t); eexists;
            (split; [exact Erun | repeat split]). }
        clear Erun E1. destruct Ht2 as [t2 [Erun [Hw [Hb Ht]]]].
        assert (Htrue : fst run = Ok true)
          by (rewrite Erun; apply check_server_config_true).
        split; [split; [intros _ | intros _; exact Htrue] |].
        { exists r, config. apply Z.eqb_eq in Hs. repeat split; assumption. }
        split; [intros _ | intro H; exfalso; apply H; exact Htrue].
        rewrite Erun, check_server_config_wire, Hw.
        unfold server_config_request, request_of, auth_headers.
        rewrite Hb, Ht, <- app_assoc. reflexivity.
      * rewrite Erun.
        split; [split; [discriminate
                       | intros [r' [c [H [_ Hd]]]]; injection H as <-;
                         rewrite Hj in Hd; discriminate Hd] |].
        split; [discriminate | intros _; split; reflexivity].
    + rewrite Erun.
      split; [split; [discriminate
                     | intros [r' [c [H [Hs' _]]]]; injection H as <-;
                       apply Z.eqb_neq in Hs; contradiction] |].
      split; [discriminate | intros _; split; reflexivity].
Qed.

(** X12. Step 3 asks for the server configuration only once it has the
    tenant configuration.  It reports success exactly when the tenant
    configuration is answered with HTTP 200 and a JSON body, and has then
    sent exactly its two requests; in every other case it reports failure
    after the one request for the tenant configuration. *)
Theorem X12_step_3_exactly t :
  let run := step_3_validate_configuration py srv t in
  let q1 := tenant_config_request py t in
  let q2 := server_config_request py t in
  (fst run = Ok true <->
   exists r config, srv (wire t ++ [q1]) = Responds r
                    /\ status_code r = 200%Z /\ json_ r = Ok config)
  /\ (fst run = Ok true -> wire (snd run) = wire t ++ [q1; q2])
  /\ (fst run <> Ok true ->
      fst run = Ok false /\ wire (snd run) = wire t ++ [q1]).
Proof. exact (step_3_cases t). Qed.

(** Step 5, case by case: what it reports and what it has sent. *)
Lemma step_5_cases t :
  truthy (created_did t) = true ->
  let run := step_5_assign_public_did py srv t in
  let q1 := assign_request py t in
  let q2 := readback_request py t in
  match srv (wire t ++ [q1]) with
  | Fails _ => fst run = Ok false /\ wire (snd run) = wire t ++ [q1]
  | Responds r1 =>
      if Z.eqb (status_code r1) 200 then
        wire (snd run) = wire t ++ [q1; q2]
        /\ match srv (wire t ++ [q1; q2]) with
           | Fails _ => fst run = Ok false
           | Responds r2 =>
               if Z.eqb (status_code r2) 200 then
                 match observed_did r2 with
                 | Some v => fst run = Ok (py_eq v (created_did t))
                 | None => fst run = Ok false
                 end
               else fst run = Ok false
           end
      else fst run = Ok false /\ wire (snd run) = wire t ++ [q1]
  end.
Proof.
  intros Hdid run q1 q2.
  assert (Erun : run = step_5_assign_public_did py srv t) by reflexivity.
  clearbody run.
  unfold step_5_assign_public_did in Erun. rewrite bind_log in Erun.
  unfold bind at 1, self at 1 in Erun.
  change (created_did (add_line _ t)) with (created_did t) in Erun.
  rewrite Hdid in Erun. cbn [negb] in Erun.
  pose proof (make_request_post py srv
                ("/wallet/did/public?did=" +++ str py (created_did t))
                (PDict []) true
                (add_line ("INFO", "=== STEP 5: Assign Public DID ===") t))
    as Hq1.
  change (wire (add_line _ t) ++ [request_of py _ _ _ _ _])
    with (wire t ++ [q1]) in Hq1.
  destruct (srv (wire t ++ [q1])) as [e | r1]; destruct Hq1 as [l1 E1].
  - rewrite (try_bind_raise _ _ _ _ _ _ E1) in Erun. rewrite Erun.
    split; reflexivity.
  - rewrite (try_bind_ok _ _ _ _ _ _ E1) in Erun.
    destruct (Z.eqb (status_code r1) 200); [| rewrite Erun; split; reflexivity].
    rewrite try_log in Erun.
    split.
    { rewrite Erun. rewrite one_get; [| intro; quiet | intro; quiet].
      cbn [wire add_line after set_wire set_stdout]. rewrite <- app_assoc.
      reflexivity. }
    match type of Erun with
    | _ = try_except (bind (make_request _ _ _ _ _ _ _) _) _ ?t2 =>
        pose proof (make_request_get py srv "/wallet/did/public" true t2) as Hq2
    end.
    change (wire (add_line _ (after _ l1 _)) ++ [request_of py _ _ _ _ _])
      with ((wire t ++ [q1]) ++ [q2]) in Hq2.
    rewrite <- app_assoc in Hq2. cbn [app] in Hq2.
    destruct (srv (wire t ++ [q1; q2])) as [e | r2]; destruct Hq2 as [l2 E2].
    + rewrite (try_bind_raise _ _ _ _ _ _ E2) in Erun. rewrite Erun. reflexivity.
    + rewrite (try_bind_ok _ _ _ _ _ _ E2) in Erun.
      destruct (Z.eqb (status_code r2) 200); [| rewrite Erun; reflexivity].
      unfold observed_did. unfold response_json in Erun.
      destruct (json_ r2) as [data | e]; [| rewrite Erun; reflexivity].
      destruct data as [| b | z | s | l0 | body]; cbn [dict_get];
        try (rewrite Erun; reflexivity).
      run_rest in Erun.
      destruct (match lookup "result" body with Some x => x | None => PDict [] end)
        as [| b | z | s | l0 | result]; cbn [dict_get];
        try (rewrite Erun; reflexivity).
      cbn -[String.append lookup] in Erun.
      destruct (py_eq (match lookup "did" result with Some x => x | None => PNone end)
                      (created_did t)); [rewrite Erun; reflexivity |].
      destruct (encodes py _) in Erun; rewrite Erun; reflexivity.
Qed.



Lemma extract_did_truthy data did :
  extract_did data = Some did -> truthy did = true.
Proof.
  unfold extract_did.
  destruct (dict_get data "did" PNone) as [top |]; [| discriminate].
  destruct (truthy top) eqn:Ht; [intro H; injection H as <-; exact Ht |].
  destruct (dict_get data "result" (PDict [])) as [result |]; [| discriminate].
  destruct (dict_get result "did" PNone) as [nested |]; [| discriminate].
  destruct (truthy nested) eqn:Hn; [intro H; injection H as <-; exact Hn |].
  discriminate.
Qed.

Lemma created_by_truthy o did : created_by o = Some did -> truthy did = true.
Proof.
  unfold created_by. destruct o as [e | r]; [discriminate |].
  destruct (Z.eqb (status_code r) 200); [| discriminate].
  destruct (json_ r) as [data | e]; [apply extract_did_truthy | discriminate].
Qed.

(** X23. Step 4 sends its payloads in the order of [payloads_to_test] and
    stops at the first attempt that is accepted: the answer is HTTP 200 with
    an extractable identifier, and stdout takes the line that shows it.
    The identifier is stored as soon as an answer yields it, accepted or
    not; when no attempt is accepted the step reports failure after its
    three requests, and [created_did] is the last identifier that an answer
    yielded, or what it was when there is none. *)
Theorem X23_step_4_exactly t :
  let q k := create_request py t (nth k payloads_to_test PNone) in
  let o1 := srv (wire t ++ [q 0]) in
  let o2 := srv (wire t ++ [q 0; q 1]) in
  let o3 := srv (wire t ++ [q 0; q 1; q 2]) in
  let run := step_4_create_cheqd_did py srv t in
  match accepted_by py o1 with
  | Some did =>
      fst run = Ok true /\ wire (snd run) = wire t ++ [q 0]
      /\ created_did (snd run) = did
  | None =>
      match accepted_by py o2 with
      | Some did =>
          fst run = Ok true /\ wire (snd run) = wire t ++ [q 0; q 1]
          /\ created_did (snd run) = did
      | None =>
          match accepted_by py o3 with
          | Some did =>
              fst run = Ok true /\ wire (snd run) = wire t ++ [q 0; q 1; q 2]
              /\ created_did (snd run) = did
          | None =>
              fst run = Ok false /\ wire (snd run) = wire t ++ [q 0; q 1; q 2]
              /\ created_did (snd run)
                 = stored_after o3 (stored_after o2 (stored_after o1 (created_did t)))
          end
      end
  end.
Proof. exact (step_4_run py srv t). Qed.

(** What a successful step 4 guarantees. *)
Lemma step_4_success t :
  fst (step_4_create_cheqd_did py srv t) = Ok true ->
  truthy (created_did (snd (step_4_create_cheqd_did py srv t))) = true.
Proof.
  intro Hok.
  pose proof (step_4_run py srv t) as H. cbv beta zeta in H.
  destruct (accepted_by py (srv _)) as [did |] eqn:E1 in H.
  { destruct H as [_ [_ H]]. rewrite H.
    exact (created_by_truthy _ _ (accepted_created py _ _ E1)). }
  destruct (accepted_by py (srv _)) as [did |] eqn:E2 in H.
  { destruct H as [_ [_ H]]. rewrite H.
    exact (created_by_truthy _ _ (accepted_created py _ _ E2)). }
  destruct (accepted_by py (srv _)) as [did |] eqn:E3 in H.
  { destruct H as [_ [_ H]]. rewrite H.
    exact (created_by_truthy _ _ (accepted_created py _ _ E3)). }
  destruct H as [H _]. rewrite H in Hok. discriminate Hok.
Qed.

(** X16. A successful step 4 always leaves a truthy [created_did], so step 5,
    called next, gets past its guard and sends the write for that
    identifier. *)
Theorem X16_step_4_feeds_step_5 t :
  fst (step_4_create_cheqd_did py srv t) = Ok true ->
  let t' := snd (step_4_create_cheqd_did py srv t) in
  truthy (created_did t') = true
  /\ exists more,
       wire (snd (step_5_assign_public_did py srv t'))
       = wire t' ++ assign_request py t' :: more.
Proof.
  intros Hok t'.
  assert (Htruthy : truthy (created_did t') = true)
    by (apply step_4_success; exact Hok).
  split; [exact Htruthy |].
  pose proof (step_5_cases t' Htruthy) as H. cbv zeta in H.
  destruct (srv (wire t' ++ [assign_request py t'])) as [e | r1].
  - exists []. apply H.
  - destruct (Z.eqb (status_code r1) 200).
    + exists [readback_request py t']. apply H.
    + exists []. apply H.
Qed.

(** X18. A run that exits with status 0 ends with a reservation id, a token
    and a created DID in the tester, all three truthy. *)
Theorem X18_passing_run_holds_credentials base dbg :
  fst (main py srv now base dbg) = 0%Z ->
  let t := snd (main py srv now base dbg) in
  truthy (reservation_id t) = true
  /\ truthy (tenant_token t) = true
  /\ truthy (created_did t) = true.
Proof.
  intros Hexit t.
  destruct (run_full_test_spec py srv now (init base dbg)) as [closing [E _]].
  unfold t, main in *. rewrite E in *. cbn [fst snd] in *.
  set (s0 := started py (init base dbg)) in *.
  assert (Hall : forallb snd (fst (outcomes py srv now all_steps s0)) = true)
    by (destruct (forallb snd (fst (outcomes py srv now all_steps s0)));
        [reflexivity | discriminate Hexit]).
  clear Hexit E.
  pose proof (proj1 (outcomes_all_passed py srv now all_steps s0) Hall) as Hs.
  unfold all_steps in *. cbn [succeed_in_order] in Hs.
  destruct Hs as [t1 [E1 [t2 [E2 [t3 [E3 [t4 [E4 [t5 [E5 [t6 [E6 _]]]]]]]]]]]].
  cbn [outcomes]. rewrite E1. cbn [outcomes]. rewrite E2. cbn [outcomes].
  rewrite E3. cbn [outcomes]. rewrite E4. cbn [outcomes]. rewrite E5.
  cbn [outcomes]. rewrite E6.
  cbn [snd set_stdout reservation_id tenant_token created_did completed add_line].
  cbn [method_of] in E2, E3, E4, E5, E6.
  destruct (step_2_success _ _ E2) as [Hid Htok].
  pose proof (step_4_success (announced S4 (completed S3 t3))) as Hdid.
  rewrite E4 in Hdid. specialize (Hdid eq_refl). cbn [snd] in Hdid.
  assert (K3 : forall (f : tester -> pyval),
             (forall t l, f (set_stdout l t) = f t) ->
             (forall t w, f (set_wire w t) = f t) -> f t3 = f t2).
  { intros f H1 H2.
    pose proof (step_3_keeps py srv f H1 H2 (announced S3 (completed S2 t2))) as K.
    unfold keeps in K. rewrite E3 in K. cbn [snd] in K. rewrite K.
    unfold announced, completed, add_line. rewrite !H1. reflexivity. }
  assert (K4 : forall (f : tester -> pyval),
             (forall t l, f (set_stdout l t) = f t) ->
             (forall t w, f (set_wire w t) = f t) ->
             (forall t v, f (set_created_did v t) = f t) -> f t4 = f t3).
  { intros f H1 H2 H3.
    pose proof (step_4_keeps py srv f H1 H2 H3 (announced S4 (completed S3 t3))) as K.
    unfold keeps in K. rewrite E4 in K. cbn [snd] in K. rewrite K.
    unfold announced, completed, add_line. rewrite !H1. reflexivity. }
  assert (K5 : forall (f : tester -> pyval),
             (forall t l, f (set_stdout l t) = f t) ->
             (forall t w, f (set_wire w t) = f t) -> f t5 = f t4).
  { intros f H1 H2.
    pose proof (step_5_keeps py srv f H1 H2 (announced S5 (completed S4 t4))) as K.
    unfold keeps in K. rewrite E5 in K. cbn [snd] in K. rewrite K.
    unfold announced, completed, add_line. rewrite !H1. reflexivity. }
  assert (K6 : forall (f : tester -> pyval),
             (forall t l, f (set_stdout l t) = f t) ->
             (forall t w, f (set_wire w t) = f t) -> f t6 = f t5).
  { intros f H1 H2.
    pose proof (step_6_keeps py srv f H1 H2 (announced S6 (completed S5 t5))) as K.
    unfold keeps in K. rewrite E6 in K. cbn [snd] in K. rewrite K.
    unfold announced, completed, add_line. rewrite !H1. reflexivity. }
  split; [| split].
  - rewrite (K6 reservation_id), (K5 reservation_id), (K4 reservation_id),
      (K3 reservation_id); auto.
  - rewrite (K6 tenant_token), (K5 tenant_token), (K4 tenant_token),
      (K3 tenant_token); auto.
  - rewrite (K6 created_did), (K5 created_did); auto.
Qed.

(** ** The traffic of a whole run *)


Lemma step_2_success_wire t t' :
  step_2_tenant_checkin py srv t = (Ok true, t') ->
  wire t' = wire t ++ [checkin_request py t].
Proof.
  intro E. destruct (truthy (reservation_id t)) eqn:Hid.
  - pose proof (step_2_wire t Hid) as H. rewrite E in H. exact H.
  - pose proof (step_2_guard t Hid) as H. rewrite E in H. discriminate H.
Qed.

Lemma step_3_success_wire t t' :
  step_3_validate_configuration py srv t = (Ok true, t') ->
  wire t' = wire t ++ [tenant_config_request py t; server_config_request py t].
Proof.
  intro E. destruct (step_3_cases t) as [_ [H _]].
  rewrite E in H. exact (H eq_refl).
Qed.

Lemma step_4_success_wire t t' :
  step_4_create_cheqd_did py srv t = (Ok true, t') ->
  exists k, 1 <= k <= 3
            /\ wire t' = wire t
                           ++ map (create_request py t) (firstn k payloads_to_test).
Proof.
  intro E. pose proof (step_4_run py srv t) as H. cbv beta zeta in H.
  rewrite E in H. cbn [fst snd] in H.
  destruct (accepted_by py (srv _)) as [did |] in H.
  { exists 1. split; [lia | apply H]. }
  destruct (accepted_by py (srv _)) as [did |] in H.
  { exists 2. split; [lia | apply H]. }
  destruct (accepted_by py (srv _)) as [did |] in H.
  { exists 3. split; [lia | apply H]. }
  destruct H as [H _]. discriminate H.
Qed.

Lemma step_5_guard t :
  truthy (created_did t) = false ->
  fst (step_5_assign_public_did py srv t) = Ok false.
Proof.
  intro Hdid.
  unfold step_5_assign_public_did. rewrite bind_log.
  unfold bind at 1, self at 1.
  change (created_did (add_line _ t)) with (created_did t).
  rewrite Hdid. reflexivity.
Qed.

Lemma step_5_success_wire t t' :
  step_5_assign_public_did py srv t = (Ok true, t') ->
  wire t' = wire t ++ [assign_request py t; readback_request py t].
Proof.
  intro E. destruct (truthy (created_did t)) eqn:Hdid.
  - pose proof (step_5_cases t Hdid) as H. cbv zeta in H. rewrite E in H.
    cbn [fst snd] in H.
    destruct (srv (wire t ++ [assign_request py t])) as [e | r1].
    { destruct H as [H _]. discriminate H. }
    destruct (Z.eqb (status_code r1) 200).
    + apply H.
    + destruct H as [H _]. discriminate H.
  - pose proof (step_5_guard t Hdid) as H. rewrite E in H. discriminate H.
Qed.


End Exactly.

(** ** The summary, and the construction of the tester *)

(** X17. The summary loop prints one line per entry of [results], in the
    order of the entries, sends nothing, and returns [True] exactly when no
    entry is [False] (so for an empty [results] too, when started with
    [True]). *)
Theorem X17_summary_loop items all_passed t :
  let run := summarize items all_passed t in
  fst run = Ok (all_passed && forallb snd items)%bool
  /\ stdout (snd run)
     = stdout t
         ++ map (fun nb => ("INFO", fst nb +++ ": " +++ status_text (snd nb))) items
  /\ wire (snd run) = wire t.
Proof.
  intro run. unfold run. rewrite summarize_spec.
  split; [reflexivity | split; reflexivity].
Qed.

Lemma append_slash_not_empty s : s +++ "/" <> "".
Proof. destruct s; discriminate. Qed.

Lemma rstrip_slash_split s :
  exists n, s = rstrip_slash s +++ repeat_str "/" n.
Proof.
  induction s as [| c r [n IH]]; [exists 0; reflexivity |].
  simpl. destruct (rstrip_slash r) as [| c' r'] eqn:E.
  - simpl in IH. destruct (Ascii.eqb c "/") eqn:Ec.
    + apply Ascii.eqb_eq in Ec. subst c. exists (S n). simpl. rewrite <- IH.
      reflexivity.
    + exists n. simpl. rewrite <- IH. reflexivity.
  - exists n. simpl. simpl in IH. rewrite <- IH. reflexivity.
Qed.

Lemma rstrip_slash_no_trailing s : forall s', rstrip_slash s <> s' +++ "/".
Proof.
  induction s as [| c r IH]; intro s'; simpl.
  - intro H. symmetry in H. exact (append_slash_not_empty _ H).
  - destruct (rstrip_slash r) as [| c' r'] eqn:E.
    + destruct (Ascii.eqb c "/") eqn:Ec.
      * intro H. symmetry in H. exact (append_slash_not_empty _ H).
      * destruct s' as [| c2 s'']; simpl; intro H.
        -- injection H as Hc. subst c. discriminate Ec.
        -- injection H as _ H. exact (append_slash_not_empty _ (eq_sym H)).
    + destruct s' as [| c2 s'']; simpl; intro H.
      * discriminate H.
      * injection H as _ H. exact (IH s'' H).
Qed.

(** X1. A new tester has the base URL it was given without its trailing
    slashes, and only those removed (an all-slash or empty argument gives the
    empty base URL); it holds no reservation, token or DID, and has printed
    and sent nothing. *)
Theorem X1_init base dbg :
  let t := init base dbg in
  (exists n, base = base_url t +++ repeat_str "/" n)
  /\ (forall s, base_url t <> s +++ "/")
  /\ debug t = dbg
  /\ tenant_token t = PNone /\ reservation_id t = PNone
  /\ reservation_pwd t = PNone /\ created_did t = PNone
  /\ stdout t = [] /\ wire t = [].
Proof.
  intro t. split; [apply rstrip_slash_split |].
  split; [apply rstrip_slash_no_trailing |].
  repeat split.
Qed.

(** ** Without [--debug] *)

#[local] Instance hush_preorder : PreOrder hush.
Proof.
  split.
  - intros t Hd. split; [exact Hd |]. exists [].
    split; [symmetry; apply app_nil_r | constructor].
  - intros t1 t2 t3 H12 H23 Hd.
    destruct (H12 Hd) as [Hd2 [l1 [E1 F1]]].
    destruct (H23 Hd2) as [Hd3 [l2 [E2 F2]]].
    split; [exact Hd3 |]. exists (l1 ++ l2). split.
    + rewrite E2, E1. symmetry. apply app_assoc.
    + apply Forall_app. split; assumption.
Qed.

Lemma hush_same t t' :
  stdout t' = stdout t -> debug t' = debug t -> hush t t'.
Proof.
  intros Es Ed Hd. split; [rewrite Ed; exact Hd |].
  exists []. split; [rewrite Es; symmetry; apply app_nil_r | constructor].
Qed.

Lemma hush_line level msg t :
  level <> "DEBUG" -> hush t (set_stdout (stdout t ++ [(level, msg)]) t).
Proof.
  intros Hl Hd. split; [exact Hd |]. exists [(level, msg)].
  split; [reflexivity | repeat constructor; exact Hl].
Qed.

Section Hush.

Variable py : builtins.
Variable srv : server.
Variable now : Z.

Lemma make_request_hush method ep payload headers auth :
  supported (upper py method) ->
  respects hush (make_request py srv method ep payload headers auth).
Proof.
  intros Hm t Hd.
  destruct (make_request_run py srv method ep payload headers auth t Hm)
    as [d [E [_ Q]]].
  rewrite E. cbn [snd]. split; [exact Hd |].
  eexists. split; [reflexivity |]. rewrite (Q Hd).
  destruct (srv _); repeat constructor. discriminate.
Qed.

Ltac hush_leaf :=
  first
    [ apply make_request_hush; first [apply supported_GET | apply supported_POST]
    | apply hush_same; reflexivity
    | apply hush_line; discriminate ].

Ltac hush_walk :=
  unfold log_data, log, log_at, response_json; respects_walk hush_leaf.

Lemma for_payloads_hush payloads :
  forall i, respects hush (for_payloads py srv i payloads).
Proof.
  induction payloads as [| p rest IH]; intro i; simpl.
  - hush_walk.
  - apply respects_bind; [typeclasses eauto | | intros [b |]].
    + unfold try_payload. hush_walk.
    + apply respects_ret. typeclasses eauto.
    + apply IH.
Qed.

Lemma method_hush i : respects hush (method_of py srv now i).
Proof.
  destruct i; simpl.
  - unfold step_1_create_public_reservation. hush_walk.
  - unfold step_2_tenant_checkin. hush_walk.
  - unfold step_3_validate_configuration, check_tenant_config,
      check_server_config. hush_walk.
  - unfold step_4_create_cheqd_did.
    apply respects_bind; [typeclasses eauto | | intros _].
    + hush_walk.
    + apply for_payloads_hush.
  - unfold step_5_assign_public_did. hush_walk.
  - unfold step_6_validate_issuer_status. hush_walk.
Qed.

(** X19. Without [--debug], a whole run prints no line at level DEBUG: the
    dumps that [log_request] and [log_response] make of every request and
    response are absent.  (What the steps print at the other levels, the
    text of a refused answer included, is not concerned.) *)
Theorem X19_no_debug_lines base :
  Forall (fun ln => fst ln <> "DEBUG")
         (stdout (snd (main py srv now base false))).
Proof.
  assert (H : respects hush (run_full_test py srv now)).
  { apply run_full_test_respects.
    - typeclasses eauto.
    - intros t msg. apply hush_line. discriminate.
    - apply method_hush. }
  destruct (H (init base false) eq_refl) as [_ [l [E F]]].
  unfold main.
  destruct (run_full_test py srv now (init base false)) as [[b | e] tf];
    simpl in *; rewrite E; exact F.
Qed.

End Hush.

Section RunTraffic.

Variable py : builtins.
Variable srv : server.
Variable now : Z.

(** What a step leaves as it was, read at the state it returns. *)
Lemma kept {X : Type} (f : tester -> X) (m : M bool) t b t' :
  respects (keeps f) m -> m t = (Ok b, t') -> f t' = f t.
Proof. intros H E. specialize (H t). rewrite E in H. exact H. Qed.

(** X22. A successful step 1 ends by printing, at level INFO and whether or
    not debug is on, the reservation id and then the reservation password
    it has just stored, in clear. *)
Theorem X22_step_1_prints_password t :
  let run := step_1_create_public_reservation py srv now t in
  fst run = Ok true ->
  exists l,
    stdout (snd run)
    = stdout t ++ l
        ++ [("INFO", MARK_OK +++ " Reservation created successfully: "
                       +++ str py (reservation_id (snd run)));
            ("INFO", "Reservation password: "
                       +++ str py (reservation_pwd (snd run)))].
Proof.
  intros run Hok.
  assert (Erun : run = step_1_create_public_reservation py srv now t) by reflexivity.
  clearbody run.
  unfold step_1_create_public_reservation in Erun. rewrite bind_log in Erun.
  cbv zeta in Erun.
  pose proof (make_request_post py srv "/multitenancy/reservations"
                (reservation_payload py now) false
                (add_line ("INFO", "=== STEP 1: Create Public Reservation ===") t))
    as Hreq.
  fold (reservation_payload py now) in Erun.
  destruct (srv _) as [e | r] in Hreq; destruct Hreq as [l E].
  - rewrite (try_bind_raise _ _ _ _ _ _ E) in Erun. rewrite Erun in Hok.
    discriminate Hok.
  - rewrite (try_bind_ok _ _ _ _ _ _ E) in Erun.
    destruct (Z.eqb (status_code r) 200).
    + unfold response_json in Erun.
      destruct (json_ r) as [data | e].
      * destruct data as [| b | z | s | l0 | d];
          try (rewrite Erun in Hok; discriminate Hok).
        exists (("INFO", "=== STEP 1: Create Public Reservation ===") :: l).
        run_rest in Erun.
        destruct (encodes py (MARK_OK +++ _)) in Erun;
          cbn -[String.append lookup] in Erun;
          [| rewrite Erun in Hok; discriminate Hok].
        destruct (encodes py ("Reservation password: " +++ _)) in Erun;
          cbn -[String.append lookup] in Erun;
          [| rewrite Erun in Hok; discriminate Hok].
        rewrite Erun. cbn -[String.append lookup]. rewrite <- !app_assoc.
        reflexivity.
      * rewrite Erun in Hok. discriminate Hok.
    + rewrite Erun in Hok. discriminate Hok.
Qed.

(** X20. The traffic of a run that exits with status 0 can be read off the
    tester it leaves: the reservation, the check-in, the two configuration
    reads, one to three creation requests with the payloads in their declared
    order, the assignment, and two reads of the public DID, each built from
    the final base URL, reservation, token and DID.  Such a run sends between
    8 and 10 requests. *)
Theorem X20_passing_run_traffic base dbg :
  fst (main py srv now base dbg) = 0%Z ->
  let t := snd (main py srv now base dbg) in
  exists k, 1 <= k <= 3
    /\ wire t
       = [reservation_request py now t; checkin_request py t;
          tenant_config_request py t; server_config_request py t]
         ++ map (create_request py t) (firstn k payloads_to_test)
         ++ [assign_request py t; readback_request py t; readback_request py t].
Proof.
  intros Hexit t.
  destruct (run_full_test_spec py srv now (init base dbg)) as [closing [E _]].
  unfold t, main in *. rewrite E in *. cbn [fst snd] in *.
  set (s0 := started py (init base dbg)) in *.
  assert (Hall : forallb snd (fst (outcomes py srv now all_steps s0)) = true)
    by (destruct (forallb snd (fst (outcomes py srv now all_steps s0)));
        [reflexivity | discriminate Hexit]).
  clear Hexit E.
  pose proof (proj1 (outcomes_all_passed py srv now all_steps s0) Hall) as Hs.
  unfold all_steps in *. cbn [succeed_in_order] in Hs.
  destruct Hs as [t1 [E1 [t2 [E2 [t3 [E3 [t4 [E4 [t5 [E5 [t6 [E6 _]]]]]]]]]]]].
  cbn [outcomes]. rewrite E1. cbn [outcomes]. rewrite E2. cbn [outcomes].
  rewrite E3. cbn [outcomes]. rewrite E4. cbn [outcomes]. rewrite E5.
  cbn [outcomes]. rewrite E6.
  cbn [snd]. clear Hall.
  cbn [method_of] in E1, E2, E3, E4, E5, E6.
  (* the requests of each step *)
  pose proof (step_1_wire py srv now (announced S1 s0)) as W1.
  rewrite E1 in W1. cbn [snd] in W1.
  pose proof (step_2_success_wire py srv _ _ E2) as W2.
  pose proof (step_3_success_wire py srv _ _ E3) as W3.
  destruct (step_4_success_wire py srv _ _ E4) as [k [Hk W4]].
  pose proof (step_5_success_wire py srv _ _ E5) as W5.
  pose proof (step_6_wire py srv (announced S6 (completed S5 t5))) as W6.
  rewrite E6 in W6. cbn [snd] in W6.
  exists k. split; [exact Hk |].
  (* what each step leaves as it was *)
  assert (B1 : base_url t1 = base_url s0)
    by (apply (kept base_url _ _ _ _
                 (step_1_keeps py srv now base_url
                    (fun _ _ => eq_refl) (fun _ _ => eq_refl)
                    (fun _ _ => eq_refl) (fun _ _ => eq_refl)) E1)).
  assert (K2 : forall (X : Type) (f : tester -> X),
             (forall t l, f (set_stdout l t) = f t) ->
             (forall t w, f (set_wire w t) = f t) ->
             (forall t v, f (set_tenant_token v t) = f t) -> f t2 = f t1).
  { intros X f H1 H2 H3.
    rewrite (kept f _ _ _ _ (step_2_keeps py srv f H1 H2 H3) E2).
    unfold announced, completed, add_line. rewrite !H1. reflexivity. }
  assert (K3 : forall (X : Type) (f : tester -> X),
             (forall t l, f (set_stdout l t) = f t) ->
             (forall t w, f (set_wire w t) = f t) -> f t3 = f t2).
  { intros X f H1 H2.
    rewrite (kept f _ _ _ _ (step_3_keeps py srv f H1 H2) E3).
    unfold announced, completed, add_line. rewrite !H1. reflexivity. }
  assert (K4 : forall (X : Type) (f : tester -> X),
             (forall t l, f (set_stdout l t) = f t) ->
             (forall t w, f (set_wire w t) = f t) ->
             (forall t v, f (set_created_did v t) = f t) -> f t4 = f t3).
  { intros X f H1 H2 H3.
    rewrite (kept f _ _ _ _ (step_4_keeps py srv f H1 H2 H3) E4).
    unfold announced, completed, add_line. rewrite !H1. reflexivity. }
  assert (K5 : forall (X : Type) (f : tester -> X),
             (forall t l, f (set_stdout l t) = f t) ->
             (forall t w, f (set_wire w t) = f t) -> f t5 = f t4).
  { intros X f H1 H2.
    rewrite (kept f _ _ _ _ (step_5_keeps py srv f H1 H2) E5).
    unfold announced, completed, add_line. rewrite !H1. reflexivity. }
  assert (K6 : forall (X : Type) (f : tester -> X),
             (forall t l, f (set_stdout l t) = f t) ->
             (forall t w, f (set_wire w t) = f t) -> f t6 = f t5).
  { intros X f H1 H2.
    rewrite (kept f _ _ _ _ (step_6_keeps py srv f H1 H2) E6).
    unfold announced, completed, add_line. rewrite !H1. reflexivity. }
  clear E1 E2 E3 E4 E5 E6.
  (* every request in terms of the fields it was built from *)
  unfold reservation_request, checkin_request, tenant_config_request,
    server_config_request, create_request, assign_request, readback_request,
    request_of, auth_headers in *.
  unfold announced, completed, add_line in *.
  cbn [base_url tenant_token reservation_id reservation_pwd created_did wire
       set_stdout andb] in *.
  rewrite W6, W5, W4, W3, W2, W1. clear W1 W2 W3 W4 W5 W6.
  rewrite (K6 _ base_url), (K6 _ tenant_token), (K6 _ created_did),
    (K6 _ reservation_id), (K6 _ reservation_pwd); auto.
  rewrite (K5 _ base_url), (K5 _ tenant_token), (K5 _ created_did),
    (K5 _ reservation_id), (K5 _ reservation_pwd); auto.
  rewrite (K4 _ base_url), (K4 _ tenant_token),
    (K4 _ reservation_id), (K4 _ reservation_pwd); auto.
  rewrite (K3 _ base_url), (K3 _ tenant_token),
    (K3 _ reservation_id), (K3 _ reservation_pwd); auto.
  rewrite (K2 _ base_url), (K2 _ reservation_id), (K2 _ reservation_pwd); auto.
  rewrite B1.
  change (wire s0) with (@nil request).
  rewrite <- !app_assoc. reflexivity.
Qed.


End RunTraffic.

(** ** The further statements at work on sample services *)


(** With Python's tables the long s is an S: [long_s_post] is a POST. *)
Example long_s_is_post :
  let run := make_request unicode_py happy long_s_post "/did/cheqd/create"
               (PDict []) None false onboarded in
  supported (upper unicode_py long_s_post)
  /\ map req_method (wire (snd run)) = ["POST"].
Proof. split; [right; left; reflexivity | vm_compute; reflexivity]. Qed.


(** The caller's own [Authorization] gives way to the bearer token; its
    other headers go out unchanged. *)
Lemma X4_witness :
  exists req,
    wire (snd (make_request demo_py happy "GET" "/tenant/config" PNone
                 (Some [("Accept", "application/json"); ("Authorization", "Basic abc")])
                 true onboarded))
    = [req]
    /\ lookup "Authorization" (req_headers req) = Some "Bearer jwt"
    /\ lookup "Accept" (req_headers req) = Some "application/json".
Proof.
  destruct (X4_authorization_header demo_py happy "GET" "/tenant/config" PNone
              (Some [("Accept", "application/json"); ("Authorization", "Basic abc")])
              true onboarded) as [req [Hw [_ Hb]]].
  - left. reflexivity.
  - exists req. destruct (Hb eq_refl) as [Ha Ho].
    split; [exact Hw | split; [exact Ha |]].
    rewrite Ho; [reflexivity | discriminate].
Defined.

Lemma X5_witness :
  stdout (snd (make_request demo_py down "GET" "/tenant/config" PNone None true
                 onboarded))
  = [("ERROR", "Request failed: connection refused")].
Proof.
  apply (X5_make_request_quiet demo_py down "GET" "/tenant/config" PNone None
           true onboarded).
  - left. reflexivity.
  - reflexivity.
Defined.

Lemma X7_witness :
  exists more,
    wire (snd (step_6_validate_issuer_status demo_py happy onboarded)) = more
    /\ Forall (fun r => req_headers r = [("Authorization", "Bearer jwt")]) more.
Proof.
  apply (X7_authenticated_steps_send_token demo_py happy 0 onboarded S6).
  - reflexivity.
  - simpl. lia.
Defined.

(** A token that is a number: it is stored, and the step fails. *)
Lemma X11_witness :
  let run := step_2_tenant_checkin demo_py
               (scripted [answer 200 (PDict [("token", PInt 5)])]) reserved in
  tenant_token (snd run) = PInt 5.
Proof.
  apply (proj2 (proj2 (proj2
           (X11_step_2_exactly demo_py
              (scripted [answer 200 (PDict [("token", PInt 5)])]) reserved
              eq_refl)))
           (mkResponse 200 "" [] "" (Ok (PDict [("token", PInt 5)])))
           [("token", PInt 5)]);
    reflexivity.
Defined.

(** An id that stdout cannot show: it is stored, and step 1 fails. *)
Lemma X10_witness :
  let run := step_1_create_public_reservation demo_py unprintable_reservation
               1700000000 (init "http://localhost:8032" false) in
  reservation_id (snd run) = PStr ("res-" +++ lone_surrogate)
  /\ reservation_pwd (snd run) = PStr "s3cret".
Proof.
  apply (proj1 (proj2 (proj2 (proj2
           (X10_step_1_exactly demo_py unprintable_reservation 1700000000
              (init "http://localhost:8032" false)))))
           (mkResponse 200 "" [] ""
              (Ok (PDict [("reservation_id", PStr ("res-" +++ lone_surrogate));
                          ("reservation_pwd", PStr "s3cret")])))
           [("reservation_id", PStr ("res-" +++ lone_surrogate));
            ("reservation_pwd", PStr "s3cret")]);
    reflexivity.
Defined.

Example unprintable_reservation_fails :
  fst (step_1_create_public_reservation demo_py unprintable_reservation
         1700000000 (init "http://localhost:8032" false)) = Ok false.
Proof. vm_compute. reflexivity. Qed.

Example number_as_token_fails :
  fst (step_2_tenant_checkin demo_py
         (scripted [answer 200 (PDict [("token", PInt 5)])]) reserved)
  = Ok false.
Proof. vm_compute. reflexivity. Qed.


Lemma X16_witness :
  truthy (created_did
            (snd (step_4_create_cheqd_did demo_py third_time_lucky onboarded)))
  = true.
Proof.
  apply (X16_step_4_feeds_step_5 demo_py third_time_lucky onboarded).
  vm_compute. reflexivity.
Defined.

Lemma X18_witness :
  let t := snd (main demo_py happy 1700000000 "http://localhost:8032/" false) in
  truthy (reservation_id t) = true
  /\ truthy (tenant_token t) = true
  /\ truthy (created_did t) = true.
Proof.
  apply (X18_passing_run_holds_credentials demo_py happy 1700000000
           "http://localhost:8032/" false).
  vm_compute. reflexivity.
Defined.

Lemma X20_witness :
  let t := snd (main demo_py longest 1700000000 "http://localhost:8032" false) in
  exists k, 1 <= k <= 3
    /\ wire t
       = [reservation_request demo_py 1700000000 t; checkin_request demo_py t;
          tenant_config_request demo_py t; server_config_request demo_py t]
         ++ map (create_request demo_py t) (firstn k payloads_to_test)
         ++ [assign_request demo_py t; readback_request demo_py t;
             readback_request demo_py t].
Proof.
  apply (X20_passing_run_traffic demo_py longest 1700000000
           "http://localhost:8032" false).
  vm_compute. reflexivity.
Defined.


Lemma X22_witness :
  let run := step_1_create_public_reservation demo_py happy 1700000000
               (init "http://localhost:8032" false) in
  exists l,
    stdout (snd run)
    = [] ++ l
        ++ [("INFO", MARK_OK +++ " Reservation created successfully: "
                       +++ str demo_py (reservation_id (snd run)));
            ("INFO", "Reservation password: "
                       +++ str demo_py (reservation_pwd (snd run)))].
Proof.
  apply (X22_step_1_prints_password demo_py happy 1700000000
           (init "http://localhost:8032" false)).
  vm_compute. reflexivity.
Defined.

(** The budget of ten requests is reached. *)
Example longest_run_sends_ten :
  let run := main demo_py longest 1700000000 "http://localhost:8032" false in
  fst run = 0%Z /\ List.length (wire (snd run)) = 10.
Proof. vm_compute. split; reflexivity. Qed.
